(** * Exam-Seating-Planner: the seat-allocation engine

    A shallow embedding of [allocator.py] together with the parts of
    [database.py] it calls.  The SQLite database is a record of tables; the
    functions of [database.py] are computations in a small state monad over
    that record, and the three allocation strategies are written in the same
    monad, statement by statement after the Python source. *)

From Stdlib Require Import List String Ascii ZArith Lia Bool Arith PeanoNat.
From Stdlib Require Import Permutation Sorted DecimalString.
Import ListNotations.

Local Open Scope string_scope.
Local Open Scope list_scope.
Local Open Scope nat_scope.

(** ** Rows of the tables ([create_tables] in database.py) *)

(** [students]: roll_no TEXT PRIMARY KEY, name, course, semester, email,
    subject_code. *)
Record student : Type := mk_student {
  roll_no : string;
  name : string;
  course : string;
  semester : string;
  email : string;
  subject_code : string
}.

(** [rooms]: room_no TEXT PRIMARY KEY, building, rows, columns, capacity.
    The three numeric columns are SQLite INTEGERs, read as Python ints. *)
Record room : Type := mk_room {
  room_no : string;
  building : string;
  rows : Z;
  columns : Z;
  capacity : Z
}.

(** [seating_allocations]: the columns [insert_allocation] fills in (the
    AUTOINCREMENT id is the position of the row in the table). *)
Record allocation : Type := mk_allocation {
  alloc_roll_no : string;
  alloc_room_no : string;
  row_num : Z;
  col_num : Z;
  alloc_seat_number : string;
  allocation_method : string
}.

(** The dictionaries appended to [room_seats] by the first two strategies. *)
Record seat : Type := mk_seat {
  seat_room_no : string;
  seat_row : Z;
  seat_col : Z;
  seat_number : string
}.

(** The database file: one list of rows per table, in insertion order. *)
Record store : Type := mk_store {
  students : list student;
  rooms : list room;
  seating_allocations : list allocation;
  activity_log : list (string * string)
}.

(** ** Python and SQLite primitives *)

(** [str(n)] for an int, as used by the f-strings. *)
Definition str_Z (z : Z) : string := NilZero.string_of_int (Z.to_int z).
Definition str_nat (n : nat) : string := NilZero.string_of_uint (Nat.to_uint n).

(** [range(lo, hi)]: empty when [hi <= lo]. *)
Definition range (lo hi : Z) : list Z :=
  map (fun i => (lo + Z.of_nat i)%Z) (seq 0 (Z.to_nat (hi - lo))).

(** [enumerate(l)] *)
Definition enumerate {A : Type} (l : list A) : list (nat * A) :=
  combine (seq 0 (List.length l)) l.

(** [not l] for a list *)
Definition is_empty {A : Type} (l : list A) : bool :=
  match l with [] => true | _ :: _ => false end.

(** Ordering by a text key: [ORDER BY key] in SQLite (BINARY collation) and
    [sorted(l, key=...)] in Python both compare the keys lexicographically,
    character by character; the sort is stable. *)
Section Sorting.
Context {A : Type} (key : A -> string).

Fixpoint insert_by (x : A) (l : list A) : list A :=
  match l with
  | [] => [x]
  | y :: l' =>
      if String.leb (key x) (key y) then x :: l else y :: insert_by x l'
  end.

Fixpoint sorted (l : list A) : list A :=
  match l with
  | [] => []
  | x :: l' => insert_by x (sorted l')
  end.
End Sorting.

(** ** The database monad *)

Definition DB (A : Type) : Type := store -> A * store.

Definition ret {A : Type} (a : A) : DB A := fun st => (a, st).

Definition bind {A B : Type} (m : DB A) (k : A -> DB B) : DB B :=
  fun st => let (a, st') := m st in k a st'.

Notation "x <- m ;; k" := (bind m (fun x => k))
  (at level 61, m at next level, right associativity).
Notation "m ;; k" := (bind m (fun _ => k))
  (at level 61, right associativity).
Notation "' pat <- m ;; k" := (bind m (fun x => match x with pat => k end))
  (at level 61, pat pattern, m at next level, right associativity).

(** [for x in l: acc = body(x, acc)], the loop-carried variables being [acc]. *)
Fixpoint for_each {A S : Type} (l : list A) (body : A -> S -> DB S) (acc : S)
  : DB S :=
  match l with
  | [] => ret acc
  | x :: l' => acc' <- body x acc ;; for_each l' body acc'
  end.

(** ** database.py *)

Definition clear_allocations : DB unit := fun st =>
  (tt, {| students := students st;
          rooms := rooms st;
          seating_allocations := [];
          activity_log := activity_log st |}).

Definition insert_allocation
  (roll room_ : string) (row col : Z) (seat_no method : string) : DB unit :=
  fun st =>
  (tt, {| students := students st;
          rooms := rooms st;
          seating_allocations :=
            seating_allocations st
              ++ [mk_allocation roll room_ row col seat_no method];
          activity_log := activity_log st |}).

Definition get_all_students : DB (list student) := fun st =>
  (sorted roll_no (students st), st).

Definition get_all_rooms : DB (list room) := fun st =>
  (sorted room_no (rooms st), st).

Definition log_activity (activity_type description : string) : DB unit :=
  fun st =>
  (tt, {| students := students st;
          rooms := rooms st;
          seating_allocations := seating_allocations st;
          activity_log := activity_log st ++ [(activity_type, description)] |}).

(** [insert_students(df)] and [insert_rooms(df)]: one INSERT per row of the
    uploaded sheet, [df] being its rows as they are bound to the statement
    (after [str(...).strip()] and [int(...)]).  A row whose key is already in
    the table violates the primary key; the exception is swallowed by
    [except Exception: pass] and the row is skipped. *)
Definition insert_student_row (l : list student) (row : student)
  : list student :=
  if existsb (fun s => (roll_no s =? roll_no row)%string) l then l
  else l ++ [row].

Definition insert_room_row (l : list room) (row : room) : list room :=
  if existsb (fun r => (room_no r =? room_no row)%string) l then l
  else l ++ [row].

Definition insert_students (df : list student) : DB unit := fun st =>
  (tt, {| students := fold_left insert_student_row df (students st);
          rooms := rooms st;
          seating_allocations := seating_allocations st;
          activity_log := activity_log st |}).

Definition insert_rooms (df : list room) : DB unit := fun st =>
  (tt, {| students := students st;
          rooms := fold_left insert_room_row df (rooms st);
          seating_allocations := seating_allocations st;
          activity_log := activity_log st |}).

Definition clear_students : DB unit := fun st =>
  (tt, {| students := [];
          rooms := rooms st;
          seating_allocations := seating_allocations st;
          activity_log := activity_log st |}).

Definition clear_rooms : DB unit := fun st =>
  (tt, {| students := students st;
          rooms := [];
          seating_allocations := seating_allocations st;
          activity_log := activity_log st |}).

(** ** allocator.py *)

(** [f"{room['room_no']}-R{row}C{col}"] *)
Definition seat_label (room_ : string) (row col : Z) : string :=
  (room_ ++ "-R" ++ str_Z row ++ "C" ++ str_Z col)%string.

(** The loop that fills [room_seats], shared word for word by
    [allocate_rollwise] and [allocate_random]. *)
Definition build_room_seats (rms : list room) : list seat :=
  flat_map (fun rm =>
    flat_map (fun row =>
      map (fun col =>
             mk_seat (room_no rm) row col (seat_label (room_no rm) row col))
          (range 1 (columns rm + 1)))
      (range 1 (rows rm + 1)))
    rms.

Definition default_seat : seat := mk_seat "" 0 0 "".

(** The enumerate loop of the first two strategies; [method] is the tag
    passed to [insert_allocation]. *)
Definition assign_loop (method : string) (room_seats : list seat)
  (studs : list student) : DB nat :=
  for_each (enumerate studs)
    (fun '(i, stu) allocated =>
       if i <? List.length room_seats then
         let st_ := nth i room_seats default_seat in
         insert_allocation (roll_no stu) (seat_room_no st_) (seat_row st_)
           (seat_col st_) (seat_number st_) method ;;
         ret (allocated + 1)
       else ret allocated)
    0.

Definition allocate_rollwise : DB (bool * string) :=
  clear_allocations ;;
  studs <- get_all_students ;;
  rms <- get_all_rooms ;;
  if is_empty studs || is_empty rms then
    ret (false, "No students or rooms available")
  else
    let students_sorted := sorted roll_no studs in
    let room_seats := build_room_seats rms in
    allocated <- assign_loop "rollwise" room_seats students_sorted ;;
    log_activity "allocation"
      ("Roll-wise allocation completed: " ++ str_nat allocated
         ++ " students allocated")%string ;;
    ret (true, ("Successfully allocated " ++ str_nat allocated
                  ++ " students rollwise.")%string).

(** [collections.defaultdict(list)] keyed by subject code.  Python dicts keep
    their keys in insertion order and [list(d.keys())[:2]] depends on it, so
    the dictionary is an association list in insertion order. *)
Definition defaultdict : Type := list (string * list student).

(** [d[k].append(x)] *)
Fixpoint dd_append (d : defaultdict) (k : string) (x : student) : defaultdict :=
  match d with
  | [] => [(k, [x])]
  | (k', l) :: d' =>
      if (k' =? k)%string then (k', l ++ [x]) :: d'
      else (k', l) :: dd_append d' k x
  end.

(** [d[k]] *)
Fixpoint dd_get (d : defaultdict) (k : string) : list student :=
  match d with
  | [] => []
  | (k', l) :: d' => if (k' =? k)%string then l else dd_get d' k
  end.

(** [list(d.keys())] *)
Definition dd_keys (d : defaultdict) : list string := map fst d.

Definition group_by_subject (studs : list student) : defaultdict :=
  fold_left (fun d stu => dd_append d (subject_code stu) stu) studs [].

Definition default_student : student := mk_student "" "" "" "" "" "".

(** The loop-carried variables of the zig-zag scan:
    [(a_index, b_index, allocated)]. *)
Definition zz_vars : Type := (nat * nat * nat)%type.

Section RandomSource.
(** [random.shuffle]: the [k]-th call of a run rearranges its argument into
    [shuffle k l]. *)
Variable shuffle : nat -> list student -> list student.

Definition allocate_random : DB (bool * string) :=
  clear_allocations ;;
  studs <- get_all_students ;;
  rms <- get_all_rooms ;;
  if is_empty studs || is_empty rms then
    ret (false, "No students or rooms available")
  else
    let students_list := shuffle 0 studs in
    let room_seats := build_room_seats rms in
    allocated <- assign_loop "random" room_seats students_list ;;
    log_activity "allocation"
      ("Random allocation completed: " ++ str_nat allocated
         ++ " students allocated")%string ;;
    ret (true, ("Successfully allocated " ++ str_nat allocated
                  ++ " students randomly.")%string).

(** The body of the innermost loop of [allocate_anti_cheating], for the
    seat at 0-based row [r] and column [c] of room [rm]. *)
Definition zigzag_seat (course_a course_b : string)
  (group_a group_b : list student) (rm : room) (r c : Z) (acc : zz_vars)
  : DB zz_vars :=
  let '(a_index, b_index, allocated) := acc in
  let zigzag_order :=
    if (r mod 2 =? 0)%Z then [course_a; course_b]
    else [course_b; course_a] in
  let current_course := nth (Z.to_nat (c mod 2)) zigzag_order "" in
  let place (stu : student) (a_index' b_index' : nat) : DB zz_vars :=
    insert_allocation (roll_no stu) (room_no rm) (r + 1) (c + 1)
      (seat_label (room_no rm) (r + 1) (c + 1)) "anti-cheating" ;;
    ret (a_index', b_index', allocated + 1) in
  if (current_course =? course_a)%string
     && (a_index <? List.length group_a) then
    place (nth a_index group_a default_student) (a_index + 1) b_index
  else if (current_course =? course_b)%string
          && (b_index <? List.length group_b) then
    place (nth b_index group_b default_student) a_index (b_index + 1)
  else if a_index <? List.length group_a then
    place (nth a_index group_a default_student) (a_index + 1) b_index
  else if b_index <? List.length group_b then
    place (nth b_index group_b default_student) a_index (b_index + 1)
  else ret acc.

Definition zigzag_scan (course_a course_b : string)
  (group_a group_b : list student) (rms : list room) : DB zz_vars :=
  for_each rms (fun rm =>
    let total_rows := rows rm in
    let total_cols := columns rm in
    for_each (range 0 total_rows) (fun r =>
      for_each (range 0 total_cols) (fun c =>
        zigzag_seat course_a course_b group_a group_b rm r c)))
    (0, 0, 0).

Definition allocate_anti_cheating : DB (bool * string) :=
  clear_allocations ;;
  studs <- get_all_students ;;
  rms <- get_all_rooms ;;
  if is_empty studs || is_empty rms then
    ret (false, "No students or rooms available")
  else
    let subject_groups := group_by_subject studs in
    if List.length subject_groups <? 2 then
      ret (false,
           "Need at least two different courses for anti-cheating allocation")
    else
      let subjects := firstn 2 (dd_keys subject_groups) in
      let course_a := nth 0 subjects "" in
      let course_b := nth 1 subjects "" in
      let group_a := shuffle 0 (dd_get subject_groups course_a) in
      let group_b := shuffle 1 (dd_get subject_groups course_b) in
      '(_, _, allocated) <-
        zigzag_scan course_a course_b group_a group_b rms ;;
      log_activity "allocation"
        ("Anti-Cheating (Zig-Zag) allocation completed: "
           ++ str_nat allocated ++ " students allocated")%string ;;
      ret (true, ("Successfully allocated " ++ str_nat allocated
                    ++ " students in Anti-Cheating Zig-Zag mode.")%string).
End RandomSource.

(** ** database.py: users *)

(** [users]: username TEXT UNIQUE NOT NULL, password_hash, is_admin (the
    AUTOINCREMENT id is the position of the row in the table; no row of this
    table is ever deleted). *)
Record user : Type := mk_user {
  username : string;
  password_hash : string;
  is_admin : Z
}.

(** [insert_user(username, password_hash, is_admin=1)]: [admin] is the third
    argument when the caller gives one.  A username already in the table
    violates the UNIQUE constraint; the [IntegrityError] is caught and
    [False] returned. *)
Definition insert_user (uname hash : string) (admin : option Z)
  (users : list user) : bool * list user :=
  let is_admin_ := match admin with Some v => v | None => 1%Z end in
  if existsb (fun u => (username u =? uname)%string) users then (false, users)
  else (true, users ++ [mk_user uname hash is_admin_]).

(** [get_user_by_username(username)]: [fetchone()] of the rows with that
    username. *)
Definition get_user_by_username (uname : string) (users : list user)
  : option user :=
  find (fun u => (username u =? uname)%string) users.

(** ** database.py: joined queries, capacity check, seat swap *)

(** [l LEFT JOIN r ON on]: each row of [l] with every matching row of [r],
    or once with NULLs when none matches. *)
Definition left_join {A B : Type} (on : A -> B -> bool) (l : list A)
  (r : list B) : list (A * option B) :=
  flat_map (fun a =>
              match filter (on a) r with
              | [] => [(a, None)]
              | ms => map (fun b => (a, Some b)) ms
              end) l.

(** A row of [SELECT sa.*, s.name, s.course, s.semester, s.email,
    s.subject_code, r.building]: the allocation, the student it joins (whose
    columns are NULL when there is none) and the building of its room. *)
Record allocation_row : Type := mk_allocation_row {
  row_allocation : allocation;
  row_student : option student;
  row_building : option string
}.

(** [get_allocation_by_roll(roll_no)] *)
Definition get_allocation_by_roll (roll : string)
  : DB (option allocation_row) := fun st =>
  let joined :=
    left_join (fun p rm => (alloc_room_no (fst p) =? room_no rm)%string)
      (left_join (fun sa s => (alloc_roll_no sa =? roll_no s)%string)
         (seating_allocations st) (students st))
      (rooms st) in
  let selected :=
    filter (fun q => (alloc_roll_no (fst (fst q)) =? roll)%string) joined in
  (hd_error
     (map (fun q => mk_allocation_row (fst (fst q)) (snd (fst q))
                      (option_map building (snd q)))
        selected),
   st).

(** What a call gives its caller: the value it returns, or the exception
    that leaves it. *)
Inductive outcome (A : Type) : Type :=
| Returned (a : A)
| Raised (error : string).

Arguments Returned {A} a.
Arguments Raised {A} error.

(** The range of an SQLite INTEGER. *)
Definition fits_int64 (z : Z) : bool :=
  ((- 2 ^ 63 <=? z) && (z <=? 2 ^ 63 - 1))%Z.

(** [SELECT SUM(capacity) FROM rooms]: SQLite adds the integers of the
    column in 64 bits, row after row in table order starting from [acc],
    and fails with "integer overflow" ([None]) as soon as a partial sum
    does not fit. *)
Fixpoint sum_int64 (acc : Z) (l : list Z) : option Z :=
  match l with
  | [] => Some acc
  | x :: l' =>
      if fits_int64 (acc + x) then sum_int64 (acc + x)%Z l' else None
  end.

(** [check_capacity()]: the [sqlite3.OperationalError] of an overflowing
    sum is not caught here.  [SUM(capacity)] of no row is NULL, which
    [or 0] turns into 0. *)
Definition check_capacity : DB (outcome (Z * Z * bool)) := fun st =>
  let total_students := Z.of_nat (List.length (students st)) in
  match sum_int64 0 (map capacity (rooms st)) with
  | None => (Raised "integer overflow", st)
  | Some total_capacity =>
      (Returned (total_students, total_capacity,
                 (total_students <=? total_capacity)%Z),
       st)
  end.

(** [fetchone()] of [SELECT * FROM seating_allocations WHERE roll_no = ?] *)
Definition fetch_allocation (roll : string) : DB (option allocation) :=
  fun st =>
  (find (fun a => (alloc_roll_no a =? roll)%string) (seating_allocations st),
   st).

(** [UPDATE seating_allocations SET room_no = ?, row_num = ?, col_num = ?,
    seat_number = ? WHERE roll_no = ?] *)
Definition update_seat (room_ : string) (row col : Z) (seat_no roll : string)
  : DB unit := fun st =>
  (tt, {| students := students st;
          rooms := rooms st;
          seating_allocations :=
            map (fun a =>
                   if (alloc_roll_no a =? roll)%string then
                     mk_allocation (alloc_roll_no a) room_ row col seat_no
                       (allocation_method a)
                   else a)
                (seating_allocations st);
          activity_log := activity_log st |}).

(** [swap_seats(roll1, roll2, performed_by=None)] *)
Definition swap_seats (roll1 roll2 : string) (performed_by : option string)
  : DB (bool * string) :=
  r1 <- fetch_allocation roll1 ;;
  r2 <- fetch_allocation roll2 ;;
  match r1, r2 with
  | None, None =>
      ret (false, ("Neither roll number " ++ roll1 ++ " nor " ++ roll2
                     ++ " have seat allocations.")%string)
  | None, Some _ =>
      ret (false, ("Roll number " ++ roll1
                     ++ " has no allocation to swap.")%string)
  | Some _, None =>
      ret (false, ("Roll number " ++ roll2
                     ++ " has no allocation to swap.")%string)
  | Some r1, Some r2 =>
      update_seat (alloc_room_no r2) (row_num r2) (col_num r2)
        (alloc_seat_number r2) roll1 ;;
      update_seat (alloc_room_no r1) (row_num r1) (col_num r1)
        (alloc_seat_number r1) roll2 ;;
      let actor :=
        match performed_by with
        | Some who => if (who =? "")%string then "system" else who
        | None => "system"
        end in
      let description :=
        ("Seat swap by " ++ actor ++ ": " ++ roll1 ++ " <-> " ++ roll2
           ++ " (rooms: " ++ alloc_room_no r1 ++ "<->" ++ alloc_room_no r2
           ++ "; seats: " ++ alloc_seat_number r1 ++ "<->"
           ++ alloc_seat_number r2 ++ ")")%string in
      log_activity "seat_swap" description ;;
      ret (true, ("Successfully swapped seats between " ++ roll1 ++ " and "
                    ++ roll2 ++ ".")%string)
  end.

(** ** app.py *)

(** [s.lower()] on the bytes of [s]: the ASCII capitals are mapped, every
    other byte is kept.  [allowed_file] only asks whether the result is one
    of "csv", "xlsx", "xls", and no character outside ASCII lowers to one of
    the letters of these words. *)
Definition lower_ascii (c : ascii) : ascii :=
  let n := nat_of_ascii c in
  if (65 <=? n) && (n <=? 90) then ascii_of_nat (n + 32) else c.

Fixpoint lower (s : string) : string :=
  match s with
  | EmptyString => EmptyString
  | String c s' => String (lower_ascii c) (lower s')
  end.

(** ['.' in s] *)
Fixpoint has_dot (s : string) : bool :=
  match s with
  | EmptyString => false
  | String c s' => (c =? ".")%char || has_dot s'
  end.

(** [s.rsplit('.', 1)[1]] for a string with a dot: what follows the last
    dot. *)
Fixpoint after_last_dot (s : string) : string :=
  match s with
  | EmptyString => EmptyString
  | String c s' =>
      if has_dot s' then after_last_dot s'
      else if (c =? ".")%char then s' else EmptyString
  end.

(** [allowed_file(filename)], with ALLOWED_EXTENSIONS = {'csv', 'xlsx',
    'xls'} *)
Definition allowed_file (filename : string) : bool :=
  has_dot filename
  && existsb (String.eqb (lower (after_last_dot filename)))
       ["csv"; "xlsx"; "xls"].

Section Routes.
Variable shuffle : nat -> list student -> list student.

(** The route [/api/allocate]: [method] is the string under the key
    'method' of the JSON body, if there is one; the result is the success
    flag and message of the response and its status code.
    [check_capacity()] is called before the [try], so what it raises leaves
    the route. *)
Definition allocate_seats (method : option string)
  : DB (outcome (bool * string * Z)) :=
  let method_ := match method with Some m => m | None => "anti-cheating" end in
  checked <- check_capacity ;;
  match checked with
  | Raised error => ret (Raised error)
  | Returned (student_count, capacity_, sufficient) =>
      if negb sufficient then
        ret (Returned
               (false,
                ("Insufficient capacity: " ++ str_Z student_count
                   ++ " students, " ++ str_Z capacity_ ++ " seats")%string,
                400%Z))
      else
        '(success, message) <-
          (if (method_ =? "rollwise")%string then allocate_rollwise
           else if (method_ =? "random")%string then allocate_random shuffle
           else allocate_anti_cheating shuffle) ;;
        ret (Returned (success, message, if success then 200%Z else 400%Z))
  end.
End Routes.

(** * Vocabulary of the statements *)

(** [x] comes no later than [y] in the order of the keys. *)
Definition key_le {A : Type} (key : A -> string) (x y : A) : Prop :=
  String.leb (key x) (key y) = true.

(** The row [insert_allocation] writes for student [stu] at seat [s]. *)
Definition seat_record (method : string) (stu : student) (s : seat)
  : allocation :=
  mk_allocation (roll_no stu) (seat_room_no s) (seat_row s) (seat_col s)
    (seat_number s) method.

(** The store after the rows [l] were appended to [seating_allocations]. *)
Definition add_allocations (l : list allocation) (st : store) : store :=
  {| students := students st;
     rooms := rooms st;
     seating_allocations := seating_allocations st ++ l;
     activity_log := activity_log st |}.

(** The store after [clear_allocations]. *)
Definition cleared (st : store) : store := snd (clear_allocations st).

(** The store after [log_activity]. *)
Definition logged (activity_type description : string) (st : store) : store :=
  snd (log_activity activity_type description st).

(** The position of a seat: room number, row and column. *)
Definition seat_pos (s : seat) : string * Z * Z :=
  (seat_room_no s, seat_row s, seat_col s).

(** The seat a record occupies. *)
Definition seat_of (a : allocation) : string * Z * Z :=
  (alloc_room_no a, row_num a, col_num a).

(** Number of rows and columns a room contributes to the scan. *)
Definition nrows (rm : room) : nat := Z.to_nat (rows rm).
Definition ncols (rm : room) : nat := Z.to_nat (columns rm).

(** The [k]-th seat of a room in row-major order: row [k / C + 1],
    column [k mod C + 1]. *)
Definition seat_at (rm : room) (k : nat) : seat :=
  let row := (Z.of_nat (k / ncols rm) + 1)%Z in
  let col := (Z.of_nat (k mod ncols rm) + 1)%Z in
  mk_seat (room_no rm) row col (seat_label (room_no rm) row col).

(** A seat of the zig-zag scan: its room and its 0-based row and column. *)
Definition position : Type := (room * Z * Z)%type.

(** The seats in the order the three nested loops of the zig-zag scan visit
    them. *)
Definition scan_positions (rms : list room) : list position :=
  flat_map (fun rm =>
    flat_map (fun r => map (fun c => (rm, r, c)) (range 0 (columns rm)))
      (range 0 (rows rm)))
    rms.

(** Room number and 1-based row and column of a scanned seat. *)
Definition pos_of (p : position) : string * Z * Z :=
  let '(rm, r, c) := p in (room_no rm, (r + 1)%Z, (c + 1)%Z).

(** The body of the scan at seat [p]. *)
Definition seat_body (course_a course_b : string)
  (group_a group_b : list student) (p : position) : zz_vars -> DB zz_vars :=
  zigzag_seat course_a course_b group_a group_b (fst (fst p)) (snd (fst p))
    (snd p).


(** Whose turn it is at row [r], column [c] (0-based): on even rows group A
    has the even columns, on odd rows the odd ones. *)
Definition turn_a (r c : Z) : bool :=
  if Z.even r then Z.even c else Z.odd c.

(** The choice at a seat, for groups of [la] and [lb] students of which [a]
    and [b] are placed: [Some true] takes from A, [Some false] from B, [None]
    leaves the seat empty. *)
Definition zz_pick (la lb : nat) (p : position) (a b : nat) : option bool :=
  let '(_, r, c) := p in
  if a <? la then
    if b <? lb then Some (turn_a r c) else Some true
  else if b <? lb then Some false else None.

Definition zz_next (la lb : nat) (s : nat * nat) (p : position) : nat * nat :=
  let '(a, b) := s in
  match zz_pick la lb p a b with
  | Some true => (S a, b)
  | Some false => (a, S b)
  | None => (a, b)
  end.

Definition zz_final (la lb : nat) (s : nat * nat) (ps : list position)
  : nat * nat :=
  fold_left (zz_next la lb) ps s.

(** The row written for student [stu] at seat [p]. *)
Definition zz_record (stu : student) (p : position) : allocation :=
  let '(rm, r, c) := p in
  mk_allocation (roll_no stu) (room_no rm) (r + 1) (c + 1)
    (seat_label (room_no rm) (r + 1) (c + 1)) "anti-cheating".

Definition zz_row (group_a group_b : list student) (s : nat * nat)
  (p : position) : list allocation :=
  let '(a, b) := s in
  match zz_pick (List.length group_a) (List.length group_b) p a b with
  | Some true => [zz_record (nth a group_a default_student) p]
  | Some false => [zz_record (nth b group_b default_student) p]
  | None => []
  end.

Fixpoint zz_rows (group_a group_b : list student) (s : nat * nat)
  (ps : list position) : list allocation :=
  match ps with
  | [] => []
  | p :: ps' =>
      zz_row group_a group_b s p
        ++ zz_rows group_a group_b
             (zz_next (List.length group_a) (List.length group_b) s p) ps'
  end.

(** What [get_all_students] and [get_all_rooms] return. *)
Definition roster (st : store) : list student := sorted roll_no (students st).
Definition halls (st : store) : list room := sorted room_no (rooms st).

(** The two subject codes the zig-zag strategy selects and their groups
    after the shuffles, for the student list [studs]. *)
Definition course_a_of (studs : list student) : string :=
  nth 0 (firstn 2 (dd_keys (group_by_subject studs))) "".
Definition course_b_of (studs : list student) : string :=
  nth 1 (firstn 2 (dd_keys (group_by_subject studs))) "".
Definition group_a_of (shuffle : nat -> list student -> list student)
  (studs : list student) : list student :=
  shuffle 0 (dd_get (group_by_subject studs) (course_a_of studs)).
Definition group_b_of (shuffle : nat -> list student -> list student)
  (studs : list student) : list student :=
  shuffle 1 (dd_get (group_by_subject studs) (course_b_of studs)).

(** [random.shuffle] rearranges: its result has the elements of its
    argument. *)
Definition fair (shuffle : nat -> list student -> list student) : Prop :=
  forall k l, Permutation l (shuffle k l).

(** The subject codes of [l] that are not in [seen], each listed once, in the
    order of their first occurrence. *)
Fixpoint first_seen (seen l : list string) : list string :=
  match l with
  | [] => []
  | k :: l' =>
      if existsb (fun k' => (k' =? k)%string) seen then first_seen seen l'
      else k :: first_seen (seen ++ [k]) l'
  end.

(** The constraints of the schema: [roll_no] and [room_no] are the primary
    keys of their tables. *)
Definition store_wf (st : store) : Prop :=
  NoDup (map roll_no (students st)) /\ NoDup (map room_no (rooms st)).

(** The calls of database.py that write to the store. *)
Inductive db_write : DB unit -> Prop :=
| write_insert_students df : db_write (insert_students df)
| write_insert_rooms df : db_write (insert_rooms df)
| write_clear_students : db_write clear_students
| write_clear_rooms : db_write clear_rooms
| write_clear_allocations : db_write clear_allocations
| write_insert_allocation roll room_ row col seat_no method :
    db_write (insert_allocation roll room_ row col seat_no method)
| write_log_activity ty desc : db_write (log_activity ty desc).

(** The stores these calls lead to from the empty tables of
    [create_tables]. *)
Inductive reachable : store -> Prop :=
| reach_created : reachable (mk_store [] [] [] [])
| reach_write st m : reachable st -> db_write m -> reachable (snd (m st)).

(** The store [st] holding the rows [l] in [seating_allocations]. *)
Definition with_allocations (l : list allocation) (st : store) : store :=
  {| students := students st;
     rooms := rooms st;
     seating_allocations := l;
     activity_log := activity_log st |}.

(** What the seat sequence reads of a room: number, rows and columns. *)
Definition room_dims (rm : room) : string * Z * Z :=
  (room_no rm, rows rm, columns rm).

(** Roll number and seat label of each row of a table of allocations. *)
Definition placements (l : list allocation) : list (string * string) :=
  map (fun a => (alloc_roll_no a, alloc_seat_number a)) l.

(** ** Sample data *)

Definition sample_student (roll code : string) : student :=
  mk_student roll "Student" "BSc" "3" "student@example.org" code.

Definition sample_rooms : list room :=
  [mk_room "101" "Main" 2 2 4; mk_room "102" "Main" 1 2 2].

(** Five students of three subjects and two rooms, both tables out of
    order, with one row left over from an earlier run. *)
Definition sample_store : store :=
  {| students :=
       [sample_student "S3" "PHY"; sample_student "S1" "MAT";
        sample_student "S5" "CHE"; sample_student "S2" "PHY";
        sample_student "S4" "MAT"];
     rooms := [mk_room "102" "Main" 1 2 2; mk_room "101" "Main" 2 2 4];
     seating_allocations :=
       [mk_allocation "S9" "101" 1 1 "101-R1C1" "random"];
     activity_log := [] |}.

(** The same with a sixth and a seventh student. *)
Definition sample_store_six : store :=
  {| students := students sample_store ++ [sample_student "S6" "CHE"];
     rooms := rooms sample_store;
     seating_allocations := [];
     activity_log := [] |}.

Definition sample_store_seven : store :=
  {| students := students sample_store_six ++ [sample_student "S7" "MAT"];
     rooms := rooms sample_store;
     seating_allocations := [];
     activity_log := [] |}.

(** Students of one subject only. *)
Definition sample_store_one_course : store :=
  {| students := [sample_student "S2" "MAT"; sample_student "S1" "MAT"];
     rooms := sample_rooms;
     seating_allocations :=
       [mk_allocation "S9" "101" 1 1 "101-R1C1" "random"];
     activity_log := [] |}.

(** Students but no room. *)
Definition sample_store_no_room : store :=
  {| students := [sample_student "S2" "MAT"; sample_student "S1" "PHY"];
     rooms := [];
     seating_allocations :=
       [mk_allocation "S9" "101" 1 1 "101-R1C1" "random"];
     activity_log := [] |}.

(** A shuffle that reverses its argument. *)
Definition sample_shuffle (k : nat) (l : list student) : list student := rev l.

(** The row [a] moved to the seat of the row [b]. *)
Definition reseat (a b : allocation) : allocation :=
  mk_allocation (alloc_roll_no a) (alloc_room_no b) (row_num b) (col_num b)
    (alloc_seat_number b) (allocation_method a).

(** What the two updates of [swap_seats] make of a row, [a1] and [a2] being
    the rows fetched for [roll1] and [roll2]. *)
Definition swapped_row (roll1 roll2 : string) (a1 a2 a : allocation)
  : allocation :=
  if (alloc_roll_no a =? roll2)%string then reseat a a1
  else if (alloc_roll_no a =? roll1)%string then reseat a a2
  else a.

(** The roll numbers in the allocation table. *)
Definition allocated_rolls (st : store) : list string :=
  map alloc_roll_no (seating_allocations st).

(** A store with rows in the allocation table that a swap can work on. *)
Definition sample_store_seated : store := snd (allocate_rollwise sample_store).

(** The sum of a column of integers. *)
Definition total (l : list Z) : Z := fold_right Z.add 0%Z l.

(** No partial sum of [l], taken from its first element on, leaves the
    64-bit range. *)
Definition sum_fits (l : list Z) : Prop :=
  forall k, k <= List.length l -> fits_int64 (total (firstn k l)) = true.

(** Two students of two subject codes and one room whose row and column
    counts are negative. *)
Definition sample_store_negative_room : store :=
  {| students := [sample_student "S1" "MAT"; sample_student "S2" "PHY"];
     rooms := [mk_room "101" "Main" (-2) (-3) 6];
     seating_allocations := [];
     activity_log := [] |}.

(** One student and three rooms whose capacities add up to -1, the first
    two to 2^63. *)
Definition sample_store_huge_rooms : store :=
  {| students := [sample_student "S1" "MAT"];
     rooms := [mk_room "101" "Main" 2 2 (2 ^ 63 - 1);
               mk_room "102" "Main" 1 2 1;
               mk_room "103" "Main" 1 1 (- 2 ^ 63)];
     seating_allocations := [];
     activity_log := [] |}.


(** * Properties *)

(** ** The order on text keys *)

Lemma compare_le_trans (a b c : string) :
  String.compare a b <> Gt -> String.compare b c <> Gt ->
  String.compare a c <> Gt.
Proof.
  revert b c.
  induction a as [|x a IH]; intros [|y b] [|z c]; simpl; try congruence.
  unfold Ascii.compare.
  destruct (N.compare_spec (N_of_ascii x) (N_of_ascii y)) as [Exy|Exy|Exy];
    destruct (N.compare_spec (N_of_ascii y) (N_of_ascii z)) as [Eyz|Eyz|Eyz];
    try congruence; intros Hab Hbc;
    destruct (N.compare_spec (N_of_ascii x) (N_of_ascii z)) as [Exz|Exz|Exz];
    try congruence; try lia.
  now apply (IH b c).
Qed.

Lemma leb_le (a b : string) : String.leb a b = true <-> String.compare a b <> Gt.
Proof.
  unfold String.leb. destruct (String.compare a b); split; congruence.
Qed.

Lemma leb_trans (a b c : string) :
  String.leb a b = true -> String.leb b c = true -> String.leb a c = true.
Proof.
  rewrite !leb_le. apply compare_le_trans.
Qed.

Lemma leb_false_flip (a b : string) :
  String.leb a b = false -> String.leb b a = true.
Proof.
  intros H. destruct (String.leb_total a b) as [E|E]; congruence.
Qed.

(** ** Sorting by a key *)

Section SortingFacts.
Context {A : Type} (key : A -> string).

Lemma insert_by_perm (x : A) (l : list A) :
  Permutation (x :: l) (insert_by key x l).
Proof.
  induction l as [|y l IH]; simpl.
  - reflexivity.
  - destruct (String.leb (key x) (key y)).
    + reflexivity.
    + rewrite perm_swap. now constructor.
Qed.

Lemma sorted_perm (l : list A) : Permutation l (sorted key l).
Proof.
  induction l as [|x l IH]; simpl.
  - constructor.
  - rewrite <- insert_by_perm. now constructor.
Qed.

Lemma insert_by_sorted (x : A) (l : list A) :
  StronglySorted (key_le key) l -> StronglySorted (key_le key) (insert_by key x l).
Proof.
  induction 1 as [|y l Hl IH Hy]; simpl.
  - repeat constructor.
  - destruct (String.leb (key x) (key y)) eqn:E.
    + constructor.
      * now constructor.
      * constructor; [exact E|].
        eapply Forall_impl; [|exact Hy].
        intros z Hz. unfold key_le in *. eapply leb_trans; eauto.
    + constructor; [exact IH|].
      eapply Permutation_Forall; [apply insert_by_perm|].
      constructor; [|exact Hy].
      now apply leb_false_flip.
Qed.

Lemma sorted_sorted (l : list A) : StronglySorted (key_le key) (sorted key l).
Proof.
  induction l as [|x l IH]; simpl.
  - constructor.
  - now apply insert_by_sorted.
Qed.

(** A list already in order is left as it is. *)
Lemma sorted_id (l : list A) : StronglySorted (key_le key) l -> sorted key l = l.
Proof.
  induction 1 as [|x l Hl IH Hx]; simpl; [reflexivity|].
  rewrite IH. destruct l as [|y l]; simpl; [reflexivity|].
  inversion Hx as [|? ? Hxy _]; subst. unfold key_le in Hxy.
  now rewrite Hxy.
Qed.

Lemma sorted_idem (l : list A) : sorted key (sorted key l) = sorted key l.
Proof. apply sorted_id, sorted_sorted. Qed.

Lemma sorted_length (l : list A) : List.length (sorted key l) = List.length l.
Proof. symmetry. apply Permutation_length, sorted_perm. Qed.

Lemma sorted_nil_iff (l : list A) : sorted key l = [] <-> l = [].
Proof.
  split; intros H.
  - apply length_zero_iff_nil. rewrite <- sorted_length, H. reflexivity.
  - now subst.
Qed.

(** With pairwise distinct keys the order leaves one arrangement only. *)
Lemma sorted_perm_unique (l1 l2 : list A) :
  NoDup (map key l1) -> Permutation l1 l2 ->
  StronglySorted (key_le key) l1 -> StronglySorted (key_le key) l2 -> l1 = l2.
Proof.
  revert l2.
  induction l1 as [|x l1 IH]; intros l2 Hnd Hp H1 H2.
  - now apply Permutation_nil in Hp.
  - destruct l2 as [|y l2].
    + symmetry in Hp. now apply Permutation_nil in Hp.
    + inversion H1 as [|? ? H1' Hx]; subst.
      inversion H2 as [|? ? H2' Hy]; subst.
      inversion Hnd as [|? ? Hnx Hnd']; subst.
      assert (Exy : x = y).
      { assert (Hin : In x (y :: l2))
          by (eapply Permutation_in; [exact Hp|now left]).
        destruct Hin as [E|Hin]; [now symmetry|].
        assert (Hin' : In y (x :: l1))
          by (eapply Permutation_in; [symmetry; exact Hp|now left]).
        destruct Hin' as [E|Hin']; [exact E|].
        rewrite Forall_forall in Hx, Hy.
        pose proof (String.leb_antisym _ _ (Hx _ Hin') (Hy _ Hin)) as Ek.
        exfalso. apply Hnx. rewrite Ek. now apply in_map. }
      subst y. f_equal.
      apply IH; try assumption.
      now apply Permutation_cons_inv in Hp.
Qed.

Lemma sorted_canonical (l1 l2 : list A) :
  NoDup (map key l1) -> Permutation l1 l2 -> sorted key l1 = sorted key l2.
Proof.
  intros Hnd Hp.
  apply sorted_perm_unique; try apply sorted_sorted.
  - eapply Permutation_NoDup; [|exact Hnd].
    apply Permutation_map, sorted_perm.
  - rewrite <- (sorted_perm l1), <- (sorted_perm l2). exact Hp.
Qed.
End SortingFacts.

(** ** The key constraints *)

Lemma insert_rows_NoDup {A : Type} (key : A -> string) (df l : list A) :
  NoDup (map key l) ->
  NoDup (map key
           (fold_left
              (fun l row =>
                 if existsb (fun x => (key x =? key row)%string) l then l
                 else l ++ [row])
              df l)).
Proof.
  revert l. induction df as [|row df IH]; intros l Hnd; [exact Hnd|].
  cbn [fold_left]. apply IH.
  destruct (existsb _ l) eqn:E; [exact Hnd|].
  rewrite map_app. apply NoDup_app; [exact Hnd|repeat constructor; intros []|].
  intros k Hk [<-|[]].
  apply in_map_iff in Hk as (x & Ex & Hx).
  apply Bool.not_true_iff_false in E. apply E.
  apply existsb_exists. exists x. split; [exact Hx|].
  now apply String.eqb_eq.
Qed.

(** Every store the database calls lead to has pairwise distinct roll
    numbers and pairwise distinct room numbers. *)
Lemma reachable_wf (st : store) : reachable st -> store_wf st.
Proof.
  induction 1 as [|st m _ [Hs Hr] Hm].
  - split; constructor.
  - destruct Hm; split; cbn; try assumption; try constructor.
    + now apply (insert_rows_NoDup roll_no).
    + now apply (insert_rows_NoDup room_no).
Qed.

(** ** The database monad and the loops *)

Lemma add_allocations_nil (st : store) : add_allocations [] st = st.
Proof.
  destruct st. unfold add_allocations. simpl. now rewrite app_nil_r.
Qed.

Lemma add_allocations_app (l1 l2 : list allocation) (st : store) :
  add_allocations l2 (add_allocations l1 st) = add_allocations (l1 ++ l2) st.
Proof.
  unfold add_allocations. simpl. now rewrite app_assoc.
Qed.

Lemma insert_allocation_run roll room_ row col seat_no method (st : store) :
  insert_allocation roll room_ row col seat_no method st
  = (tt, add_allocations [mk_allocation roll room_ row col seat_no method] st).
Proof. reflexivity. Qed.

Lemma skipn_nth_cons {A : Type} (d : A) (l : list A) (k : nat) :
  k < List.length l -> skipn k l = nth k l d :: skipn (S k) l.
Proof.
  revert k. induction l as [|x l IH]; intros k Hk; simpl in Hk; [lia|].
  destruct k as [|k]; [reflexivity|].
  simpl. apply IH. lia.
Qed.

Lemma assign_loop_from (method : string) (seats : list seat)
  (l : list student) (k acc : nat) (st : store) :
  for_each (combine (seq k (List.length l)) l)
    (fun '(i, stu) allocated =>
       if i <? List.length seats then
         let st_ := nth i seats default_seat in
         insert_allocation (roll_no stu) (seat_room_no st_) (seat_row st_)
           (seat_col st_) (seat_number st_) method ;;
         ret (allocated + 1)
       else ret allocated)
    acc st
  = (acc + Nat.min (List.length l) (List.length seats - k),
     add_allocations
       (map (fun p => seat_record method (fst p) (snd p))
            (combine l (skipn k seats)))
       st).
Proof.
  revert k acc st.
  induction l as [|x l IH]; intros k acc st;
    cbn [List.length seq combine for_each map].
  - unfold ret. rewrite add_allocations_nil. apply (f_equal2 pair); [lia|reflexivity].
  - unfold bind at 1.
    destruct (k <? List.length seats) eqn:E.
    + apply Nat.ltb_lt in E.
      unfold bind at 1. rewrite insert_allocation_run. unfold ret at 1.
      rewrite IH, add_allocations_app.
      rewrite (skipn_nth_cons default_seat seats k E).
      cbn [combine map fst snd app List.length].
      apply (f_equal2 pair); [lia|reflexivity].
    + apply Nat.ltb_ge in E.
      unfold ret at 1. rewrite IH.
      rewrite (skipn_all2 seats) by lia.
      rewrite (skipn_all2 seats) by lia.
      rewrite !combine_nil. cbn [map List.length].
      apply (f_equal2 pair); [lia|reflexivity].
Qed.

Lemma assign_loop_run (method : string) (seats : list seat)
  (l : list student) (st : store) :
  assign_loop method seats l st
  = (Nat.min (List.length l) (List.length seats),
     add_allocations
       (map (fun p => seat_record method (fst p) (snd p)) (combine l seats))
       st).
Proof.
  unfold assign_loop, enumerate.
  rewrite assign_loop_from. now rewrite Nat.sub_0_r.
Qed.

(** ** The seat sequence *)

Lemma seq_from (a n : nat) : seq a n = map (Nat.add a) (seq 0 n).
Proof.
  induction a as [|a IH]; simpl.
  - symmetry. apply map_id.
  - rewrite <- seq_shift, IH, map_map. reflexivity.
Qed.

Lemma flat_map_map {A B C : Type} (g : A -> B) (f : B -> list C) (l : list A) :
  flat_map f (map g l) = flat_map (fun x => f (g x)) l.
Proof.
  induction l as [|x l IH]; simpl; [reflexivity|]. now rewrite IH.
Qed.

Lemma range_seq (lo n : Z) :
  range lo (n + lo) = map (fun i => (Z.of_nat i + lo)%Z) (seq 0 (Z.to_nat n)).
Proof.
  unfold range. replace (n + lo - lo)%Z with n by lia.
  apply map_ext. intros i. lia.
Qed.

(** Two nested loops over [R] rows and [C] columns visit the cells in
    row-major order: cell [k] is in row [k / C] and column [k mod C]. *)
Lemma grid_row_major {B : Type} (f : nat -> nat -> B) (R C : nat) :
  flat_map (fun i => map (f i) (seq 0 C)) (seq 0 R)
  = map (fun k => f (k / C) (k mod C)) (seq 0 (R * C)).
Proof.
  induction R as [|R IH]; [reflexivity|].
  rewrite seq_S, flat_map_app, IH. cbn [flat_map Nat.add].
  rewrite app_nil_r.
  replace (S R * C) with (R * C + C) by lia.
  rewrite seq_app, map_app. f_equal.
  cbn [Nat.add]. rewrite (seq_from (R * C) C), map_map.
  apply map_ext_in. intros j Hj. apply in_seq in Hj.
  assert (Hq : R = (R * C + j) / C)
    by (apply (Nat.div_unique _ C R j); lia).
  assert (Hr : j = (R * C + j) mod C)
    by (apply (Nat.mod_unique _ C R j); lia).
  now rewrite <- Hq, <- Hr.
Qed.

Lemma room_seats_row_major (rms : list room) :
  build_room_seats rms
  = flat_map (fun rm => map (seat_at rm) (seq 0 (nrows rm * ncols rm))) rms.
Proof.
  unfold build_room_seats. apply flat_map_ext. intros rm.
  rewrite !(range_seq 1), flat_map_map.
  erewrite flat_map_ext by (intros i; apply map_map).
  apply (grid_row_major
           (fun i j => mk_seat (room_no rm) (Z.of_nat i + 1) (Z.of_nat j + 1)
                         (seat_label (room_no rm) (Z.of_nat i + 1)
                            (Z.of_nat j + 1)))).
Qed.

Lemma room_seats_length (rms : list room) :
  List.length (build_room_seats rms)
  = list_sum (map (fun rm => nrows rm * ncols rm) rms).
Proof.
  rewrite room_seats_row_major, length_flat_map. f_equal.
  apply map_ext. intros rm. now rewrite length_map, length_seq.
Qed.

Lemma seat_at_room (rm : room) (k : nat) : seat_room_no (seat_at rm k) = room_no rm.
Proof. reflexivity. Qed.

Lemma room_seats_in_room (rms : list room) (s : seat) :
  In s (build_room_seats rms) -> In (seat_room_no s) (map room_no rms).
Proof.
  rewrite room_seats_row_major, in_flat_map.
  intros (rm & Hrm & Hs). apply in_map_iff in Hs as (k & <- & _).
  rewrite seat_at_room. now apply in_map.
Qed.

Lemma seat_at_inj (rm : room) (k1 k2 : nat) :
  k1 < nrows rm * ncols rm -> k2 < nrows rm * ncols rm ->
  seat_pos (seat_at rm k1) = seat_pos (seat_at rm k2) -> k1 = k2.
Proof.
  intros H1 H2 E. unfold seat_pos, seat_at in E. cbn in E.
  injection E as Er Ec.
  assert (HC : ncols rm <> 0) by nia.
  rewrite (Nat.div_mod_eq k1 (ncols rm)), (Nat.div_mod_eq k2 (ncols rm)).
  assert (k1 / ncols rm = k2 / ncols rm) as -> by lia.
  assert (k1 mod ncols rm = k2 mod ncols rm) as -> by lia.
  reflexivity.
Qed.

Lemma room_seats_app (l1 l2 : list room) :
  build_room_seats (l1 ++ l2) = build_room_seats l1 ++ build_room_seats l2.
Proof. apply flat_map_app. Qed.

(** Distinct room numbers give pairwise distinct seats. *)
Lemma room_seats_NoDup (rms : list room) :
  NoDup (map room_no rms) -> NoDup (map seat_pos (build_room_seats rms)).
Proof.
  intros Hnd.
  induction rms as [|rm rms IH]; [constructor|].
  inversion Hnd as [|? ? Hnotin Hnd']; subst.
  change (rm :: rms) with ([rm] ++ rms).
  rewrite room_seats_app, map_app. apply NoDup_app.
  - rewrite room_seats_row_major. cbn [flat_map]. rewrite app_nil_r.
    apply NoDup_map_NoDup_ForallPairs.
    + intros s1 s2 Hs1 Hs2 E.
      apply in_map_iff in Hs1 as (k1 & <- & Hk1).
      apply in_map_iff in Hs2 as (k2 & <- & Hk2).
      apply in_seq in Hk1. apply in_seq in Hk2.
      f_equal. apply (seat_at_inj rm); [lia|lia|exact E].
    + apply NoDup_map_NoDup_ForallPairs; [|apply seq_NoDup].
      intros k1 k2 Hk1 Hk2 E.
      apply in_seq in Hk1. apply in_seq in Hk2.
      apply (seat_at_inj rm); [lia|lia|now rewrite E].
  - now apply IH.
  - intros p Hp1 Hp2.
    apply in_map_iff in Hp1 as (s1 & <- & Hs1).
    apply in_map_iff in Hp2 as (s2 & E & Hs2).
    apply room_seats_in_room in Hs1. apply room_seats_in_room in Hs2.
    cbn in Hs1. destruct Hs1 as [Hs1|[]].
    apply Hnotin. rewrite Hs1.
    unfold seat_pos in E. injection E as E _ _. now rewrite <- E.
Qed.

(** ** Running the first two strategies *)

Lemma combine_fst {A B : Type} (l : list A) (l' : list B) :
  map fst (combine l l') = firstn (List.length l') l.
Proof.
  revert l'. induction l as [|x l IH]; intros [|y l']; simpl;
    try reflexivity.
  now rewrite IH.
Qed.

Lemma combine_snd {A B : Type} (l : list A) (l' : list B) :
  map snd (combine l l') = firstn (List.length l) l'.
Proof.
  revert l'. induction l as [|x l IH]; intros [|y l']; simpl;
    try reflexivity.
  now rewrite IH.
Qed.

Lemma combine_nth_lt {A B : Type} (l : list A) (l' : list B) (i : nat)
  (dx : A) (dy : B) :
  i < Nat.min (List.length l) (List.length l') ->
  nth i (combine l l') (dx, dy) = (nth i l dx, nth i l' dy).
Proof.
  revert l' i. induction l as [|x l IH]; intros [|y l'] i Hi; simpl in Hi;
    try lia.
  destruct i as [|i]; [reflexivity|].
  simpl. apply IH. lia.
Qed.

Lemma NoDup_firstn {A : Type} (k : nat) (l : list A) :
  NoDup l -> NoDup (firstn k l).
Proof.
  intros H. rewrite <- (firstn_skipn k l) in H.
  now apply NoDup_app_remove_r in H.
Qed.

Lemma is_empty_false {A : Type} (l : list A) : l <> [] -> is_empty l = false.
Proof. destruct l; [congruence|reflexivity]. Qed.

Lemma is_empty_true {A : Type} (l : list A) : l = [] <-> is_empty l = true.
Proof. destruct l; split; simpl; congruence. Qed.

Lemma is_empty_sorted {A : Type} (key : A -> string) (l : list A) :
  is_empty (sorted key l) = is_empty l.
Proof.
  destruct l as [|x l]; [reflexivity|].
  apply is_empty_false. rewrite sorted_nil_iff. discriminate.
Qed.

(** The rows written by the enumerate loop. *)
Lemma assigned_rolls (method : string) (studs : list student)
  (seats : list seat) :
  map alloc_roll_no
    (map (fun p => seat_record method (fst p) (snd p)) (combine studs seats))
  = firstn (List.length seats) (map roll_no studs).
Proof.
  rewrite map_map, firstn_map, <- combine_fst, map_map. reflexivity.
Qed.

Lemma assigned_seats (method : string) (studs : list student)
  (seats : list seat) :
  map seat_of
    (map (fun p => seat_record method (fst p) (snd p)) (combine studs seats))
  = firstn (List.length studs) (map seat_pos seats).
Proof.
  rewrite map_map, firstn_map, <- combine_snd, map_map. reflexivity.
Qed.

Lemma assigned_nth (method : string) (studs : list student)
  (seats : list seat) (i : nat) :
  i < Nat.min (List.length studs) (List.length seats) ->
  nth_error
    (map (fun p => seat_record method (fst p) (snd p)) (combine studs seats)) i
  = Some (seat_record method (nth i studs default_student)
            (nth i seats default_seat)).
Proof.
  intros Hi.
  rewrite nth_error_map.
  rewrite (nth_error_nth' _ (default_student, default_seat))
    by (rewrite length_combine; exact Hi).
  now rewrite combine_nth_lt by lia.
Qed.

Lemma allocate_rollwise_run (st : store) :
  students st <> [] -> rooms st <> [] ->
  let studs := sorted roll_no (students st) in
  let seats := build_room_seats (sorted room_no (rooms st)) in
  let n := Nat.min (List.length studs) (List.length seats) in
  allocate_rollwise st
  = ((true,
      ("Successfully allocated " ++ str_nat n ++ " students rollwise.")%string),
     logged "allocation"
       ("Roll-wise allocation completed: " ++ str_nat n
          ++ " students allocated")%string
       (add_allocations
          (map (fun p => seat_record "rollwise" (fst p) (snd p))
               (combine studs seats))
          (cleared st))).
Proof.
  intros Hs Hr. cbv zeta.
  unfold allocate_rollwise, bind, clear_allocations, get_all_students,
    get_all_rooms. cbn [students rooms].
  rewrite !is_empty_sorted, (is_empty_false _ Hs), (is_empty_false _ Hr).
  cbn [orb]. rewrite sorted_idem, assign_loop_run. reflexivity.
Qed.

Lemma allocate_random_run (shuffle : nat -> list student -> list student)
  (st : store) :
  students st <> [] -> rooms st <> [] ->
  let studs := shuffle 0 (sorted roll_no (students st)) in
  let seats := build_room_seats (sorted room_no (rooms st)) in
  let n := Nat.min (List.length studs) (List.length seats) in
  allocate_random shuffle st
  = ((true,
      ("Successfully allocated " ++ str_nat n ++ " students randomly.")%string),
     logged "allocation"
       ("Random allocation completed: " ++ str_nat n
          ++ " students allocated")%string
       (add_allocations
          (map (fun p => seat_record "random" (fst p) (snd p))
               (combine studs seats))
          (cleared st))).
Proof.
  intros Hs Hr. cbv zeta.
  unfold allocate_random, bind, clear_allocations, get_all_students,
    get_all_rooms. cbn [students rooms].
  rewrite !is_empty_sorted, (is_empty_false _ Hs), (is_empty_false _ Hr).
  cbn [orb]. rewrite assign_loop_run. reflexivity.
Qed.

(** A run that finds no student or no room stops after the clear. *)
Lemma allocate_rollwise_empty (st : store) :
  students st = [] \/ rooms st = [] ->
  allocate_rollwise st = ((false, "No students or rooms available"), cleared st).
Proof.
  intros H.
  unfold allocate_rollwise, bind, clear_allocations, get_all_students,
    get_all_rooms. cbn [students rooms].
  rewrite !is_empty_sorted.
  destruct H as [H|H]; apply is_empty_true in H; rewrite H;
    [|rewrite orb_true_r]; reflexivity.
Qed.

Lemma allocate_random_empty (shuffle : nat -> list student -> list student)
  (st : store) :
  students st = [] \/ rooms st = [] ->
  allocate_random shuffle st
  = ((false, "No students or rooms available"), cleared st).
Proof.
  intros H.
  unfold allocate_random, bind, clear_allocations, get_all_students,
    get_all_rooms. cbn [students rooms].
  rewrite !is_empty_sorted.
  destruct H as [H|H]; apply is_empty_true in H; rewrite H;
    [|rewrite orb_true_r]; reflexivity.
Qed.

(** ** Grouping by subject code *)

Lemma dd_get_append (d : defaultdict) (k k' : string) (x : student) :
  dd_get (dd_append d k x) k'
  = if (k =? k')%string then dd_get d k' ++ [x] else dd_get d k'.
Proof.
  induction d as [|[k0 l0] d IH]; simpl.
  - destruct (String.eqb_spec k k'); reflexivity.
  - destruct (String.eqb_spec k0 k) as [E0|E0]; simpl.
    + subst k0. destruct (String.eqb_spec k k'); reflexivity.
    + destruct (String.eqb_spec k0 k') as [E1|E1]; [|exact IH].
      subst k0. destruct (String.eqb_spec k k'); congruence.
Qed.

Lemma dd_keys_append (d : defaultdict) (k : string) (x : student) :
  dd_keys (dd_append d k x)
  = if existsb (fun k' => (k' =? k)%string) (dd_keys d) then dd_keys d
    else dd_keys d ++ [k].
Proof.
  unfold dd_keys.
  induction d as [|[k0 l0] d IH]; simpl; [reflexivity|].
  destruct (String.eqb_spec k0 k); simpl; [reflexivity|].
  rewrite IH. destruct (existsb _ (map fst d)); reflexivity.
Qed.

Lemma group_fold_get (l : list student) (d : defaultdict) (k : string) :
  dd_get (fold_left (fun d stu => dd_append d (subject_code stu) stu) l d) k
  = dd_get d k ++ filter (fun s => (subject_code s =? k)%string) l.
Proof.
  revert d. induction l as [|x l IH]; intros d; simpl.
  - now rewrite app_nil_r.
  - rewrite IH, dd_get_append.
    destruct (subject_code x =? k)%string.
    + now rewrite <- app_assoc.
    + reflexivity.
Qed.

(** Each group holds the students of its subject code, in the order they
    were read. *)
Lemma group_by_subject_get (l : list student) (k : string) :
  dd_get (group_by_subject l) k
  = filter (fun s => (subject_code s =? k)%string) l.
Proof. unfold group_by_subject. now rewrite group_fold_get. Qed.

Lemma group_fold_keys (l : list student) (d : defaultdict) :
  dd_keys (fold_left (fun d stu => dd_append d (subject_code stu) stu) l d)
  = dd_keys d ++ first_seen (dd_keys d) (map subject_code l).
Proof.
  revert d. induction l as [|x l IH]; intros d; simpl.
  - now rewrite app_nil_r.
  - rewrite IH, dd_keys_append.
    destruct (existsb _ (dd_keys d)); [reflexivity|].
    now rewrite <- app_assoc.
Qed.

(** The keys are the subject codes in the order of their first student. *)
Lemma group_by_subject_keys (l : list student) :
  dd_keys (group_by_subject l) = first_seen [] (map subject_code l).
Proof. unfold group_by_subject. now rewrite group_fold_keys. Qed.

Lemma first_seen_spec (seen l : list string) :
  NoDup seen -> NoDup (seen ++ first_seen seen l)
  /\ (forall k, In k (first_seen seen l) -> In k l).
Proof.
  revert seen. induction l as [|k l IH]; intros seen Hnd; simpl.
  - rewrite app_nil_r. now split.
  - destruct (existsb _ seen) eqn:E.
    + destruct (IH seen Hnd) as [H1 H2]. split; [exact H1|]. auto.
    + assert (Hk : ~ In k seen).
      { intros Hin. apply Bool.not_true_iff_false in E. apply E.
        apply existsb_exists. exists k. split; [exact Hin|].
        apply String.eqb_refl. }
      assert (Hnd' : NoDup (seen ++ [k])).
      { apply NoDup_app; [exact Hnd|repeat constructor; intros []|].
        intros a Ha [<-|[]]. now apply Hk. }
      destruct (IH _ Hnd') as [H1 H2].
      rewrite <- app_assoc in H1. split; [exact H1|].
      intros k' [<-|Hin]; [now left|right; now apply H2].
Qed.

Lemma group_keys_NoDup (l : list student) : NoDup (dd_keys (group_by_subject l)).
Proof.
  rewrite group_by_subject_keys.
  apply (first_seen_spec [] (map subject_code l)). constructor.
Qed.

Lemma group_keys_in (l : list student) (k : string) :
  In k (dd_keys (group_by_subject l)) -> In k (map subject_code l).
Proof.
  rewrite group_by_subject_keys.
  apply (first_seen_spec [] (map subject_code l)). constructor.
Qed.

Lemma group_count (l : list student) :
  List.length (group_by_subject l) = List.length (dd_keys (group_by_subject l)).
Proof. unfold dd_keys. now rewrite length_map. Qed.

(** A single subject code makes a single group. *)
Lemma group_single (l : list student) (code : string) :
  (forall s, In s l -> subject_code s = code) ->
  List.length (group_by_subject l) <= 1.
Proof.
  intros Hall. rewrite group_count.
  pose proof (group_keys_NoDup l) as Hnd.
  assert (Hk : forall k, In k (dd_keys (group_by_subject l)) -> k = code).
  { intros k Hin. apply group_keys_in, in_map_iff in Hin as (s & <- & Hs).
    now apply Hall. }
  destruct (dd_keys (group_by_subject l)) as [|k1 [|k2 ks]]; simpl; try lia.
  exfalso. inversion Hnd as [|? ? Hn _]; subst. apply Hn.
  rewrite (Hk k1), (Hk k2); simpl; auto.
Qed.

(** ** Loops in the database monad *)

Lemma for_each_ext {A S : Type} (l : list A) (body1 body2 : A -> S -> DB S) :
  (forall x acc st, body1 x acc st = body2 x acc st) ->
  forall acc st, for_each l body1 acc st = for_each l body2 acc st.
Proof.
  intros Hext. induction l as [|x l IH]; intros acc st; simpl.
  - reflexivity.
  - unfold bind. rewrite Hext. destruct (body2 x acc st). apply IH.
Qed.

Lemma for_each_app {A S : Type} (l1 l2 : list A) (body : A -> S -> DB S)
  (acc : S) (st : store) :
  for_each (l1 ++ l2) body acc st
  = for_each l2 body (fst (for_each l1 body acc st))
      (snd (for_each l1 body acc st)).
Proof.
  revert acc st. induction l1 as [|x l1 IH]; intros acc st; simpl.
  - reflexivity.
  - unfold bind. destruct (body x acc st). apply IH.
Qed.

Lemma for_each_flat_map {A B S : Type} (f : A -> list B) (l : list A)
  (body : B -> S -> DB S) (acc : S) (st : store) :
  for_each (flat_map f l) body acc st
  = for_each l (fun x => for_each (f x) body) acc st.
Proof.
  revert acc st. induction l as [|x l IH]; intros acc st; simpl.
  - reflexivity.
  - rewrite for_each_app. unfold bind.
    destruct (for_each (f x) body acc st). apply IH.
Qed.

Lemma for_each_map {A B S : Type} (g : A -> B) (l : list A)
  (body : B -> S -> DB S) (acc : S) (st : store) :
  for_each (map g l) body acc st = for_each l (fun x => body (g x)) acc st.
Proof.
  revert acc st. induction l as [|x l IH]; intros acc st; simpl.
  - reflexivity.
  - unfold bind. destruct (body (g x) acc st). apply IH.
Qed.

(** ** The zig-zag scan *)

Section ZigZag.
Variables course_a course_b : string.
Variables group_a group_b : list student.
Hypothesis courses_differ : course_a <> course_b.

Local Abbreviation la := (List.length group_a).
Local Abbreviation lb := (List.length group_b).

(** The three nested loops are one loop over the seats in scan order. *)
Lemma zigzag_scan_flat (rms : list room) (st : store) :
  zigzag_scan course_a course_b group_a group_b rms st
  = for_each (scan_positions rms)
      (seat_body course_a course_b group_a group_b) (0, 0, 0) st.
Proof.
  unfold zigzag_scan, scan_positions.
  rewrite for_each_flat_map.
  apply for_each_ext. intros rm acc st'.
  rewrite for_each_flat_map.
  apply for_each_ext. intros r acc' st''.
  now rewrite for_each_map.
Qed.

(** The four-way conditional of the loop body takes the group whose turn
    it is when both have students left, else the one that has. *)
Lemma zigzag_seat_run (rm : room) (r c : Z) (a b n : nat) (st : store) :
  zigzag_seat course_a course_b group_a group_b rm r c (a, b, n) st
  = (let '(a', b') := zz_next la lb (a, b) (rm, r, c) in
     (a', b', n + List.length (zz_row group_a group_b (a, b) (rm, r, c))),
     add_allocations (zz_row group_a group_b (a, b) (rm, r, c)) st).
Proof.
  assert (Eab : (course_a =? course_b)%string = false)
    by now apply String.eqb_neq.
  assert (Eba : (course_b =? course_a)%string = false)
    by (apply String.eqb_neq; congruence).
  unfold zigzag_seat, zz_next, zz_row, zz_pick, turn_a, bind, ret.
  rewrite <- Z.negb_even, !Zmod_even.
  destruct (Z.even r), (Z.even c); cbn [Z.eqb negb];
    change (Z.to_nat 1) with 1; change (Z.to_nat 0) with 0; cbn [nth];
    rewrite ?String.eqb_refl, ?Eab, ?Eba; cbn [andb];
    destruct (a <? la), (b <? lb); cbn [andb];
    rewrite ?insert_allocation_run, ?add_allocations_nil;
    cbn [List.length]; rewrite ?Nat.add_0_r, ?Nat.add_1_r;
    reflexivity.
Qed.

Lemma zigzag_loop_run (ps : list position) (a b n : nat) (st : store) :
  for_each ps (seat_body course_a course_b group_a group_b) (a, b, n) st
  = (let '(a', b') := zz_final la lb (a, b) ps in
     (a', b', n + List.length (zz_rows group_a group_b (a, b) ps)),
     add_allocations (zz_rows group_a group_b (a, b) ps) st).
Proof.
  revert a b n st.
  induction ps as [|[[rm r] c] ps IH]; intros a b n st.
  - cbn. rewrite add_allocations_nil, Nat.add_0_r. reflexivity.
  - cbn [for_each zz_rows]. unfold bind.
    unfold seat_body at 1. cbn [fst snd].
    rewrite zigzag_seat_run.
    change (zz_final la lb (a, b) ((rm, r, c) :: ps))
      with (zz_final la lb (zz_next la lb (a, b) (rm, r, c)) ps).
    destruct (zz_next la lb (a, b) (rm, r, c)) as [a1 b1].
    rewrite IH, add_allocations_app, length_app.
    destruct (zz_final la lb (a1, b1) ps) as [a2 b2].
    now rewrite Nat.add_assoc.
Qed.
End ZigZag.

(** ** The choices along the scan *)

Ltac zz_cases p :=
  unfold zz_next, zz_row, zz_pick;
  destruct p as [[? ?r] ?c];
  repeat match goal with
         | |- context [?x <? ?y] => destruct (Nat.ltb_spec x y)
         end;
  try destruct (turn_a _ _).

Section ZigZagChoices.
Variables group_a group_b : list student.

Local Abbreviation la := (List.length group_a).
Local Abbreviation lb := (List.length group_b).

Lemma zz_next_count (a b : nat) (p : position) :
  a <= la -> b <= lb ->
  let '(a', b') := zz_next la lb (a, b) p in
  a <= a' <= la /\ b <= b' <= lb
  /\ a' + b' = Nat.min (la + lb) (a + b + 1).
Proof.
  intros Ha Hb. zz_cases p; lia.
Qed.

(** Every seat takes one more student until both groups are used up. *)
Lemma zz_final_count (ps : list position) (a b : nat) :
  a <= la -> b <= lb ->
  let '(a', b') := zz_final la lb (a, b) ps in
  a <= a' <= la /\ b <= b' <= lb
  /\ a' + b' = Nat.min (la + lb) (a + b + List.length ps).
Proof.
  revert a b. induction ps as [|p ps IH]; intros a b Ha Hb.
  - cbn. lia.
  - change (zz_final la lb (a, b) (p :: ps))
      with (zz_final la lb (zz_next la lb (a, b) p) ps).
    pose proof (zz_next_count a b p Ha Hb) as H1.
    destruct (zz_next la lb (a, b) p) as [a1 b1].
    destruct H1 as (Ha1 & Hb1 & Hs1).
    specialize (IH a1 b1 (proj2 Ha1) (proj2 Hb1)).
    destruct (zz_final la lb (a1, b1) ps) as [a2 b2].
    cbn [List.length]. lia.
Qed.



(** One row is written for each student taken. *)
Lemma zz_rows_length (ps : list position) (a b : nat) :
  let '(a', b') := zz_final la lb (a, b) ps in
  a + b + List.length (zz_rows group_a group_b (a, b) ps) = a' + b'.
Proof.
  revert a b. induction ps as [|p ps IH]; intros a b.
  - cbn. lia.
  - change (zz_final la lb (a, b) (p :: ps))
      with (zz_final la lb (zz_next la lb (a, b) p) ps).
    cbn [zz_rows]. rewrite length_app.
    assert (H1 : let '(a1, b1) := zz_next la lb (a, b) p in
                 a + b + List.length (zz_row group_a group_b (a, b) p)
                 = a1 + b1)
      by (zz_cases p; cbn [List.length]; lia).
    destruct (zz_next la lb (a, b) p) as [a1 b1].
    specialize (IH a1 b1).
    destruct (zz_final la lb (a1, b1) ps) as [a2 b2]. lia.
Qed.

Lemma firstn_S_nth {A : Type} (d : A) (l : list A) (k : nat) :
  k < List.length l -> firstn (S k) l = firstn k l ++ [nth k l d].
Proof.
  revert k. induction l as [|x l IH]; intros k Hk; simpl in Hk; [lia|].
  destruct k as [|k]; [reflexivity|].
  cbn [firstn nth app]. f_equal. apply IH. lia.
Qed.

(** The students seated are the first [a_index] of group A and the first
    [b_index] of group B. *)
Lemma zz_rows_rolls (ps : list position) (a b : nat) :
  let '(a', b') := zz_final la lb (a, b) ps in
  Permutation
    (map roll_no (firstn a group_a) ++ map roll_no (firstn b group_b)
       ++ map alloc_roll_no (zz_rows group_a group_b (a, b) ps))
    (map roll_no (firstn a' group_a) ++ map roll_no (firstn b' group_b)).
Proof.
  revert a b. induction ps as [|p ps IH]; intros a b.
  - cbn. now rewrite app_nil_r.
  - change (zz_final la lb (a, b) (p :: ps))
      with (zz_final la lb (zz_next la lb (a, b) p) ps).
    cbn [zz_rows]. rewrite map_app.
    assert (H1 : let '(a1, b1) := zz_next la lb (a, b) p in
                 Permutation
                   (map roll_no (firstn a group_a)
                      ++ map roll_no (firstn b group_b)
                      ++ map alloc_roll_no (zz_row group_a group_b (a, b) p))
                   (map roll_no (firstn a1 group_a)
                      ++ map roll_no (firstn b1 group_b))).
    { zz_cases p; cbn [map app]; rewrite ?app_nil_r;
        try reflexivity;
        rewrite ?(firstn_S_nth default_student group_a a) by assumption;
        rewrite ?(firstn_S_nth default_student group_b b) by assumption;
        rewrite !map_app; cbn [map zz_record alloc_roll_no];
        rewrite ?app_assoc; try reflexivity;
        rewrite <- !app_assoc; apply Permutation_app_head,
          Permutation_app_comm. }
    destruct (zz_next la lb (a, b) p) as [a1 b1].
    specialize (IH a1 b1).
    destruct (zz_final la lb (a1, b1) ps) as [a2 b2].
    rewrite <- IH.
    rewrite (app_assoc (map roll_no (firstn a1 group_a))), <- H1.
    rewrite <- !app_assoc. reflexivity.
Qed.

Lemma zz_rows_seats (ps : list position) (s : nat * nat) (x : allocation) :
  In x (zz_rows group_a group_b s ps) -> In (seat_of x) (map pos_of ps).
Proof.
  revert s. induction ps as [|p ps IH]; intros s; [intros []|].
  cbn [zz_rows map]. rewrite in_app_iff. intros [Hx|Hx].
  - left. destruct s as [a b].
    revert Hx. zz_cases p; cbn [In]; intros Hx;
      repeat destruct Hx as [Hx|Hx]; try contradiction; subst;
      reflexivity.
  - right. eapply IH, Hx.
Qed.

Lemma zz_rows_seats_NoDup (ps : list position) (s : nat * nat) :
  NoDup (map pos_of ps) ->
  NoDup (map seat_of (zz_rows group_a group_b s ps)).
Proof.
  revert s. induction ps as [|p ps IH]; intros s Hnd; [constructor|].
  inversion Hnd as [|? ? Hp Hnd']; subst.
  cbn [zz_rows]. rewrite map_app. apply NoDup_app.
  - destruct s as [a b]. zz_cases p; repeat constructor;
      intros [].
  - now apply IH.
  - intros q Hq1 Hq2. apply Hp.
    apply in_map_iff in Hq2 as (x & <- & Hx). apply zz_rows_seats in Hx.
    replace (pos_of p) with (seat_of x); [exact Hx|].
    destruct s as [a b]. revert Hq1.
    zz_cases p; cbn [map In]; intros Hq;
      repeat destruct Hq as [Hq|Hq]; try contradiction;
      rewrite <- Hq; reflexivity.
Qed.
End ZigZagChoices.

(** ** The scan order *)

Lemma map_flat_map {A B C : Type} (g : B -> C) (f : A -> list B) (l : list A) :
  map g (flat_map f l) = flat_map (fun x => map g (f x)) l.
Proof.
  induction l as [|x l IH]; simpl; [reflexivity|].
  now rewrite map_app, IH.
Qed.

Lemma range_0 (n : Z) : range 0 n = map Z.of_nat (seq 0 (Z.to_nat n)).
Proof.
  unfold range. rewrite Z.sub_0_r. apply map_ext. intros i. lia.
Qed.

(** The zig-zag scan goes through the seats of [build_room_seats], in the
    same order. *)
Lemma scan_positions_seats (rms : list room) :
  map pos_of (scan_positions rms) = map seat_pos (build_room_seats rms).
Proof.
  unfold scan_positions, build_room_seats.
  rewrite !map_flat_map. apply flat_map_ext. intros rm.
  rewrite !map_flat_map, !(range_seq 1), !range_0, !flat_map_map.
  apply flat_map_ext. intros i.
  rewrite !map_map. reflexivity.
Qed.

Lemma scan_positions_length (rms : list room) :
  List.length (scan_positions rms)
  = list_sum (map (fun rm => nrows rm * ncols rm) rms).
Proof.
  rewrite <- room_seats_length.
  rewrite <- (length_map pos_of), scan_positions_seats. apply length_map.
Qed.

Lemma scan_positions_NoDup (rms : list room) :
  NoDup (map room_no rms) -> NoDup (map pos_of (scan_positions rms)).
Proof.
  intros H. rewrite scan_positions_seats. now apply room_seats_NoDup.
Qed.

(** With rows and columns that are not negative, the seats number
    rows times columns, summed over the rooms. *)
Lemma seats_total (rms : list room) :
  (forall rm, In rm rms -> (0 <= rows rm)%Z /\ (0 <= columns rm)%Z) ->
  Z.of_nat (list_sum (map (fun rm => nrows rm * ncols rm) rms))
  = fold_right Z.add 0%Z (map (fun rm => (rows rm * columns rm)%Z) rms).
Proof.
  induction rms as [|rm rms IH]; intros H; [reflexivity|].
  cbn [map fold_right].
  change (list_sum (?x :: ?l)) with (x + list_sum l).
  rewrite Nat2Z.inj_add, IH by (intros; apply H; now right).
  destruct (H rm (or_introl eq_refl)) as [Hr Hc].
  unfold nrows, ncols. rewrite Nat2Z.inj_mul, !Z2Nat.id by assumption.
  reflexivity.
Qed.

(** ** Running the zig-zag strategy *)

Lemma keys_two (ks : list string) :
  2 <= List.length ks -> NoDup ks ->
  nth 0 (firstn 2 ks) "" <> nth 1 (firstn 2 ks) ""
  /\ In (nth 0 (firstn 2 ks) "") ks /\ In (nth 1 (firstn 2 ks) "") ks.
Proof.
  destruct ks as [|k1 [|k2 ks]]; simpl; try lia.
  intros _ Hnd. inversion Hnd as [|? ? Hn _]; subst.
  repeat split; auto. intros E. apply Hn. now left.
Qed.

Lemma courses_differ_of (studs : list student) :
  2 <= List.length (group_by_subject studs) ->
  course_a_of studs <> course_b_of studs.
Proof.
  intros H. rewrite group_count in H.
  apply (keys_two _ H (group_keys_NoDup studs)).
Qed.

Lemma allocate_anti_cheating_run
  (shuffle : nat -> list student -> list student) (st : store) :
  students st <> [] -> rooms st <> [] ->
  2 <= List.length (group_by_subject (roster st)) ->
  let written :=
    zz_rows (group_a_of shuffle (roster st)) (group_b_of shuffle (roster st))
      (0, 0) (scan_positions (halls st)) in
  let n := List.length written in
  allocate_anti_cheating shuffle st
  = ((true,
      ("Successfully allocated " ++ str_nat n
         ++ " students in Anti-Cheating Zig-Zag mode.")%string),
     logged "allocation"
       ("Anti-Cheating (Zig-Zag) allocation completed: "
          ++ str_nat n ++ " students allocated")%string
       (add_allocations written (cleared st))).
Proof.
  intros Hs Hr Hg. cbv zeta.
  unfold allocate_anti_cheating, bind, clear_allocations, get_all_students,
    get_all_rooms. cbn [students rooms].
  rewrite !is_empty_sorted, (is_empty_false _ Hs), (is_empty_false _ Hr).
  cbn [orb].
  fold (roster st) in *. fold (halls st).
  destruct (Nat.ltb_spec (List.length (group_by_subject (roster st))) 2);
    [lia|].
  fold (course_a_of (roster st)). fold (course_b_of (roster st)).
  fold (group_a_of shuffle (roster st)). fold (group_b_of shuffle (roster st)).
  rewrite zigzag_scan_flat, zigzag_loop_run
    by (now apply courses_differ_of).
  destruct (zz_final _ _ _ _) as [a b]. reflexivity.
Qed.

Lemma allocate_anti_cheating_empty
  (shuffle : nat -> list student -> list student) (st : store) :
  students st = [] \/ rooms st = [] ->
  allocate_anti_cheating shuffle st
  = ((false, "No students or rooms available"), cleared st).
Proof.
  intros H.
  unfold allocate_anti_cheating, bind, clear_allocations, get_all_students,
    get_all_rooms. cbn [students rooms].
  rewrite !is_empty_sorted.
  destruct H as [H|H]; apply is_empty_true in H; rewrite H;
    [|rewrite orb_true_r]; reflexivity.
Qed.

(** ** Shared facts on the written rows *)

Lemma written_rows (ty desc : string) (l : list allocation) (st : store) :
  seating_allocations (logged ty desc (add_allocations l (cleared st))) = l.
Proof. reflexivity. Qed.

Lemma NoDup_nth_beyond {A : Type} (d : A) (l : list A) (k i : nat) :
  NoDup l -> k <= i < List.length l -> ~ In (nth i l d) (firstn k l).
Proof.
  intros Hnd Hi Hin.
  apply (In_nth _ _ d) in Hin as (j & Hj & E).
  rewrite length_firstn in Hj. rewrite nth_firstn in E.
  destruct (Nat.ltb_spec j k); [|lia].
  apply (proj1 (NoDup_nth l d) Hnd) in E; lia.
Qed.

Lemma NoDup_map_In_inj {A B : Type} (f : A -> B) (l : list A) (x y : A) :
  NoDup (map f l) -> In x l -> In y l -> f x = f y -> x = y.
Proof.
  induction l as [|z l IH]; intros Hnd Hx Hy E; [destruct Hx|].
  inversion Hnd as [|? ? Hz Hnd']; subst.
  destruct Hx as [->|Hx], Hy as [->|Hy]; auto.
  - exfalso. apply Hz. rewrite E. now apply in_map.
  - exfalso. apply Hz. rewrite <- E. now apply in_map.
Qed.

Lemma sample_shuffle_fair : fair sample_shuffle.
Proof. intros k l. apply Permutation_rev. Qed.

Lemma sorted_map_key {A B : Type} (g : A -> B) (key : A -> string)
  (key' : B -> string) (l : list A) :
  (forall x, key x = key' (g x)) ->
  StronglySorted (key_le key) l -> StronglySorted (key_le key') (map g l).
Proof.
  intros Hk. induction 1 as [|x l Hl IH Hx]; cbn [map]; constructor.
  - exact IH.
  - apply Forall_map. eapply Forall_impl; [|exact Hx].
    intros y Hy. unfold key_le in *. now rewrite <- !Hk.
Qed.

(** Sorting a table whose keys are those of a sorted list [target] yields
    [target], as far as [g] shows. *)
Lemma sorted_map_canonical {A B : Type} (g : A -> B) (key : A -> string)
  (key' : B -> string) (l : list A) (target : list B) :
  (forall x, key x = key' (g x)) ->
  NoDup (map key' target) -> StronglySorted (key_le key') target ->
  Permutation (map g l) target -> map g (sorted key l) = target.
Proof.
  intros Hk Hnd Hsorted Hp.
  assert (Hp' : Permutation (map g (sorted key l)) target).
  { rewrite <- Hp. apply Permutation_map. symmetry. apply sorted_perm. }
  apply (sorted_perm_unique key'); try assumption.
  - eapply Permutation_NoDup; [|exact Hnd].
    apply Permutation_map. now symmetry.
  - apply (sorted_map_key g key key'); [exact Hk|apply sorted_sorted].
Qed.

(** The seat sequence reads the number, rows and columns of a room only. *)
Lemma room_seats_dims (rms1 rms2 : list room) :
  map room_dims rms1 = map room_dims rms2 ->
  build_room_seats rms1 = build_room_seats rms2.
Proof.
  revert rms2. induction rms1 as [|r1 rms1 IH]; intros [|r2 rms2] E;
    try discriminate; [reflexivity|].
  cbn [map] in E. injection E as E1 E2 E3 E.
  unfold build_room_seats in *. cbn [flat_map].
  rewrite (IH rms2 E), E1, E2, E3. reflexivity.
Qed.

Lemma placements_assigned (method : string) (studs : list student)
  (seats : list seat) :
  placements (map (fun p => seat_record method (fst p) (snd p))
                (combine studs seats))
  = combine (map roll_no studs) (map seat_number seats).
Proof.
  unfold placements. rewrite map_map.
  revert seats. induction studs as [|x studs IH]; intros [|y seats];
    try reflexivity.
  cbn [combine map]. now rewrite IH.
Qed.

(** ** The two groups of the zig-zag strategy *)

Lemma group_a_perm (shuffle : nat -> list student -> list student)
  (studs : list student) :
  fair shuffle ->
  Permutation
    (filter (fun s => (subject_code s =? course_a_of studs)%string) studs)
    (group_a_of shuffle studs).
Proof.
  intros Hf. unfold group_a_of. rewrite group_by_subject_get. apply Hf.
Qed.

Lemma group_b_perm (shuffle : nat -> list student -> list student)
  (studs : list student) :
  fair shuffle ->
  Permutation
    (filter (fun s => (subject_code s =? course_b_of studs)%string) studs)
    (group_b_of shuffle studs).
Proof.
  intros Hf. unfold group_b_of. rewrite group_by_subject_get. apply Hf.
Qed.

Lemma group_a_member (shuffle : nat -> list student -> list student)
  (studs : list student) (s : student) :
  fair shuffle -> In s (group_a_of shuffle studs) ->
  In s studs /\ subject_code s = course_a_of studs.
Proof.
  intros Hf Hin.
  apply (Permutation_in _ (Permutation_sym (group_a_perm shuffle studs Hf)))
    in Hin.
  apply filter_In in Hin as [H1 H2]. now apply String.eqb_eq in H2.
Qed.

Lemma group_b_member (shuffle : nat -> list student -> list student)
  (studs : list student) (s : student) :
  fair shuffle -> In s (group_b_of shuffle studs) ->
  In s studs /\ subject_code s = course_b_of studs.
Proof.
  intros Hf Hin.
  apply (Permutation_in _ (Permutation_sym (group_b_perm shuffle studs Hf)))
    in Hin.
  apply filter_In in Hin as [H1 H2]. now apply String.eqb_eq in H2.
Qed.

Lemma NoDup_map_filter {A B : Type} (g : A -> B) (f : A -> bool) (l : list A) :
  NoDup (map g l) -> NoDup (map g (filter f l)).
Proof.
  induction l as [|x l IH]; intros Hnd; [constructor|].
  inversion Hnd as [|? ? Hx Hnd']; subst. cbn [filter].
  destruct (f x); [|now apply IH].
  cbn [map]. constructor; [|now apply IH].
  intros Hin. apply Hx.
  apply in_map_iff in Hin as (y & E & Hy). apply filter_In in Hy as [Hy _].
  rewrite <- E. now apply in_map.
Qed.

(** No roll number occurs twice across the two groups. *)
Lemma groups_rolls_NoDup (shuffle : nat -> list student -> list student)
  (studs : list student) :
  fair shuffle -> NoDup (map roll_no studs) ->
  course_a_of studs <> course_b_of studs ->
  NoDup (map roll_no (group_a_of shuffle studs)
           ++ map roll_no (group_b_of shuffle studs)).
Proof.
  intros Hf Hnd Hab. apply NoDup_app.
  - eapply Permutation_NoDup;
      [apply Permutation_map, (group_a_perm shuffle studs Hf)|].
    now apply NoDup_map_filter.
  - eapply Permutation_NoDup;
      [apply Permutation_map, (group_b_perm shuffle studs Hf)|].
    now apply NoDup_map_filter.
  - intros r Ha Hb.
    apply in_map_iff in Ha as (sa & Ea & Ha).
    apply in_map_iff in Hb as (sb & Eb & Hb).
    apply (group_a_member shuffle studs sa Hf) in Ha as [Ha Ca].
    apply (group_b_member shuffle studs sb Hf) in Hb as [Hb Cb].
    assert (sa = sb)
      by (apply (NoDup_map_In_inj roll_no studs); congruence).
    subst sb. congruence.
Qed.

Lemma In_firstn {A : Type} (k : nat) (l : list A) (x : A) :
  In x (firstn k l) -> In x l.
Proof.
  intros H. rewrite <- (firstn_skipn k l). apply in_or_app. now left.
Qed.

Lemma NoDup_app_disjoint {A : Type} (l1 l2 : list A) (x : A) :
  NoDup (l1 ++ l2) -> In x l1 -> ~ In x l2.
Proof.
  induction l1 as [|y l1 IH]; intros Hnd H1 H2; [destruct H1|].
  inversion Hnd as [|? ? Hy Hnd']; subst.
  destruct H1 as [->|H1].
  - apply Hy, in_or_app. now right.
  - now apply IH.
Qed.

Lemma NoDup_app_firstn {A : Type} (l1 l2 : list A) (i j : nat) :
  NoDup (l1 ++ l2) -> NoDup (firstn i l1 ++ firstn j l2).
Proof.
  intros H. apply NoDup_app.
  - apply NoDup_firstn. now apply NoDup_app_remove_r in H.
  - apply NoDup_firstn. now apply NoDup_app_remove_l in H.
  - intros a Ha Hb. apply In_firstn in Ha, Hb.
    exact (NoDup_app_disjoint l1 l2 a H Ha Hb).
Qed.

(** ** The rows each strategy writes *)

Lemma roster_nil (st : store) : students st = [] -> roster st = [].
Proof. intros E. unfold roster. now rewrite E. Qed.

Lemma halls_nil (st : store) : rooms st = [] -> halls st = [].
Proof. intros E. unfold halls. now rewrite E. Qed.

Lemma nil_or_not {A : Type} (l : list A) : l = [] \/ l <> [].
Proof. destruct l; [now left|right; discriminate]. Qed.

Lemma rollwise_written (st : store) :
  seating_allocations (snd (allocate_rollwise st))
  = map (fun p => seat_record "rollwise" (fst p) (snd p))
      (combine (roster st) (build_room_seats (halls st))).
Proof.
  destruct (nil_or_not (students st)) as [Es|Hs].
  - rewrite allocate_rollwise_empty by (now left).
    now rewrite (roster_nil st Es).
  - destruct (nil_or_not (rooms st)) as [Er|Hr].
    + rewrite allocate_rollwise_empty by (now right).
      rewrite (halls_nil st Er). cbn [build_room_seats flat_map].
      now rewrite combine_nil.
    + now rewrite (allocate_rollwise_run st Hs Hr).
Qed.

Lemma random_written (shuffle : nat -> list student -> list student)
  (st : store) :
  seating_allocations (snd (allocate_random shuffle st)) = []
  \/ seating_allocations (snd (allocate_random shuffle st))
     = map (fun p => seat_record "random" (fst p) (snd p))
         (combine (shuffle 0 (roster st)) (build_room_seats (halls st))).
Proof.
  destruct (nil_or_not (students st)) as [Es|Hs];
    [left; now rewrite allocate_random_empty by (now left)|].
  destruct (nil_or_not (rooms st)) as [Er|Hr];
    [left; now rewrite allocate_random_empty by (now right)|].
  right. now rewrite (allocate_random_run shuffle st Hs Hr).
Qed.

(** Fewer than two subject codes: the zig-zag strategy stops after the
    clear. *)
Lemma allocate_anti_cheating_few
  (shuffle : nat -> list student -> list student) (st : store) :
  students st <> [] -> rooms st <> [] ->
  List.length (group_by_subject (roster st)) < 2 ->
  allocate_anti_cheating shuffle st
  = ((false,
      "Need at least two different courses for anti-cheating allocation"),
     cleared st).
Proof.
  intros Hs Hr Hg.
  unfold allocate_anti_cheating, bind, clear_allocations, get_all_students,
    get_all_rooms. cbn [students rooms].
  rewrite !is_empty_sorted, (is_empty_false _ Hs), (is_empty_false _ Hr).
  cbn [orb]. fold (roster st).
  destruct (Nat.ltb_spec (List.length (group_by_subject (roster st))) 2);
    [reflexivity|lia].
Qed.

Lemma anti_cheating_written (shuffle : nat -> list student -> list student)
  (st : store) :
  seating_allocations (snd (allocate_anti_cheating shuffle st)) = []
  \/ (2 <= List.length (group_by_subject (roster st))
      /\ seating_allocations (snd (allocate_anti_cheating shuffle st))
         = zz_rows (group_a_of shuffle (roster st))
             (group_b_of shuffle (roster st)) (0, 0)
             (scan_positions (halls st))).
Proof.
  destruct (nil_or_not (students st)) as [Es|Hs];
    [left; now rewrite allocate_anti_cheating_empty by (now left)|].
  destruct (nil_or_not (rooms st)) as [Er|Hr];
    [left; now rewrite allocate_anti_cheating_empty by (now right)|].
  destruct (Nat.lt_ge_cases (List.length (group_by_subject (roster st))) 2)
    as [Hg|Hg].
  - left. now rewrite (allocate_anti_cheating_few shuffle st Hs Hr Hg).
  - right. split; [exact Hg|].
    now rewrite (allocate_anti_cheating_run shuffle st Hs Hr Hg).
Qed.

Lemma assigned_injective (method : string) (studs : list student)
  (seats : list seat) :
  NoDup (map roll_no studs) -> NoDup (map seat_pos seats) ->
  let rows_ :=
    map (fun p => seat_record method (fst p) (snd p)) (combine studs seats) in
  NoDup (map alloc_roll_no rows_) /\ NoDup (map seat_of rows_).
Proof.
  intros H1 H2. cbv zeta. rewrite assigned_rolls, assigned_seats.
  split; now apply NoDup_firstn.
Qed.

Lemma roster_rolls_NoDup (st : store) :
  store_wf st -> NoDup (map roll_no (roster st)).
Proof.
  intros [H _]. eapply Permutation_NoDup; [|exact H].
  apply Permutation_map, sorted_perm.
Qed.

Lemma halls_numbers_NoDup (st : store) :
  store_wf st -> NoDup (map room_no (halls st)).
Proof.
  intros [_ H]. eapply Permutation_NoDup; [|exact H].
  apply Permutation_map, sorted_perm.
Qed.

(** The rows of a zig-zag scan carry the roll numbers of the students taken
    from the two groups. *)
Lemma zz_written_rolls (group_a group_b : list student) (ps : list position) :
  exists a b,
    Permutation (map alloc_roll_no (zz_rows group_a group_b (0, 0) ps))
      (map roll_no (firstn a group_a) ++ map roll_no (firstn b group_b)).
Proof.
  pose proof (zz_rows_rolls group_a group_b ps 0 0) as H.
  destruct (zz_final _ _ (0, 0) ps) as [a b].
  exists a, b. exact H.
Qed.

Lemma zz_written_count (group_a group_b : list student) (ps : list position) :
  List.length (zz_rows group_a group_b (0, 0) ps)
  = Nat.min (List.length group_a + List.length group_b) (List.length ps).
Proof.
  pose proof (zz_rows_length group_a group_b ps 0 0) as H1.
  pose proof (zz_final_count group_a group_b ps 0 0
                (Nat.le_0_l _) (Nat.le_0_l _)) as H2.
  destruct (zz_final _ _ (0, 0) ps) as [a b]. lia.
Qed.

(** ** The first two subject codes *)

Lemma first_seen_head (k : string) (l : list string) :
  hd_error (first_seen [k] l) = find (fun c => negb (c =? k)%string) l.
Proof.
  induction l as [|c l IH]; [reflexivity|].
  cbn [first_seen existsb find]. rewrite orb_false_r, String.eqb_sym.
  destruct (c =? k)%string; [exact IH|reflexivity].
Qed.

Lemma find_map {A B : Type} (g : A -> B) (p : B -> bool) (l : list A) :
  find p (map g l) = option_map g (find (fun x => p (g x)) l).
Proof.
  induction l as [|x l IH]; [reflexivity|].
  cbn [map find]. destruct (p (g x)); [reflexivity|exact IH].
Qed.

(** Group A is the subject of the first student read, group B the first
    subject met after it that differs. *)
Lemma first_two_courses (studs : list student) :
  2 <= List.length (group_by_subject studs) ->
  exists s0 rest s1,
    studs = s0 :: rest
    /\ course_a_of studs = subject_code s0
    /\ find (fun s => negb (subject_code s =? subject_code s0)%string) rest
       = Some s1
    /\ course_b_of studs = subject_code s1.
Proof.
  intros Hg. rewrite group_count in Hg.
  unfold course_a_of, course_b_of.
  rewrite group_by_subject_keys in *.
  destruct studs as [|s0 rest]; [cbn in Hg; lia|].
  cbn [map first_seen existsb app] in *.
  pose proof (first_seen_head (subject_code s0) (map subject_code rest)) as Hh.
  rewrite find_map in Hh.
  destruct (first_seen [subject_code s0] (map subject_code rest)) as [|k ks];
    [cbn in Hg; lia|].
  cbn [hd_error] in Hh.
  destruct (find _ rest) as [s1|] eqn:Ef; [|discriminate].
  cbn [option_map] in Hh. injection Hh as ->.
  exists s0, rest, s1. repeat split. exact Ef.
Qed.

Lemma seats_count_perm (l l' : list room) :
  Permutation l l' ->
  list_sum (map (fun rm => nrows rm * ncols rm) l)
  = list_sum (map (fun rm => nrows rm * ncols rm) l').
Proof.
  induction 1; cbn [map];
    repeat change (list_sum (?x :: ?l)) with (x + list_sum l); lia.
Qed.

(** ** Adjacent seats *)








Lemma seats_total_clamped (rms : list room) :
  Z.of_nat (list_sum (map (fun rm => nrows rm * ncols rm) rms))
  = fold_right Z.add 0%Z
      (map (fun rm => (Z.max 0 (rows rm) * Z.max 0 (columns rm))%Z) rms).
Proof.
  induction rms as [|rm rms IH]; [reflexivity|].
  cbn [map fold_right].
  change (list_sum (?x :: ?l)) with (x + list_sum l).
  rewrite Nat2Z.inj_add, Nat2Z.inj_mul, IH.
  replace (Z.of_nat (nrows rm)) with (Z.max 0 (rows rm))
    by (unfold nrows; lia).
  replace (Z.of_nat (ncols rm)) with (Z.max 0 (columns rm))
    by (unfold ncols; lia).
  reflexivity.
Qed.

(** * The claims *)

(** C1. With students and rooms present, [allocate_rollwise] takes the
    students in ascending order of roll number and the seats room by room in
    ascending order of room number, each room row-major (its [k]-th seat is
    in row [k / C + 1], column [k mod C + 1]); it writes one row per position
    [i] below the smaller of the two counts, giving the [i]-th student the
    [i]-th seat, and nothing else; a student at a position from the number of
    seats on has no row; it returns success and reports that smaller
    count. *)
Theorem allocate_rollwise_assigns (st : store) :
  students st <> [] -> rooms st <> [] ->
  let studs := roster st in
  let seats :=
    flat_map (fun rm => map (seat_at rm) (seq 0 (nrows rm * ncols rm)))
      (halls st) in
  let n := Nat.min (List.length studs) (List.length seats) in
  let written := seating_allocations (snd (allocate_rollwise st)) in
  (Permutation (students st) studs /\ StronglySorted (key_le roll_no) studs)
  /\ (Permutation (rooms st) (halls st)
      /\ StronglySorted (key_le room_no) (halls st))
  /\ fst (allocate_rollwise st)
     = (true,
        ("Successfully allocated " ++ str_nat n ++ " students rollwise.")%string)
  /\ List.length written = n
  /\ (forall i, i < n ->
        nth_error written i
        = Some (seat_record "rollwise" (nth i studs default_student)
                  (nth i seats default_seat)))
  /\ (NoDup (map roll_no (students st)) ->
      forall i, List.length seats <= i < List.length studs ->
        ~ In (roll_no (nth i studs default_student))
            (map alloc_roll_no written)).
Proof.
  intros Hs Hr. cbv zeta.
  rewrite (allocate_rollwise_run st Hs Hr). cbn [fst snd].
  rewrite written_rows, <- room_seats_row_major.
  fold (roster st). fold (halls st).
  repeat split.
  - apply sorted_perm.
  - apply sorted_sorted.
  - apply sorted_perm.
  - apply sorted_sorted.
  - now rewrite length_map, length_combine.
  - intros i Hi. now apply assigned_nth.
  - intros Hnd i Hi. rewrite assigned_rolls.
    rewrite <- (map_nth roll_no).
    apply NoDup_nth_beyond; [|now rewrite length_map].
    eapply Permutation_NoDup; [|exact Hnd].
    apply Permutation_map, sorted_perm.
Qed.

Lemma allocate_rollwise_assigns_witness :
  students sample_store <> [] /\ rooms sample_store <> []
  /\ fst (allocate_rollwise sample_store)
     = (true, "Successfully allocated 5 students rollwise.")
  /\ nth_error (seating_allocations (snd (allocate_rollwise sample_store))) 4
     = Some (mk_allocation "S5" "102" 1 1 "102-R1C1" "rollwise").
Proof.
  assert (Hs : students sample_store <> []) by discriminate.
  assert (Hr : rooms sample_store <> []) by discriminate.
  split; [exact Hs|]. split; [exact Hr|].
  destruct (allocate_rollwise_assigns sample_store Hs Hr)
    as (_ & _ & Hmsg & _ & Hnth & _).
  split; [exact Hmsg|].
  apply (Hnth 4). vm_compute. lia.
Defined.



(** C3. Each of the three operations deletes the allocation table before it
    looks at its inputs: [clear_allocations] empties that table and touches
    nothing else, no operation's outcome depends on the rows the table held
    before, and when there is no student or no room the operation fails and
    leaves the store as the clear left it, with no allocation row and no new
    log entry. *)
Theorem allocations_cleared_first
  (shuffle : nat -> list student -> list student) (st : store) :
  (seating_allocations (cleared st) = []
   /\ students (cleared st) = students st /\ rooms (cleared st) = rooms st
   /\ activity_log (cleared st) = activity_log st)
  /\ (forall old,
        allocate_rollwise (with_allocations old st) = allocate_rollwise st
        /\ allocate_random shuffle (with_allocations old st)
           = allocate_random shuffle st
        /\ allocate_anti_cheating shuffle (with_allocations old st)
           = allocate_anti_cheating shuffle st)
  /\ (students st = [] \/ rooms st = [] ->
      allocate_rollwise st
      = ((false, "No students or rooms available"), cleared st)
      /\ allocate_random shuffle st
         = ((false, "No students or rooms available"), cleared st)
      /\ allocate_anti_cheating shuffle st
         = ((false, "No students or rooms available"), cleared st)).
Proof.
  split; [repeat split|]. split.
  - intros old. repeat split; reflexivity.
  - intros H. repeat split.
    + now apply allocate_rollwise_empty.
    + now apply allocate_random_empty.
    + now apply allocate_anti_cheating_empty.
Qed.

Lemma allocations_cleared_first_witness :
  (students sample_store_no_room = [] \/ rooms sample_store_no_room = [])
  /\ allocate_anti_cheating sample_shuffle sample_store_no_room
     = ((false, "No students or rooms available"),
        with_allocations [] sample_store_no_room).
Proof.
  assert (H : students sample_store_no_room = []
              \/ rooms sample_store_no_room = []) by (right; reflexivity).
  split; [exact H|].
  destruct (allocations_cleared_first sample_shuffle sample_store_no_room)
    as (_ & _ & Hfail).
  destruct (Hfail H) as (_ & _ & Hanti). exact Hanti.
Defined.

(** C4. In one run of any of the three operations, on a store that meets the
    key constraints of its schema, no roll number and no seat (room number,
    row, column) occurs in two of the rows written. *)
Theorem allocations_injective
  (shuffle : nat -> list student -> list student) (st : store) :
  store_wf st -> fair shuffle ->
  (NoDup (map alloc_roll_no (seating_allocations (snd (allocate_rollwise st))))
   /\ NoDup (map seat_of (seating_allocations (snd (allocate_rollwise st)))))
  /\ (NoDup (map alloc_roll_no
               (seating_allocations (snd (allocate_random shuffle st))))
      /\ NoDup (map seat_of
                  (seating_allocations (snd (allocate_random shuffle st)))))
  /\ (NoDup (map alloc_roll_no
               (seating_allocations (snd (allocate_anti_cheating shuffle st))))
      /\ NoDup (map seat_of
                  (seating_allocations
                     (snd (allocate_anti_cheating shuffle st))))).
Proof.
  intros Hwf Hf.
  pose proof (roster_rolls_NoDup st Hwf) as Hrolls.
  pose proof (room_seats_NoDup _ (halls_numbers_NoDup st Hwf)) as Hseats.
  split; [|split].
  - rewrite rollwise_written. now apply assigned_injective.
  - destruct (random_written shuffle st) as [E|E]; rewrite E.
    + split; constructor.
    + apply assigned_injective; [|exact Hseats].
      eapply Permutation_NoDup; [|exact Hrolls].
      apply Permutation_map, Hf.
  - destruct (anti_cheating_written shuffle st) as [E|[Hg E]]; rewrite E.
    + split; constructor.
    + split.
      * destruct (zz_written_rolls (group_a_of shuffle (roster st))
                    (group_b_of shuffle (roster st))
                    (scan_positions (halls st))) as (a & b & Hp).
        eapply Permutation_NoDup; [symmetry; exact Hp|].
        rewrite <- !firstn_map. apply NoDup_app_firstn.
        apply groups_rolls_NoDup; try assumption.
        now apply courses_differ_of.
      * apply zz_rows_seats_NoDup, scan_positions_NoDup.
        now apply halls_numbers_NoDup.
Qed.

Lemma allocations_injective_witness :
  store_wf sample_store /\ fair sample_shuffle
  /\ NoDup (map alloc_roll_no
              (seating_allocations
                 (snd (allocate_anti_cheating sample_shuffle sample_store))))
  /\ NoDup (map seat_of
              (seating_allocations
                 (snd (allocate_anti_cheating sample_shuffle sample_store)))).
Proof.
  assert (Hwf : store_wf sample_store).
  { split; cbn; repeat constructor; cbn; intuition discriminate. }
  split; [exact Hwf|]. split; [exact sample_shuffle_fair|].
  exact (proj2 (proj2 (allocations_injective sample_shuffle sample_store Hwf
                         sample_shuffle_fair))).
Defined.

(** C5. With students and rooms present and every student of the same
    subject code, [allocate_anti_cheating] fails with its message about
    needing two courses and leaves the store as the clear left it: no row is
    written and nothing is logged. *)
Theorem single_course_fails
  (shuffle : nat -> list student -> list student) (st : store)
  (code : string) :
  students st <> [] -> rooms st <> [] ->
  (forall s, In s (students st) -> subject_code s = code) ->
  allocate_anti_cheating shuffle st
  = ((false,
      "Need at least two different courses for anti-cheating allocation"),
     cleared st)
  /\ seating_allocations (snd (allocate_anti_cheating shuffle st)) = [].
Proof.
  intros Hs Hr Hall.
  assert (Hg : List.length (group_by_subject (roster st)) < 2).
  { apply Nat.lt_succ_r, (group_single _ code).
    intros s Hin. apply Hall.
    eapply Permutation_in; [symmetry; apply sorted_perm|exact Hin]. }
  rewrite (allocate_anti_cheating_few shuffle st Hs Hr Hg). now split.
Qed.

Lemma single_course_fails_witness :
  students sample_store_one_course <> []
  /\ rooms sample_store_one_course <> []
  /\ (forall s, In s (students sample_store_one_course) ->
                subject_code s = "MAT")
  /\ allocate_anti_cheating sample_shuffle sample_store_one_course
     = ((false,
         "Need at least two different courses for anti-cheating allocation"),
        with_allocations [] sample_store_one_course).
Proof.
  assert (Hs : students sample_store_one_course <> []) by discriminate.
  assert (Hr : rooms sample_store_one_course <> []) by discriminate.
  assert (Hall : forall s, In s (students sample_store_one_course) ->
                           subject_code s = "MAT").
  { intros s [<-|[<-|[]]]; reflexivity. }
  split; [exact Hs|]. split; [exact Hr|]. split; [exact Hall|].
  exact (proj1 (single_course_fails sample_shuffle sample_store_one_course
                  "MAT" Hs Hr Hall)).
Defined.

(** C6. With three or more subject codes among the students,
    [allocate_anti_cheating] succeeds and seats students of the first two
    codes only (the code of the first student in roll order and the first
    differing code after it): every row written belongs to a student of one
    of these two groups, a student of any other code has no row, and the
    number of rows, which is the count reported, is at most the two groups'
    sizes together. *)
Theorem extra_groups_excluded
  (shuffle : nat -> list student -> list student) (st : store) :
  fair shuffle -> students st <> [] -> rooms st <> [] ->
  3 <= List.length (group_by_subject (roster st)) ->
  let ca := course_a_of (roster st) in
  let cb := course_b_of (roster st) in
  let size_a :=
    List.length (filter (fun s => (subject_code s =? ca)%string) (roster st)) in
  let size_b :=
    List.length (filter (fun s => (subject_code s =? cb)%string) (roster st)) in
  let written := seating_allocations (snd (allocate_anti_cheating shuffle st)) in
  (exists s0 rest s1,
      roster st = s0 :: rest /\ ca = subject_code s0
      /\ find (fun s => negb (subject_code s =? subject_code s0)%string) rest
         = Some s1
      /\ cb = subject_code s1)
  /\ fst (allocate_anti_cheating shuffle st)
     = (true,
        ("Successfully allocated " ++ str_nat (List.length written)
           ++ " students in Anti-Cheating Zig-Zag mode.")%string)
  /\ (forall x, In x written ->
        exists s, In s (students st) /\ roll_no s = alloc_roll_no x
                  /\ (subject_code s = ca \/ subject_code s = cb))
  /\ (store_wf st ->
      forall s, In s (students st) ->
        subject_code s <> ca -> subject_code s <> cb ->
        ~ In (roll_no s) (map alloc_roll_no written))
  /\ List.length written <= size_a + size_b.
Proof.
  intros Hf Hs Hr Hg3. cbv zeta.
  assert (Hg : 2 <= List.length (group_by_subject (roster st))) by lia.
  rewrite (allocate_anti_cheating_run shuffle st Hs Hr Hg).
  cbn [fst snd]. rewrite written_rows.
  set (ga := group_a_of shuffle (roster st)).
  set (gb := group_b_of shuffle (roster st)).
  assert (Hown : forall x,
             In x (zz_rows ga gb (0, 0) (scan_positions (halls st))) ->
             exists s, In s (students st) /\ roll_no s = alloc_roll_no x
                       /\ (subject_code s = course_a_of (roster st)
                           \/ subject_code s = course_b_of (roster st))).
  { intros x Hx.
    destruct (zz_written_rolls ga gb (scan_positions (halls st)))
      as (a & b & Hp).
    apply (in_map alloc_roll_no) in Hx.
    apply (Permutation_in _ Hp), in_app_iff in Hx.
    destruct Hx as [Hx|Hx]; apply in_map_iff in Hx as (s & E & Hin);
      apply In_firstn in Hin.
    - apply (group_a_member shuffle _ s Hf) in Hin as [Hin Hc].
      exists s. repeat split; [|exact E|now left].
      eapply Permutation_in; [symmetry; apply sorted_perm|exact Hin].
    - apply (group_b_member shuffle _ s Hf) in Hin as [Hin Hc].
      exists s. repeat split; [|exact E|now right].
      eapply Permutation_in; [symmetry; apply sorted_perm|exact Hin]. }
  split; [now apply first_two_courses|].
  split; [reflexivity|]. split; [exact Hown|]. split.
  - intros [Hnd _] s Hin Ha Hb Hrow.
    apply in_map_iff in Hrow as (x & E & Hx).
    destruct (Hown x Hx) as (s' & Hin' & E' & Hc).
    assert (s' = s)
      by (apply (NoDup_map_In_inj roll_no (students st)); congruence).
    subst s'. destruct Hc; congruence.
  - rewrite zz_written_count.
    rewrite (Permutation_length (group_a_perm shuffle (roster st) Hf)).
    rewrite (Permutation_length (group_b_perm shuffle (roster st) Hf)).
    apply Nat.le_min_l.
Qed.

Lemma extra_groups_excluded_witness :
  fair sample_shuffle /\ students sample_store <> []
  /\ rooms sample_store <> []
  /\ 3 <= List.length (group_by_subject (roster sample_store))
  /\ fst (allocate_anti_cheating sample_shuffle sample_store)
     = (true, "Successfully allocated 4 students in Anti-Cheating Zig-Zag mode.")
  /\ List.length
       (seating_allocations
          (snd (allocate_anti_cheating sample_shuffle sample_store)))
     <= 2 + 2.
Proof.
  assert (Hs : students sample_store <> []) by discriminate.
  assert (Hr : rooms sample_store <> []) by discriminate.
  assert (Hg : 3 <= List.length (group_by_subject (roster sample_store)))
    by (vm_compute; lia).
  split; [exact sample_shuffle_fair|]. split; [exact Hs|].
  split; [exact Hr|]. split; [exact Hg|].
  destruct (extra_groups_excluded sample_shuffle sample_store
              sample_shuffle_fair Hs Hr Hg) as (_ & Hmsg & _ & _ & Hle).
  split; [exact Hmsg|exact Hle].
Defined.

(** C7 (as amended). Rooms "101" (2 rows, 2 columns) and "102" (1 row, 2
    columns) and students "S1" to "S5", whatever the order of the tables:
    [allocate_rollwise] seats S1 at 101-R1C1, S2 at 101-R1C2, S3 at 101-R2C1,
    S4 at 101-R2C2 and S5 at 102-R1C1.  With a sixth student "S6" the same
    five rows are written and S6 is seated at 102-R1C2, the sixth seat. *)
Theorem rollwise_example (st : store) :
  Permutation (map room_dims (rooms st))
    [("101", 2%Z, 2%Z); ("102", 1%Z, 2%Z)] ->
  let written := seating_allocations (snd (allocate_rollwise st)) in
  (Permutation (map roll_no (students st)) ["S1"; "S2"; "S3"; "S4"; "S5"] ->
   placements written
   = [("S1", "101-R1C1"); ("S2", "101-R1C2"); ("S3", "101-R2C1");
      ("S4", "101-R2C2"); ("S5", "102-R1C1")])
  /\ (Permutation (map roll_no (students st))
        ["S1"; "S2"; "S3"; "S4"; "S5"; "S6"] ->
      placements written
      = [("S1", "101-R1C1"); ("S2", "101-R1C2"); ("S3", "101-R2C1");
         ("S4", "101-R2C2"); ("S5", "102-R1C1"); ("S6", "102-R1C2")]).
Proof.
  intros Hrooms. cbv zeta.
  assert (Hr : rooms st <> []).
  { intros E. rewrite E in Hrooms. now apply Permutation_nil in Hrooms. }
  assert (Hseats : map seat_number (build_room_seats (halls st))
                   = ["101-R1C1"; "101-R1C2"; "101-R2C1"; "101-R2C2";
                      "102-R1C1"; "102-R1C2"]).
  { rewrite (room_seats_dims (halls st) sample_rooms); [reflexivity|].
    apply (sorted_map_canonical room_dims room_no (fun d => fst (fst d)));
      [reflexivity| |
       |exact Hrooms].
    - cbn. repeat constructor; cbn; intuition discriminate.
    - repeat constructor. }
  assert (Hrun : forall rolls,
             rolls <> [] -> NoDup rolls ->
             StronglySorted (key_le (fun k => k)) rolls ->
             Permutation (map roll_no (students st)) rolls ->
             placements (seating_allocations (snd (allocate_rollwise st)))
             = combine rolls
                 ["101-R1C1"; "101-R1C2"; "101-R2C1"; "101-R2C2";
                  "102-R1C1"; "102-R1C2"]).
  { intros rolls Hne Hnd Hsorted Hp.
    assert (Hs : students st <> []).
    { intros E. rewrite E in Hp. now apply Permutation_nil in Hp. }
    rewrite (allocate_rollwise_run st Hs Hr). cbn [snd].
    rewrite written_rows, placements_assigned. fold (halls st).
    rewrite Hseats. f_equal.
    apply (sorted_map_canonical roll_no roll_no (fun k => k));
      [reflexivity|now rewrite map_id|exact Hsorted|exact Hp]. }
  split; intros Hp;
    match type of Hp with
    | Permutation _ ?rolls =>
        rewrite (Hrun rolls);
        [ reflexivity | discriminate
        | repeat constructor; cbn; intuition discriminate
        | repeat constructor | exact Hp ]
    end.
Qed.

Lemma rollwise_example_witness :
  Permutation (map room_dims (rooms sample_store))
    [("101", 2%Z, 2%Z); ("102", 1%Z, 2%Z)]
  /\ Permutation (map roll_no (students sample_store))
       ["S1"; "S2"; "S3"; "S4"; "S5"]
  /\ placements (seating_allocations (snd (allocate_rollwise sample_store)))
     = [("S1", "101-R1C1"); ("S2", "101-R1C2"); ("S3", "101-R2C1");
        ("S4", "101-R2C2"); ("S5", "102-R1C1")].
Proof.
  assert (Hr : Permutation (map room_dims (rooms sample_store))
                 [("101", 2%Z, 2%Z); ("102", 1%Z, 2%Z)])
    by apply perm_swap.
  assert (Hs : Permutation (map roll_no (students sample_store))
                 ["S1"; "S2"; "S3"; "S4"; "S5"]).
  { cbn.
    apply (Permutation_trans (l' := ["S1"; "S3"; "S5"; "S2"; "S4"]));
      [apply perm_swap|].
    apply perm_skip.
    apply (Permutation_trans (l' := ["S3"; "S2"; "S5"; "S4"]));
      [apply perm_skip, perm_swap|].
    apply (Permutation_trans (l' := ["S2"; "S3"; "S5"; "S4"]));
      [apply perm_swap|].
    do 2 apply perm_skip. apply perm_swap. }
  split; [exact Hr|]. split; [exact Hs|].
  exact (proj1 (rollwise_example sample_store Hr) Hs).
Defined.

(** C7, the sentence as the specification has it: with the sixth student in
    the table it is not true that S6 gets no seat; the row seating S6 at
    102-R1C2 is written. *)
Lemma rollwise_example_sixth_seated :
  In (mk_allocation "S6" "102" 1 2 "102-R1C2" "rollwise")
    (seating_allocations (snd (allocate_rollwise sample_store_six)))
  /\ ~ (~ In "S6"
          (map alloc_roll_no
             (seating_allocations (snd (allocate_rollwise sample_store_six))))).
Proof.
  split.
  - vm_compute. tauto.
  - intros H. apply H. vm_compute. tauto.
Qed.

(** C8. With students and rooms present and the shuffle returning any
    rearrangement of the student list, [allocate_random] gives the [j]-th
    student of the shuffled list the [j]-th seat of the seat sequence, for
    [j] below the smaller of the two counts, and writes nothing else; the
    seats taken are those [allocate_rollwise] takes, in the same order; no
    roll number and no seat occurs in two rows. *)
Theorem allocate_random_assigns
  (shuffle : nat -> list student -> list student) (st : store) :
  students st <> [] -> rooms st <> [] ->
  let shuffled := shuffle 0 (roster st) in
  Permutation (roster st) shuffled ->
  let seats :=
    flat_map (fun rm => map (seat_at rm) (seq 0 (nrows rm * ncols rm)))
      (halls st) in
  let n := Nat.min (List.length shuffled) (List.length seats) in
  let written := seating_allocations (snd (allocate_random shuffle st)) in
  Permutation (students st) shuffled
  /\ fst (allocate_random shuffle st)
     = (true,
        ("Successfully allocated " ++ str_nat n ++ " students randomly.")%string)
  /\ List.length written = n
  /\ (forall j, j < n ->
        nth_error written j
        = Some (seat_record "random" (nth j shuffled default_student)
                  (nth j seats default_seat)))
  /\ map seat_of written
     = map seat_of (seating_allocations (snd (allocate_rollwise st)))
  /\ (store_wf st ->
      NoDup (map alloc_roll_no written) /\ NoDup (map seat_of written)).
Proof.
  intros Hs Hr. cbv zeta. intros Hp.
  rewrite (allocate_random_run shuffle st Hs Hr),
    (allocate_rollwise_run st Hs Hr).
  cbn [fst snd]. rewrite !written_rows, <- room_seats_row_major.
  fold (roster st). fold (halls st).
  repeat split.
  - rewrite <- Hp. apply sorted_perm.
  - now rewrite length_map, length_combine.
  - intros j Hj. now apply assigned_nth.
  - rewrite !assigned_seats. f_equal.
    symmetry. exact (Permutation_length Hp).
  - rewrite assigned_rolls. apply NoDup_firstn.
    eapply Permutation_NoDup; [|exact (proj1 H)].
    apply Permutation_map. rewrite <- Hp. apply sorted_perm.
  - rewrite assigned_seats. apply NoDup_firstn, room_seats_NoDup.
    eapply Permutation_NoDup; [|exact (proj2 H)].
    apply Permutation_map, sorted_perm.
Qed.

Lemma allocate_random_assigns_witness :
  students sample_store <> [] /\ rooms sample_store <> []
  /\ Permutation (roster sample_store) (sample_shuffle 0 (roster sample_store))
  /\ fst (allocate_random sample_shuffle sample_store)
     = (true, "Successfully allocated 5 students randomly.")
  /\ nth_error
       (seating_allocations (snd (allocate_random sample_shuffle sample_store)))
       0
     = Some (mk_allocation "S5" "101" 1 1 "101-R1C1" "random").
Proof.
  assert (Hs : students sample_store <> []) by discriminate.
  assert (Hr : rooms sample_store <> []) by discriminate.
  pose proof (sample_shuffle_fair 0 (roster sample_store)) as Hp.
  split; [exact Hs|]. split; [exact Hr|]. split; [exact Hp|].
  destruct (allocate_random_assigns sample_shuffle sample_store Hs Hr Hp)
    as (_ & Hmsg & _ & Hnth & _).
  split; [exact Hmsg|].
  apply (Hnth 0). vm_compute. lia.
Defined.

(** C9. [allocate_rollwise] is deterministic: two stores holding the same
    students and the same rooms (in whatever row order, with whatever earlier
    allocations and log) get the same rows written and the same message; and
    since a run leaves the students and rooms as they are, running again on
    the store it produced writes the same rows and returns the same
    message. *)
Theorem allocate_rollwise_deterministic (st1 st2 : store) :
  store_wf st1 ->
  Permutation (students st1) (students st2) ->
  Permutation (rooms st1) (rooms st2) ->
  (seating_allocations (snd (allocate_rollwise st1))
   = seating_allocations (snd (allocate_rollwise st2))
   /\ fst (allocate_rollwise st1) = fst (allocate_rollwise st2))
  /\ (let st' := snd (allocate_rollwise st1) in
      students st' = students st1 /\ rooms st' = rooms st1
      /\ seating_allocations (snd (allocate_rollwise st'))
         = seating_allocations st'
      /\ fst (allocate_rollwise st') = fst (allocate_rollwise st1)).
Proof.
  assert (Hsame : forall s1 s2,
             roster s1 = roster s2 -> halls s1 = halls s2 ->
             seating_allocations (snd (allocate_rollwise s1))
             = seating_allocations (snd (allocate_rollwise s2))
             /\ fst (allocate_rollwise s1) = fst (allocate_rollwise s2)).
  { intros s1 s2 Es Er.
    assert (Hnil : forall s, is_empty (students s) = is_empty (roster s))
      by (intros s; symmetry; apply is_empty_sorted).
    assert (Hnil' : forall s, is_empty (rooms s) = is_empty (halls s))
      by (intros s; symmetry; apply is_empty_sorted).
    destruct (is_empty (students s1)) eqn:E1.
    - assert (E2 : is_empty (students s2) = true)
        by now rewrite Hnil, <- Es, <- Hnil.
      apply is_empty_true in E1, E2.
      rewrite (allocate_rollwise_empty s1), (allocate_rollwise_empty s2)
        by now left.
      now split.
    - destruct (is_empty (rooms s1)) eqn:E3.
      + assert (E4 : is_empty (rooms s2) = true)
          by now rewrite Hnil', <- Er, <- Hnil'.
        apply is_empty_true in E3, E4.
        rewrite (allocate_rollwise_empty s1), (allocate_rollwise_empty s2)
          by now right.
        now split.
      + assert (E2 : is_empty (students s2) = false)
          by now rewrite Hnil, <- Es, <- Hnil.
        assert (E4 : is_empty (rooms s2) = false)
          by now rewrite Hnil', <- Er, <- Hnil'.
        assert (N1 : students s1 <> [])
          by (intros E; apply is_empty_true in E; congruence).
        assert (N2 : students s2 <> [])
          by (intros E; apply is_empty_true in E; congruence).
        assert (N3 : rooms s1 <> [])
          by (intros E; apply is_empty_true in E; congruence).
        assert (N4 : rooms s2 <> [])
          by (intros E; apply is_empty_true in E; congruence).
        rewrite (allocate_rollwise_run s1 N1 N3),
          (allocate_rollwise_run s2 N2 N4).
        cbn [fst snd]. rewrite !written_rows.
        fold (roster s1) (roster s2) (halls s1) (halls s2).
        rewrite Es, Er. now split. }
  assert (Hkeep : forall s,
             students (snd (allocate_rollwise s)) = students s
             /\ rooms (snd (allocate_rollwise s)) = rooms s).
  { intros s.
    destruct (is_empty (students s)) eqn:E1;
      [apply is_empty_true in E1;
       rewrite (allocate_rollwise_empty s) by (now left); now split|].
    destruct (is_empty (rooms s)) eqn:E3;
      [apply is_empty_true in E3;
       rewrite (allocate_rollwise_empty s) by (now right); now split|].
    rewrite allocate_rollwise_run;
      [now split| |]; intros E; apply is_empty_true in E; congruence. }
  intros [Hnd1 Hnd2] Hps Hpr. split.
  - apply Hsame; unfold roster, halls; now apply sorted_canonical.
  - cbv zeta. destruct (Hkeep st1) as [Ks Kr].
    split; [exact Ks|]. split; [exact Kr|].
    apply Hsame; unfold roster, halls; now rewrite ?Ks, ?Kr.
Qed.

Lemma allocate_rollwise_deterministic_witness :
  store_wf sample_store
  /\ Permutation (students sample_store) (rev (students sample_store))
  /\ Permutation (rooms sample_store) (rev (rooms sample_store))
  /\ allocate_rollwise
       (mk_store (rev (students sample_store)) (rev (rooms sample_store))
          [] [("upload", "Uploaded 2 rooms")])
     = (fst (allocate_rollwise sample_store),
        mk_store (rev (students sample_store)) (rev (rooms sample_store))
          (seating_allocations (snd (allocate_rollwise sample_store)))
          [("upload", "Uploaded 2 rooms");
           ("allocation",
            "Roll-wise allocation completed: 5 students allocated")]).
Proof.
  assert (Hwf : store_wf sample_store).
  { split; cbn; repeat constructor; cbn; intuition discriminate. }
  pose proof (Permutation_rev (students sample_store)) as Hs.
  pose proof (Permutation_rev (rooms sample_store)) as Hr.
  split; [exact Hwf|]. split; [exact Hs|]. split; [exact Hr|].
  destruct (allocate_rollwise_deterministic sample_store
              (mk_store (rev (students sample_store))
                 (rev (rooms sample_store)) []
                 [("upload", "Uploaded 2 rooms")]) Hwf Hs Hr)
    as [[Ha Hm] _].
  rewrite Ha, Hm. reflexivity.
Defined.

(** C10 (as amended). On an accepted input (students, rooms, at least two
    subject codes) the zig-zag scan seats exactly as many students as the
    two selected groups hold or as there are seats, whichever is less, and
    reports that number; a room contributes [range(rows)] times
    [range(columns)] seats, that is max(rows, 0) times max(columns, 0),
    which for rooms with no negative row or column count is rows times
    columns, summed over the rooms.  At any seat, as long as one of the two
    groups has a student left the loop body writes one row and moves one
    index on; only with both groups used up it changes nothing and the scan
    goes on. *)
Theorem zigzag_fills_seats
  (shuffle : nat -> list student -> list student) (st : store) :
  fair shuffle -> students st <> [] -> rooms st <> [] ->
  2 <= List.length (group_by_subject (roster st)) ->
  let ca := course_a_of (roster st) in
  let cb := course_b_of (roster st) in
  let ga := group_a_of shuffle (roster st) in
  let gb := group_b_of shuffle (roster st) in
  let size_a :=
    List.length (filter (fun s => (subject_code s =? ca)%string) (roster st)) in
  let size_b :=
    List.length (filter (fun s => (subject_code s =? cb)%string) (roster st)) in
  let seats_scanned := list_sum (map (fun rm => nrows rm * ncols rm) (rooms st)) in
  let seats_total :=
    fold_right Z.add 0%Z (map (fun rm => (rows rm * columns rm)%Z) (rooms st)) in
  let written := seating_allocations (snd (allocate_anti_cheating shuffle st)) in
  List.length written = Nat.min (size_a + size_b) seats_scanned
  /\ Z.of_nat (List.length written)
     = Z.min (Z.of_nat (size_a + size_b))
         (fold_right Z.add 0%Z
            (map (fun rm => (Z.max 0 (rows rm) * Z.max 0 (columns rm))%Z)
               (rooms st)))
  /\ ((forall rm, In rm (rooms st) ->
         (0 <= rows rm)%Z /\ (0 <= columns rm)%Z) ->
      Z.of_nat (List.length written)
      = Z.min (Z.of_nat (size_a + size_b)) seats_total)
  /\ fst (allocate_anti_cheating shuffle st)
     = (true,
        ("Successfully allocated " ++ str_nat (List.length written)
           ++ " students in Anti-Cheating Zig-Zag mode.")%string)
  /\ (forall rm r c a b n st',
        (a < List.length ga \/ b < List.length gb ->
         exists stu a' b',
           zigzag_seat ca cb ga gb rm r c (a, b, n) st'
           = ((a', b', n + 1),
              add_allocations [zz_record stu (rm, r, c)] st')
           /\ a' + b' = a + b + 1
           /\ (In stu ga \/ In stu gb))
        /\ (List.length ga <= a -> List.length gb <= b ->
            zigzag_seat ca cb ga gb rm r c (a, b, n) st' = ((a, b, n), st'))).
Proof.
  intros Hf Hs Hr Hg. cbv zeta.
  rewrite (allocate_anti_cheating_run shuffle st Hs Hr Hg).
  cbn [fst snd]. rewrite written_rows.
  assert (Hcount :
            List.length
              (zz_rows (group_a_of shuffle (roster st))
                 (group_b_of shuffle (roster st)) (0, 0)
                 (scan_positions (halls st)))
            = Nat.min
                (List.length
                   (filter (fun s =>
                              (subject_code s =? course_a_of (roster st))%string)
                      (roster st))
                 + List.length
                     (filter (fun s =>
                                (subject_code s
                                 =? course_b_of (roster st))%string)
                        (roster st)))
                (list_sum (map (fun rm => nrows rm * ncols rm) (rooms st)))).
  { rewrite zz_written_count, scan_positions_length.
    rewrite (Permutation_length (group_a_perm shuffle (roster st) Hf)).
    rewrite (Permutation_length (group_b_perm shuffle (roster st) Hf)).
    f_equal. symmetry. apply seats_count_perm, sorted_perm. }
  split; [exact Hcount|]. split; [|split; [|split; [reflexivity|]]].
  - rewrite Hcount, Nat2Z.inj_min, seats_total_clamped. reflexivity.
  - intros Hdims. rewrite Hcount, Nat2Z.inj_min, seats_total by exact Hdims.
    reflexivity.
  - intros rm r c a b n st'.
    rewrite (zigzag_seat_run _ _ _ _ (courses_differ_of _ Hg)).
    unfold zz_next, zz_row, zz_pick.
    split.
    + intros Hleft.
      destruct (Nat.ltb_spec a (List.length (group_a_of shuffle (roster st))));
        destruct (Nat.ltb_spec b (List.length (group_b_of shuffle (roster st))));
        try lia; try destruct (turn_a r c);
        eexists _, _, _; (split; [reflexivity|]);
        (split; [lia|]);
        first [ left; apply nth_In; assumption
              | right; apply nth_In; assumption ].
    + intros Ha Hb.
      destruct (Nat.ltb_spec a (List.length (group_a_of shuffle (roster st))));
        destruct (Nat.ltb_spec b (List.length (group_b_of shuffle (roster st))));
        try lia.
      cbn [List.length]. now rewrite Nat.add_0_r, add_allocations_nil.
Qed.

Lemma zigzag_fills_seats_witness :
  fair sample_shuffle /\ students sample_store <> []
  /\ rooms sample_store <> []
  /\ 2 <= List.length (group_by_subject (roster sample_store))
  /\ List.length
       (seating_allocations
          (snd (allocate_anti_cheating sample_shuffle sample_store)))
     = Nat.min (2 + 2) 6.
Proof.
  assert (Hs : students sample_store <> []) by discriminate.
  assert (Hr : rooms sample_store <> []) by discriminate.
  assert (Hg : 2 <= List.length (group_by_subject (roster sample_store)))
    by (vm_compute; lia).
  split; [exact sample_shuffle_fair|]. split; [exact Hs|].
  split; [exact Hr|]. split; [exact Hg|].
  exact (proj1 (zigzag_fills_seats sample_shuffle sample_store
                  sample_shuffle_fair Hs Hr Hg)).
Defined.

(** C10, the sentence as the specification has it: two students of two
    subject codes and one room of -2 rows and -3 columns are an accepted
    input, on which the minimum of the two group sizes together and the sum
    of rows times columns is min(1 + 1, 6) = 2, while the scan visits no
    seat, the operation reports 0 students allocated and no row is
    written. *)
Lemma zigzag_negative_room_unseated :
  students sample_store_negative_room <> []
  /\ rooms sample_store_negative_room <> []
  /\ 2 <= List.length (group_by_subject (roster sample_store_negative_room))
  /\ fst (allocate_anti_cheating sample_shuffle sample_store_negative_room)
     = (true,
        "Successfully allocated 0 students in Anti-Cheating Zig-Zag mode.")
  /\ seating_allocations
       (snd (allocate_anti_cheating sample_shuffle sample_store_negative_room))
     = []
  /\ Z.min
       (Z.of_nat
          (List.length
             (filter (fun s =>
                        (subject_code s
                         =? course_a_of (roster sample_store_negative_room))
                        %string)
                (roster sample_store_negative_room))
           + List.length
               (filter (fun s =>
                          (subject_code s
                           =? course_b_of (roster sample_store_negative_room))
                          %string)
                  (roster sample_store_negative_room))))
       (fold_right Z.add 0%Z
          (map (fun rm => (rows rm * columns rm)%Z)
             (rooms sample_store_negative_room)))
     = 2%Z
  /\ ~ (Z.of_nat
          (List.length
             (seating_allocations
                (snd (allocate_anti_cheating sample_shuffle
                        sample_store_negative_room))))
        = Z.min
            (Z.of_nat
               (List.length
                  (filter (fun s =>
                             (subject_code s
                              =? course_a_of
                                   (roster sample_store_negative_room))
                             %string)
                     (roster sample_store_negative_room))
                + List.length
                    (filter (fun s =>
                               (subject_code s
                                =? course_b_of
                                     (roster sample_store_negative_room))
                               %string)
                       (roster sample_store_negative_room))))
            (fold_right Z.add 0%Z
               (map (fun rm => (rows rm * columns rm)%Z)
                  (rooms sample_store_negative_room)))).
Proof.
  split; [discriminate|]. split; [discriminate|].
  split; [vm_compute; lia|].
  split; [vm_compute; reflexivity|].
  split; [vm_compute; reflexivity|].
  split; [vm_compute; reflexivity|].
  vm_compute. discriminate.
Qed.

(** * Further properties of the code *)

(** ** Seat swap *)

Lemma find_map_same {A : Type} (p : A -> bool) (f : A -> A) (l : list A) :
  (forall a, p (f a) = p a) ->
  find p (map f l) = option_map f (find p l).
Proof.
  intros Hp. induction l as [|x l IH]; [reflexivity|].
  cbn [map find]. rewrite Hp. destruct (p x); [reflexivity|exact IH].
Qed.

Lemma find_roll_in (roll : string) (l : list allocation) :
  In roll (map alloc_roll_no l)
  <-> exists a, find (fun a => (alloc_roll_no a =? roll)%string) l = Some a.
Proof.
  split.
  - intros Hin. apply in_map_iff in Hin as (a & E & Ha).
    destruct (find _ l) as [b|] eqn:Ef; [now exists b|].
    apply (find_none _ _ Ef) in Ha. rewrite E, String.eqb_refl in Ha.
    discriminate.
  - intros (a & Ef). apply find_some in Ef as [Ha E].
    apply String.eqb_eq in E. rewrite <- E. now apply in_map.
Qed.

Lemma swapped_row_roll (roll1 roll2 : string) (a1 a2 a : allocation) :
  alloc_roll_no (swapped_row roll1 roll2 a1 a2 a) = alloc_roll_no a.
Proof.
  unfold swapped_row.
  destruct (_ =? roll2)%string; [reflexivity|].
  destruct (_ =? roll1)%string; reflexivity.
Qed.

Lemma swapped_row_method (roll1 roll2 : string) (a1 a2 a : allocation) :
  allocation_method (swapped_row roll1 roll2 a1 a2 a) = allocation_method a.
Proof.
  unfold swapped_row.
  destruct (_ =? roll2)%string; [reflexivity|].
  destruct (_ =? roll1)%string; reflexivity.
Qed.

(** A swap that finds both rows rewrites the table row by row and logs one
    entry. *)
Lemma swap_seats_run (roll1 roll2 : string) (who : option string)
  (st : store) (a1 a2 : allocation) :
  fst (fetch_allocation roll1 st) = Some a1 ->
  fst (fetch_allocation roll2 st) = Some a2 ->
  exists description,
    swap_seats roll1 roll2 who st
    = ((true,
        ("Successfully swapped seats between " ++ roll1 ++ " and " ++ roll2
           ++ ".")%string),
       {| students := students st;
          rooms := rooms st;
          seating_allocations :=
            map (swapped_row roll1 roll2 a1 a2) (seating_allocations st);
          activity_log := activity_log st ++ [("seat_swap", description)] |}).
Proof.
  unfold fetch_allocation. cbn [fst]. intros E1 E2.
  unfold swap_seats, bind, fetch_allocation. rewrite E1, E2.
  unfold update_seat, log_activity, ret.
  cbn [students rooms seating_allocations activity_log].
  eexists. f_equal. f_equal.
  rewrite map_map. apply map_ext. intros a. unfold swapped_row, reseat.
  destruct (alloc_roll_no a =? roll1)%string eqn:Ea1;
    cbn [alloc_roll_no allocation_method];
    destruct (alloc_roll_no a =? roll2)%string; reflexivity.
Qed.

Lemma swap_seats_missing (roll1 roll2 : string) (who : option string)
  (st : store) :
  fst (fetch_allocation roll1 st) = None
  \/ fst (fetch_allocation roll2 st) = None ->
  fst (fst (swap_seats roll1 roll2 who st)) = false
  /\ snd (swap_seats roll1 roll2 who st) = st.
Proof.
  unfold fetch_allocation. cbn [fst]. intros H.
  unfold swap_seats, bind, fetch_allocation.
  destruct (find _ (seating_allocations st)) as [a1|];
    destruct (find _ (seating_allocations st)) as [a2|];
    try (now split).
  destruct H; discriminate.
Qed.

(** X1. [swap_seats] succeeds exactly when both roll numbers have a row in
    the allocation table; when it fails it leaves the whole store, log
    included, as it was, and its message names the roll number without a
    row: the first when only it is missing, the second when only it is
    missing, both when neither has one. *)
Theorem swap_seats_needs_both (roll1 roll2 : string) (who : option string)
  (st : store) :
  (fst (fst (swap_seats roll1 roll2 who st)) = true
   <-> In roll1 (allocated_rolls st) /\ In roll2 (allocated_rolls st))
  /\ (fst (fst (swap_seats roll1 roll2 who st)) = false ->
      snd (swap_seats roll1 roll2 who st) = st)
  /\ (~ In roll1 (allocated_rolls st) -> In roll2 (allocated_rolls st) ->
      snd (fst (swap_seats roll1 roll2 who st))
      = ("Roll number " ++ roll1 ++ " has no allocation to swap.")%string)
  /\ (In roll1 (allocated_rolls st) -> ~ In roll2 (allocated_rolls st) ->
      snd (fst (swap_seats roll1 roll2 who st))
      = ("Roll number " ++ roll2 ++ " has no allocation to swap.")%string)
  /\ (~ In roll1 (allocated_rolls st) -> ~ In roll2 (allocated_rolls st) ->
      snd (fst (swap_seats roll1 roll2 who st))
      = ("Neither roll number " ++ roll1 ++ " nor " ++ roll2
           ++ " have seat allocations.")%string).
Proof.
  unfold allocated_rolls. rewrite !find_roll_in.
  unfold swap_seats, bind, fetch_allocation.
  destruct (find (fun a => (alloc_roll_no a =? roll1)%string)
              (seating_allocations st)) as [a1|] eqn:E1;
    destruct (find (fun a => (alloc_roll_no a =? roll2)%string)
                (seating_allocations st)) as [a2|] eqn:E2;
    cbn [fst snd ret];
    repeat split; try reflexivity; try discriminate;
    try (intros; exfalso; eauto; fail);
    try (intros [[? ?] [? ?]]; discriminate);
    try (eexists; reflexivity).
Qed.

(** X2. When both roll numbers have a row, [swap_seats] succeeds and
    exchanges the two seats: the row fetched for [roll1] afterwards is the
    old one moved to the seat of [roll2]'s row, and the other way round; the
    row fetched for any other roll number is the one fetched before; roll
    numbers and method tags stay in place row by row; students and rooms are
    untouched and one entry of type "seat_swap" is appended to the log. *)
Theorem swap_seats_exchanges (roll1 roll2 : string) (who : option string)
  (st : store) (a1 a2 : allocation) :
  fst (fetch_allocation roll1 st) = Some a1 ->
  fst (fetch_allocation roll2 st) = Some a2 ->
  let st' := snd (swap_seats roll1 roll2 who st) in
  fst (fst (swap_seats roll1 roll2 who st)) = true
  /\ fst (fetch_allocation roll1 st') = Some (reseat a1 a2)
  /\ fst (fetch_allocation roll2 st') = Some (reseat a2 a1)
  /\ (forall roll, roll <> roll1 -> roll <> roll2 ->
        fst (fetch_allocation roll st') = fst (fetch_allocation roll st))
  /\ allocated_rolls st' = allocated_rolls st
  /\ map allocation_method (seating_allocations st')
     = map allocation_method (seating_allocations st)
  /\ students st' = students st /\ rooms st' = rooms st
  /\ exists description,
       activity_log st' = activity_log st ++ [("seat_swap", description)].
Proof.
  intros E1 E2. cbv zeta.
  destruct (swap_seats_run roll1 roll2 who st a1 a2 E1 E2) as (d & ->).
  unfold fetch_allocation, allocated_rolls in *. cbn [fst snd] in *.
  cbn [students rooms seating_allocations activity_log].
  assert (Hfind : forall roll,
             find (fun a => (alloc_roll_no a =? roll)%string)
               (map (swapped_row roll1 roll2 a1 a2) (seating_allocations st))
             = option_map (swapped_row roll1 roll2 a1 a2)
                 (find (fun a => (alloc_roll_no a =? roll)%string)
                    (seating_allocations st))).
  { intros roll. apply find_map_same. intros a.
    now rewrite swapped_row_roll. }
  pose proof (find_some _ _ E1) as [_ R1]. apply String.eqb_eq in R1.
  pose proof (find_some _ _ E2) as [_ R2]. apply String.eqb_eq in R2.
  repeat split.
  - rewrite Hfind, E1. cbn [option_map]. f_equal. unfold swapped_row.
    rewrite R1. destruct (String.eqb_spec roll1 roll2) as [E|_].
    + assert (a2 = a1)
        by (rewrite <- E, E1 in E2; now injection E2).
      now subst a2.
    + now rewrite String.eqb_refl.
  - rewrite Hfind, E2. cbn [option_map]. f_equal. unfold swapped_row.
    now rewrite R2, String.eqb_refl.
  - intros roll N1 N2. rewrite Hfind.
    destruct (find (fun a => (alloc_roll_no a =? roll)%string)
                (seating_allocations st)) as [a|] eqn:Ef;
      [|reflexivity].
    cbn [option_map]. f_equal.
    apply find_some in Ef as [_ R]. apply String.eqb_eq in R.
    unfold swapped_row. rewrite R.
    destruct (String.eqb_spec roll roll2); [congruence|].
    destruct (String.eqb_spec roll roll1); [congruence|reflexivity].
  - rewrite map_map. apply map_ext. intros a. apply swapped_row_roll.
  - rewrite map_map. apply map_ext. intros a. apply swapped_row_method.
  - now exists d.
Qed.

Lemma swap_seats_exchanges_witness :
  fst (fetch_allocation "S1" sample_store_seated)
  = Some (mk_allocation "S1" "101" 1 1 "101-R1C1" "rollwise")
  /\ fst (fetch_allocation "S5" sample_store_seated)
     = Some (mk_allocation "S5" "102" 1 1 "102-R1C1" "rollwise")
  /\ fst (fetch_allocation "S1"
            (snd (swap_seats "S1" "S5" (Some "admin") sample_store_seated)))
     = Some (mk_allocation "S1" "102" 1 1 "102-R1C1" "rollwise")
  /\ fst (fetch_allocation "S5"
            (snd (swap_seats "S1" "S5" (Some "admin") sample_store_seated)))
     = Some (mk_allocation "S5" "101" 1 1 "101-R1C1" "rollwise").
Proof.
  assert (E1 : fst (fetch_allocation "S1" sample_store_seated)
               = Some (mk_allocation "S1" "101" 1 1 "101-R1C1" "rollwise"))
    by reflexivity.
  assert (E5 : fst (fetch_allocation "S5" sample_store_seated)
               = Some (mk_allocation "S5" "102" 1 1 "102-R1C1" "rollwise"))
    by reflexivity.
  split; [exact E1|]. split; [exact E5|].
  destruct (swap_seats_exchanges "S1" "S5" (Some "admin") sample_store_seated
              _ _ E1 E5) as (_ & H1 & H5 & _).
  split; [exact H1|exact H5].
Defined.

Lemma allocation_by_roll (l : list allocation) (roll : string)
  (a b : allocation) :
  NoDup (map alloc_roll_no l) ->
  find (fun x => (alloc_roll_no x =? roll)%string) l = Some a ->
  In b l -> alloc_roll_no b = roll -> b = a.
Proof.
  intros Hnd Ef Hb Rb.
  apply find_some in Ef as [Ha Ra]. apply String.eqb_eq in Ra.
  apply (NoDup_map_In_inj alloc_roll_no l); congruence.
Qed.

(** X3. [swap_seats] keeps the allocation table one-to-one: if no roll
    number and no seat occurs in two rows before the call, none does after
    it, whatever the arguments and whether the call succeeds or not. *)
Theorem swap_seats_keeps_injective (roll1 roll2 : string)
  (who : option string) (st : store) :
  NoDup (allocated_rolls st) ->
  NoDup (map seat_of (seating_allocations st)) ->
  let st' := snd (swap_seats roll1 roll2 who st) in
  NoDup (allocated_rolls st')
  /\ NoDup (map seat_of (seating_allocations st')).
Proof.
  intros Hrolls Hseats. cbv zeta.
  destruct (fst (fetch_allocation roll1 st)) as [a1|] eqn:E1;
    [|now rewrite (proj2 (swap_seats_missing roll1 roll2 who st
                            (or_introl E1)))].
  destruct (fst (fetch_allocation roll2 st)) as [a2|] eqn:E2;
    [|now rewrite (proj2 (swap_seats_missing roll1 roll2 who st
                            (or_intror E2)))].
  destruct (swap_seats_run roll1 roll2 who st a1 a2 E1 E2) as (d & ->).
  unfold fetch_allocation, allocated_rolls in *. cbn [fst snd] in *.
  cbn [seating_allocations].
  split.
  - rewrite map_map.
    erewrite map_ext; [exact Hrolls|]. intros a. apply swapped_row_roll.
  - rewrite map_map. apply NoDup_map_NoDup_ForallPairs;
      [|now apply NoDup_map_inv in Hrolls].
    pose proof (find_some _ _ E1) as [In1 R1]. apply String.eqb_eq in R1.
    pose proof (find_some _ _ E2) as [In2 R2]. apply String.eqb_eq in R2.
    assert (Hseat : forall x y,
               In x (seating_allocations st) ->
               In y (seating_allocations st) -> seat_of x = seat_of y ->
               x = y)
      by (intros x y; apply NoDup_map_In_inj; exact Hseats).
    assert (Hroll : forall x y,
               In x (seating_allocations st) ->
               In y (seating_allocations st) ->
               alloc_roll_no x = alloc_roll_no y -> x = y)
      by (intros x y; apply NoDup_map_In_inj; exact Hrolls).
    intros x y Hx Hy. unfold swapped_row.
    destruct (String.eqb_spec (alloc_roll_no x) roll2) as [X2|X2];
      [|destruct (String.eqb_spec (alloc_roll_no x) roll1) as [X1|X1]];
      (destruct (String.eqb_spec (alloc_roll_no y) roll2) as [Y2|Y2];
       [|destruct (String.eqb_spec (alloc_roll_no y) roll1) as [Y1|Y1]]);
      intros E;
      try (apply Hroll; congruence);
      try (change (seat_of (reseat x a1)) with (seat_of a1) in E);
      try (change (seat_of (reseat x a2)) with (seat_of a2) in E);
      try (change (seat_of (reseat y a1)) with (seat_of a1) in E);
      try (change (seat_of (reseat y a2)) with (seat_of a2) in E);
      try (apply Hseat in E; try assumption; congruence).
Qed.

Lemma swap_seats_keeps_injective_witness :
  NoDup (allocated_rolls sample_store_seated)
  /\ NoDup (map seat_of (seating_allocations sample_store_seated))
  /\ NoDup (map seat_of
              (seating_allocations
                 (snd (swap_seats "S1" "S5" None sample_store_seated)))).
Proof.
  assert (H1 : NoDup (allocated_rolls sample_store_seated))
    by (cbn; repeat constructor; cbn; intuition discriminate).
  assert (H2 : NoDup (map seat_of (seating_allocations sample_store_seated)))
    by (cbn; repeat constructor; cbn; intuition discriminate).
  split; [exact H1|]. split; [exact H2|].
  exact (proj2 (swap_seats_keeps_injective "S1" "S5" None
                  sample_store_seated H1 H2)).
Defined.

Lemma swapped_fetch (roll1 roll2 roll : string) (a1 a2 : allocation)
  (l : list allocation) :
  find (fun a => (alloc_roll_no a =? roll)%string)
    (map (swapped_row roll1 roll2 a1 a2) l)
  = option_map (swapped_row roll1 roll2 a1 a2)
      (find (fun a => (alloc_roll_no a =? roll)%string) l).
Proof.
  apply find_map_same. intros a. now rewrite swapped_row_roll.
Qed.

Lemma reseat_back (a b c : allocation) :
  seat_of c = seat_of a -> alloc_seat_number c = alloc_seat_number a ->
  reseat (reseat a b) c = a.
Proof.
  destruct a, b, c. unfold seat_of, reseat. cbn.
  intros E1 E2. injection E1 as -> -> ->. now subst.
Qed.

(** X4. With no roll number in two rows of the allocation table, swapping
    the same two roll numbers a second time, in either order of the
    arguments, puts every row back: the table after the second call is the
    table before the first. *)
Theorem swap_seats_twice (roll1 roll2 : string) (who who' : option string)
  (st : store) :
  NoDup (allocated_rolls st) ->
  let st' := snd (swap_seats roll1 roll2 who st) in
  seating_allocations (snd (swap_seats roll1 roll2 who' st'))
  = seating_allocations st
  /\ seating_allocations (snd (swap_seats roll2 roll1 who' st'))
     = seating_allocations st.
Proof.
  intros Hnd. cbv zeta.
  destruct (fst (fetch_allocation roll1 st)) as [a1|] eqn:E1.
  2:{ rewrite (proj2 (swap_seats_missing roll1 roll2 who st (or_introl E1))).
      rewrite (proj2 (swap_seats_missing roll1 roll2 who' st (or_introl E1))).
      rewrite (proj2 (swap_seats_missing roll2 roll1 who' st (or_intror E1))).
      now split. }
  destruct (fst (fetch_allocation roll2 st)) as [a2|] eqn:E2.
  2:{ rewrite (proj2 (swap_seats_missing roll1 roll2 who st (or_intror E2))).
      rewrite (proj2 (swap_seats_missing roll1 roll2 who' st (or_intror E2))).
      rewrite (proj2 (swap_seats_missing roll2 roll1 who' st (or_introl E2))).
      now split. }
  destruct (swap_seats_run roll1 roll2 who st a1 a2 E1 E2) as (d & ->).
  cbn [snd].
  set (st' := {| students := students st; rooms := rooms st;
                 seating_allocations :=
                   map (swapped_row roll1 roll2 a1 a2) (seating_allocations st);
                 activity_log := activity_log st ++ [("seat_swap", d)] |}).
  unfold fetch_allocation, allocated_rolls in *. cbn [fst] in *.
  assert (F1 : fst (fetch_allocation roll1 st')
               = Some (swapped_row roll1 roll2 a1 a2 a1))
    by (unfold fetch_allocation, st'; cbn [fst seating_allocations];
        now rewrite swapped_fetch, E1).
  assert (F2 : fst (fetch_allocation roll2 st')
               = Some (swapped_row roll1 roll2 a1 a2 a2))
    by (unfold fetch_allocation, st'; cbn [fst seating_allocations];
        now rewrite swapped_fetch, E2).
  destruct (swap_seats_run roll1 roll2 who' st' _ _ F1 F2) as (d1 & ->).
  destruct (swap_seats_run roll2 roll1 who' st' _ _ F2 F1) as (d2 & ->).
  cbn [snd seating_allocations]. unfold st'. cbn [seating_allocations].
  pose proof (find_some _ _ E1) as [In1 R1]. apply String.eqb_eq in R1.
  pose proof (find_some _ _ E2) as [In2 R2]. apply String.eqb_eq in R2.
  assert (Hback : forall a, In a (seating_allocations st) ->
             swapped_row roll1 roll2 (swapped_row roll1 roll2 a1 a2 a1)
               (swapped_row roll1 roll2 a1 a2 a2)
               (swapped_row roll1 roll2 a1 a2 a) = a
             /\ swapped_row roll2 roll1 (swapped_row roll1 roll2 a1 a2 a2)
                  (swapped_row roll1 roll2 a1 a2 a1)
                  (swapped_row roll1 roll2 a1 a2 a) = a).
  { intros a Ha.
    assert (HA1 : alloc_roll_no a = roll1 -> a = a1)
      by (intros; eapply allocation_by_roll; eauto).
    assert (HA2 : alloc_roll_no a = roll2 -> a = a2)
      by (intros; eapply allocation_by_roll; eauto).
    assert (H12 : roll1 = roll2 -> a2 = a1)
      by (intros; eapply allocation_by_roll; eauto; congruence).
    set (sw := swapped_row roll1 roll2 a1 a2).
    assert (Hsw : forall x, alloc_roll_no (sw x) = alloc_roll_no x)
      by (intros x; apply swapped_row_roll).
    unfold swapped_row. rewrite !Hsw.
    subst sw. unfold swapped_row. rewrite R1, R2.
    repeat match goal with
           | |- context [String.eqb ?x ?y] =>
               destruct (String.eqb_spec x y); try congruence
           end;
      try (split; reflexivity);
      try (rewrite H12 in * by congruence);
      try (rewrite HA1 in * by congruence);
      try (rewrite HA2 in * by congruence);
      try (split; now apply reseat_back). }
  split; rewrite map_map; rewrite <- (map_id (seating_allocations st)) at 2;
    apply map_ext_in; intros a Ha; now apply Hback.
Qed.

Lemma swap_seats_twice_witness :
  NoDup (allocated_rolls sample_store_seated)
  /\ seating_allocations
       (snd (swap_seats "S5" "S1" None
               (snd (swap_seats "S1" "S5" (Some "admin")
                       sample_store_seated))))
     = seating_allocations sample_store_seated.
Proof.
  assert (H1 : NoDup (allocated_rolls sample_store_seated))
    by (cbn; repeat constructor; cbn; intuition discriminate).
  split; [exact H1|].
  exact (proj2 (swap_seats_twice "S1" "S5" (Some "admin") None
                  sample_store_seated H1)).
Defined.

(** ** The allocation route and the capacity check *)

Lemma sum_int64_total (l : list Z) (acc s : Z) :
  sum_int64 acc l = Some s -> s = (acc + total l)%Z.
Proof.
  revert acc. induction l as [|x l IH]; intros acc; cbn [sum_int64].
  - intros [= <-]. unfold total. cbn. lia.
  - destruct (fits_int64 (acc + x)); [|discriminate].
    intros H. apply IH in H. unfold total in *. cbn [fold_right]. lia.
Qed.

Lemma sum_int64_fits (l : list Z) (acc : Z) :
  (forall k, k <= List.length l ->
     fits_int64 (acc + total (firstn k l)) = true) ->
  sum_int64 acc l = Some (acc + total l)%Z.
Proof.
  revert acc. induction l as [|x l IH]; intros acc H; cbn [sum_int64].
  - unfold total. cbn. f_equal. lia.
  - assert (H1 := H 1 ltac:(cbn; lia)).
    unfold total in H1. cbn in H1. rewrite Z.add_0_r in H1. rewrite H1.
    rewrite IH.
    + unfold total. cbn [fold_right]. f_equal. lia.
    + intros k Hk. specialize (H (S k) ltac:(cbn; lia)).
      unfold total in *. cbn [firstn fold_right] in H.
      now rewrite Z.add_assoc in H.
Qed.

Lemma sum_int64_overflows (l : list Z) (acc : Z) :
  fits_int64 acc = true ->
  (exists k, k <= List.length l
             /\ fits_int64 (acc + total (firstn k l)) = false) ->
  sum_int64 acc l = None.
Proof.
  revert acc. induction l as [|x l IH]; intros acc Hacc (k & Hk & Hbad).
  - destruct k; [|cbn in Hk; lia].
    unfold total in Hbad. cbn in Hbad. rewrite Z.add_0_r in Hbad. congruence.
  - cbn [sum_int64]. destruct (fits_int64 (acc + x)) eqn:E; [|reflexivity].
    apply IH; [exact E|].
    destruct k as [|k].
    + unfold total in Hbad. cbn in Hbad. rewrite Z.add_0_r in Hbad.
      congruence.
    + exists k. split; [cbn in Hk; lia|].
      unfold total in *. cbn [firstn fold_right] in Hbad.
      now rewrite Z.add_assoc in Hbad.
Qed.

Lemma check_capacity_fits (st : store) :
  sum_fits (map capacity (rooms st)) ->
  check_capacity st
  = (Returned (Z.of_nat (List.length (students st)),
               total (map capacity (rooms st)),
               (Z.of_nat (List.length (students st))
                <=? total (map capacity (rooms st)))%Z),
     st).
Proof.
  intros H. unfold check_capacity.
  rewrite (sum_int64_fits _ 0); [reflexivity|].
  intros k Hk. now apply H.
Qed.

(** X5. When the sum of the capacities can be taken (no partial sum, in
    table order, leaves the 64-bit range) and is less than the number of
    students, the route [/api/allocate] answers 400 with the two numbers in
    its message and does not touch the store: unlike the allocation
    operations themselves it leaves the rows of an earlier run in place.
    When a partial sum does leave the range, the "integer overflow" of the
    query leaves the route, and the store is untouched as well. *)
Theorem allocate_seats_insufficient
  (shuffle : nat -> list student -> list student) (method : option string)
  (st : store) :
  (sum_fits (map capacity (rooms st)) ->
   (total (map capacity (rooms st))
    < Z.of_nat (List.length (students st)))%Z ->
   allocate_seats shuffle method st
   = (Returned
        (false,
         ("Insufficient capacity: "
            ++ str_Z (Z.of_nat (List.length (students st))) ++ " students, "
            ++ str_Z (total (map capacity (rooms st))) ++ " seats")%string,
         400%Z),
      st))
  /\ ((exists k, k <= List.length (rooms st)
                 /\ fits_int64 (total (firstn k (map capacity (rooms st))))
                    = false) ->
      allocate_seats shuffle method st = (Raised "integer overflow", st)).
Proof.
  split.
  - intros Hfit H. unfold allocate_seats, bind.
    rewrite (check_capacity_fits st Hfit).
    destruct (Z.leb_spec (Z.of_nat (List.length (students st)))
                (total (map capacity (rooms st)))); [lia|].
    reflexivity.
  - intros (k & Hk & Hbad). unfold allocate_seats, bind, check_capacity.
    rewrite (sum_int64_overflows _ 0); [reflexivity|reflexivity|].
    exists k. split; [now rewrite length_map|exact Hbad].
Qed.

Lemma allocate_seats_insufficient_witness :
  sum_fits (map capacity (rooms sample_store_no_room))
  /\ (total (map capacity (rooms sample_store_no_room))
      < Z.of_nat (List.length (students sample_store_no_room)))%Z
  /\ allocate_seats sample_shuffle (Some "rollwise") sample_store_no_room
     = (Returned (false, "Insufficient capacity: 2 students, 0 seats", 400%Z),
        sample_store_no_room)
  /\ fits_int64
       (total (firstn 2 (map capacity (rooms sample_store_huge_rooms))))
     = false
  /\ allocate_seats sample_shuffle (Some "rollwise") sample_store_huge_rooms
     = (Raised "integer overflow", sample_store_huge_rooms).
Proof.
  assert (Hfit : sum_fits (map capacity (rooms sample_store_no_room))).
  { intros k Hk. cbn in Hk. replace k with 0 by lia. reflexivity. }
  assert (H : (total (map capacity (rooms sample_store_no_room))
               < Z.of_nat (List.length (students sample_store_no_room)))%Z)
    by (cbn; lia).
  assert (Hbad : fits_int64
                   (total (firstn 2 (map capacity
                                       (rooms sample_store_huge_rooms))))
                 = false) by reflexivity.
  split; [exact Hfit|]. split; [exact H|]. split; [|split; [exact Hbad|]].
  - exact (proj1 (allocate_seats_insufficient sample_shuffle (Some "rollwise")
                    sample_store_no_room) Hfit H).
  - apply (proj2 (allocate_seats_insufficient sample_shuffle (Some "rollwise")
                    sample_store_huge_rooms)).
    exists 2. split; [cbn; lia|exact Hbad].
Defined.

Lemma capacity_within_seats (rms : list room) :
  (forall rm, In rm rms ->
     (0 <= rows rm)%Z /\ (0 <= columns rm)%Z
     /\ (capacity rm <= rows rm * columns rm)%Z) ->
  (fold_right Z.add 0 (map capacity rms)
   <= Z.of_nat (list_sum (map (fun rm => (nrows rm * ncols rm)%nat) rms)))%Z.
Proof.
  intros H. rewrite seats_total by (intros rm Hin; split; apply (H rm Hin)).
  induction rms as [|rm rms IH]; cbn [map fold_right]; [lia|].
  pose proof (H rm (or_introl eq_refl)) as (_ & _ & Hc).
  assert (IH' := IH (fun r Hr => H r (or_intror Hr))). lia.
Qed.

(** X6. When there are students, the sum of the capacities can be taken
    (no partial sum, in table order, leaves the 64-bit range) and is at
    least their number, and no room claims more capacity than its rows times
    columns (neither negative), the route [/api/allocate] with method
    "rollwise" answers 200 and seats every student: the rows written carry
    the roll numbers of the whole student list in ascending order and the
    message reports their number.  The same holds for method "random" with
    the students in shuffled order, the shuffle returning a
    rearrangement. *)
Theorem allocate_seats_seats_everyone
  (shuffle : nat -> list student -> list student) (st : store) :
  students st <> [] ->
  sum_fits (map capacity (rooms st)) ->
  (Z.of_nat (List.length (students st))
   <= total (map capacity (rooms st)))%Z ->
  (forall rm, In rm (rooms st) ->
     (0 <= rows rm)%Z /\ (0 <= columns rm)%Z
     /\ (capacity rm <= rows rm * columns rm)%Z) ->
  (fst (allocate_seats shuffle (Some "rollwise") st)
   = Returned
       (true,
        ("Successfully allocated " ++ str_nat (List.length (students st))
           ++ " students rollwise.")%string,
        200%Z)
   /\ allocated_rolls (snd (allocate_seats shuffle (Some "rollwise") st))
      = map roll_no (roster st))
  /\ (Permutation (roster st) (shuffle 0 (roster st)) ->
      fst (allocate_seats shuffle (Some "random") st)
      = Returned
          (true,
           ("Successfully allocated " ++ str_nat (List.length (students st))
              ++ " students randomly.")%string,
           200%Z)
      /\ allocated_rolls (snd (allocate_seats shuffle (Some "random") st))
         = map roll_no (shuffle 0 (roster st))).
Proof.
  intros Hs Hfit Hcap Hrooms.
  assert (Hr : rooms st <> []).
  { intros E. rewrite E in Hcap. cbn in Hcap.
    destruct (students st); [congruence|cbn in Hcap; lia]. }
  assert (Hseats : List.length (roster st)
                   <= List.length (build_room_seats (halls st))).
  { unfold roster. rewrite sorted_length, room_seats_length.
    rewrite (seats_count_perm (halls st) (rooms st))
      by (symmetry; apply sorted_perm).
    pose proof (capacity_within_seats (rooms st) Hrooms).
    unfold total in Hcap. lia. }
  assert (Hok : (Z.of_nat (List.length (students st))
                 <=? total (map capacity (rooms st)))%Z = true)
    by now apply Z.leb_le.
  split.
  - unfold allocate_seats, bind. rewrite (check_capacity_fits st Hfit), Hok.
    cbn [negb String.eqb Ascii.eqb Bool.eqb andb].
    rewrite (allocate_rollwise_run st Hs Hr). cbn [fst snd ret].
    unfold allocated_rolls. rewrite written_rows.
    fold (roster st). fold (halls st).
    rewrite Nat.min_l by exact Hseats.
    change (List.length (roster st))
      with (List.length (sorted roll_no (students st))).
    rewrite sorted_length. split; [reflexivity|].
    rewrite assigned_rolls, firstn_all2; [reflexivity|].
    now rewrite length_map.
  - intros Hp. unfold allocate_seats, bind.
    rewrite (check_capacity_fits st Hfit), Hok.
    cbn [negb String.eqb Ascii.eqb Bool.eqb andb].
    rewrite (allocate_random_run shuffle st Hs Hr). cbn [fst snd ret].
    unfold allocated_rolls. rewrite written_rows.
    fold (roster st). fold (halls st).
    rewrite <- (Permutation_length Hp).
    rewrite Nat.min_l by exact Hseats.
    change (List.length (roster st))
      with (List.length (sorted roll_no (students st))).
    rewrite sorted_length. split; [reflexivity|].
    rewrite assigned_rolls, firstn_all2; [reflexivity|].
    rewrite length_map, <- (Permutation_length Hp). exact Hseats.
Qed.

Lemma allocate_seats_seats_everyone_witness :
  students sample_store <> []
  /\ sum_fits (map capacity (rooms sample_store))
  /\ (Z.of_nat (List.length (students sample_store))
      <= total (map capacity (rooms sample_store)))%Z
  /\ (forall rm, In rm (rooms sample_store) ->
        (0 <= rows rm)%Z /\ (0 <= columns rm)%Z
        /\ (capacity rm <= rows rm * columns rm)%Z)
  /\ fst (allocate_seats sample_shuffle (Some "rollwise") sample_store)
     = Returned (true, "Successfully allocated 5 students rollwise.", 200%Z).
Proof.
  assert (Hs : students sample_store <> []) by discriminate.
  assert (Hfit : sum_fits (map capacity (rooms sample_store))).
  { intros k Hk. cbn in Hk.
    destruct k as [|[|[|k]]]; [reflexivity|reflexivity|reflexivity|lia]. }
  assert (Hc : (Z.of_nat (List.length (students sample_store))
                <= total (map capacity (rooms sample_store)))%Z)
    by (cbn; lia).
  assert (Hd : forall rm, In rm (rooms sample_store) ->
                 (0 <= rows rm)%Z /\ (0 <= columns rm)%Z
                 /\ (capacity rm <= rows rm * columns rm)%Z).
  { intros rm [<-|[<-|[]]]; cbn; lia. }
  split; [exact Hs|]. split; [exact Hfit|]. split; [exact Hc|].
  split; [exact Hd|].
  exact (proj1 (proj1 (allocate_seats_seats_everyone sample_shuffle
                         sample_store Hs Hfit Hc Hd))).
Defined.

(** ** Looking an allocation up *)

Lemma filter_nothing {A : Type} (p : A -> bool) (l : list A) :
  (forall z, In z l -> p z = false) -> filter p l = [].
Proof.
  induction l as [|z l IH]; intros H; [reflexivity|].
  cbn [filter]. rewrite (H z (or_introl eq_refl)).
  apply IH. intros y Hy. apply H. now right.
Qed.

Lemma filter_unique {A : Type} (key : A -> string) (p : A -> bool)
  (l : list A) (x : A) (k : string) :
  (forall y, p y = true <-> key y = k) ->
  NoDup (map key l) -> In x l -> key x = k -> filter p l = [x].
Proof.
  intros Hp. induction l as [|y l IH]; intros Hnd Hx Kx; [destruct Hx|].
  cbn [map] in Hnd. apply NoDup_cons_iff in Hnd as [Hy Hnd'].
  cbn [filter]. destruct Hx as [->|Hx].
  - rewrite (proj2 (Hp x) Kx). f_equal.
    apply filter_nothing. intros z Hz.
    destruct (p z) eqn:Ez; [|reflexivity].
    exfalso. apply Hy. apply Hp in Ez. rewrite Kx, <- Ez. now apply in_map.
  - destruct (p y) eqn:Ey.
    + exfalso. apply Hy. apply Hp in Ey. rewrite Ey, <- Kx. now apply in_map.
    + now apply IH.
Qed.

Lemma filter_all_or_none {A : Type} (p : A -> bool) (l : list A) (c : bool) :
  (forall z, In z l -> p z = c) -> filter p l = if c then l else [].
Proof.
  intros H. destruct c; [|now apply filter_nothing].
  induction l as [|z l IH]; [reflexivity|].
  cbn [filter]. rewrite (H z (or_introl eq_refl)). f_equal.
  apply IH. intros y Hy. apply H. now right.
Qed.

(** Selecting on the left table commutes with a left join. *)
Lemma filter_left_join {A B : Type} (on : A -> B -> bool) (p : A -> bool)
  (l : list A) (r : list B) :
  filter (fun q => p (fst q)) (left_join on l r)
  = left_join on (filter p l) r.
Proof.
  unfold left_join. induction l as [|a l IH]; [reflexivity|].
  cbn [flat_map filter]. rewrite filter_app, IH.
  rewrite (filter_all_or_none _ _ (p a)).
  - destruct (p a); reflexivity.
  - intros q Hq. destruct (filter (on a) r) as [|b ms].
    + destruct Hq as [<-|[]]. reflexivity.
    + apply in_map_iff in Hq as (b' & <- & _). reflexivity.
Qed.

(** With unique keys on all three tables the joined query returns the row
    of the roll number with its student and the building of its room. *)
Lemma get_allocation_by_roll_found (st : store) (roll : string)
  (a : allocation) (s : student) (rm : room) :
  NoDup (allocated_rolls st) -> store_wf st ->
  In a (seating_allocations st) -> alloc_roll_no a = roll ->
  In s (students st) -> roll_no s = roll ->
  In rm (rooms st) -> room_no rm = alloc_room_no a ->
  fst (get_allocation_by_roll roll st)
  = Some (mk_allocation_row a (Some s) (Some (building rm))).
Proof.
  intros Hnd [Hs Hr] Ha Ra Hin Rs Hrm Rrm.
  unfold get_allocation_by_roll. cbn [fst].
  rewrite (filter_left_join _ (fun p => (alloc_roll_no (fst p) =? roll)%string)).
  rewrite (filter_left_join _ (fun sa => (alloc_roll_no sa =? roll)%string)).
  rewrite (filter_unique alloc_roll_no _ _ a roll); try assumption;
    [|intros y; apply String.eqb_eq].
  unfold left_join. cbn [flat_map app].
  rewrite (filter_unique roll_no _ (students st) s roll); try assumption;
    [|intros y; rewrite String.eqb_eq, Ra; split; congruence].
  cbn [map flat_map app fst].
  rewrite (filter_unique room_no _ (rooms st) rm (alloc_room_no a));
    try assumption;
    [|intros y; rewrite String.eqb_eq; split; congruence].
  reflexivity.
Qed.

Lemma get_allocation_by_roll_missing (st : store) (roll : string) :
  ~ In roll (allocated_rolls st) ->
  fst (get_allocation_by_roll roll st) = None.
Proof.
  intros Hno. unfold get_allocation_by_roll. cbn [fst].
  rewrite (filter_left_join _ (fun p => (alloc_roll_no (fst p) =? roll)%string)).
  rewrite (filter_left_join _ (fun sa => (alloc_roll_no sa =? roll)%string)).
  rewrite filter_nothing; [reflexivity|].
  intros z Hz. apply String.eqb_neq. intros E. apply Hno.
  rewrite <- E. now apply in_map.
Qed.

(** X7. After [allocate_rollwise] on a store that meets the key constraints,
    [get_allocation_by_roll] finds what was written: for the student at
    position [i] of the roll order, below the number of seats, it returns
    the row of the [i]-th seat together with that student's details and the
    building of the seat's room; for a student beyond the seats and for a
    roll number that is no student's it returns nothing. *)
Theorem rollwise_then_lookup (st : store) (i : nat) :
  store_wf st -> students st <> [] -> rooms st <> [] ->
  let studs := roster st in
  let seats := build_room_seats (halls st) in
  let st' := snd (allocate_rollwise st) in
  (i < Nat.min (List.length studs) (List.length seats) ->
   exists rm,
     In rm (rooms st)
     /\ room_no rm = seat_room_no (nth i seats default_seat)
     /\ fst (get_allocation_by_roll
               (roll_no (nth i studs default_student)) st')
        = Some (mk_allocation_row
                  (seat_record "rollwise" (nth i studs default_student)
                     (nth i seats default_seat))
                  (Some (nth i studs default_student))
                  (Some (building rm))))
  /\ (List.length seats <= i < List.length studs ->
      fst (get_allocation_by_roll
             (roll_no (nth i studs default_student)) st') = None)
  /\ (forall roll, ~ In roll (map roll_no (students st)) ->
        fst (get_allocation_by_roll roll st') = None).
Proof.
  intros Hwf Hs Hr. cbv zeta.
  rewrite (allocate_rollwise_run st Hs Hr). cbn [snd].
  fold (roster st). fold (halls st).
  set (W := map (fun p => seat_record "rollwise" (fst p) (snd p))
              (combine (roster st) (build_room_seats (halls st)))).
  set (st' := logged _ _ (add_allocations W (cleared st))).
  assert (HW : seating_allocations st' = W) by reflexivity.
  assert (Hwf' : store_wf st') by exact Hwf.
  pose proof (roster_rolls_NoDup st Hwf) as Hrolls.
  pose proof (room_seats_NoDup _ (halls_numbers_NoDup st Hwf)) as Hseats.
  destruct (assigned_injective "rollwise" _ _ Hrolls Hseats) as [HndW _].
  assert (Hperm : forall s, In s (roster st) -> In s (students st))
    by (intros s; apply Permutation_in; symmetry; apply sorted_perm).
  split; [|split].
  - intros Hi.
    assert (Hseat : In (nth i (build_room_seats (halls st)) default_seat)
                      (build_room_seats (halls st)))
      by (apply nth_In; lia).
    apply room_seats_in_room, in_map_iff in Hseat as (rm & Erm & Hrm).
    exists rm.
    assert (Hrm' : In rm (rooms st))
      by (eapply Permutation_in; [symmetry; apply sorted_perm|exact Hrm]).
    split; [exact Hrm'|]. split; [exact Erm|].
    apply get_allocation_by_roll_found; try assumption; try reflexivity.
    + rewrite HW. eapply nth_error_In. apply assigned_nth. exact Hi.
    + apply Hperm, nth_In. lia.
  - intros Hi. apply get_allocation_by_roll_missing.
    unfold allocated_rolls. rewrite HW. unfold W.
    rewrite assigned_rolls, <- (map_nth roll_no).
    apply NoDup_nth_beyond; [exact Hrolls|now rewrite length_map].
  - intros roll Hno. apply get_allocation_by_roll_missing.
    unfold allocated_rolls. rewrite HW. unfold W. rewrite assigned_rolls.
    intros Hin. apply In_firstn in Hin. apply Hno.
    apply in_map_iff in Hin as (s & <- & Hin). apply in_map. now apply Hperm.
Qed.

Lemma rollwise_then_lookup_witness :
  store_wf sample_store /\ students sample_store <> []
  /\ rooms sample_store <> []
  /\ fst (get_allocation_by_roll "S5" (snd (allocate_rollwise sample_store)))
     = Some (mk_allocation_row
               (mk_allocation "S5" "102" 1 1 "102-R1C1" "rollwise")
               (Some (sample_student "S5" "CHE")) (Some "Main")).
Proof.
  assert (Hwf : store_wf sample_store).
  { split; cbn; repeat constructor; cbn; intuition discriminate. }
  assert (Hs : students sample_store <> []) by discriminate.
  assert (Hr : rooms sample_store <> []) by discriminate.
  split; [exact Hwf|]. split; [exact Hs|]. split; [exact Hr|].
  destruct (proj1 (rollwise_then_lookup sample_store 4 Hwf Hs Hr)
              ltac:(vm_compute; lia)) as (rm & Hin & Erm & Hget).
  etransitivity; [exact Hget|]. do 2 f_equal.
  destruct Hin as [<-|[<-|[]]]; [reflexivity|discriminate Erm].
Defined.

(** ** Uploads *)

Lemma find_app_first {A : Type} (p : A -> bool) (l1 l2 : list A) :
  find p (l1 ++ l2)
  = match find p l1 with Some x => Some x | None => find p l2 end.
Proof.
  induction l1 as [|x l1 IH]; [reflexivity|].
  cbn [app find]. destruct (p x); [reflexivity|exact IH].
Qed.

Lemma insert_students_find (roll : string) (df l : list student) :
  find (fun s => (roll_no s =? roll)%string) (fold_left insert_student_row df l)
  = match find (fun s => (roll_no s =? roll)%string) l with
    | Some x => Some x
    | None => find (fun s => (roll_no s =? roll)%string) df
    end.
Proof.
  revert l. induction df as [|row df IH]; intros l.
  - cbn. now destruct (find _ l).
  - cbn [fold_left]. rewrite IH. unfold insert_student_row.
    destruct (existsb _ l) eqn:E.
    + destruct (find _ l) as [x|] eqn:Ef; [reflexivity|].
      cbn [find]. destruct (String.eqb_spec (roll_no row) roll) as [R|R];
        [|reflexivity].
      apply existsb_exists in E as (s & Hs & Es).
      apply String.eqb_eq in Es.
      apply (find_none _ _ Ef) in Hs. rewrite Es, R, String.eqb_refl in Hs.
      discriminate.
    + rewrite find_app_first. destruct (find _ l); [reflexivity|].
      cbn [find]. now destruct (roll_no row =? roll)%string.
Qed.

Lemma insert_students_distinct (df l : list student) :
  NoDup (map roll_no (l ++ df)) -> fold_left insert_student_row df l = l ++ df.
Proof.
  revert l. induction df as [|row df IH]; intros l Hnd.
  - cbn. now rewrite app_nil_r.
  - cbn [fold_left].
    assert (Erow : insert_student_row l row = l ++ [row]).
    { unfold insert_student_row.
      destruct (existsb _ l) eqn:E; [|reflexivity].
      exfalso. apply existsb_exists in E as (s & Hs & Es).
      apply String.eqb_eq in Es.
      rewrite map_app in Hnd.
      apply (NoDup_app_disjoint _ _ (roll_no s) Hnd).
      - now apply in_map.
      - rewrite Es. now left. }
    rewrite Erow.
    change (row :: df) with ([row] ++ df) in Hnd.
    rewrite app_assoc in Hnd. rewrite (IH _ Hnd).
    now rewrite <- app_assoc.
Qed.

(** X8. Replacing the students by an upload ([clear_students] followed by
    [insert_students]) stores at most one student per roll number, and the
    one stored is the first row of the sheet with that roll number: later
    rows with the same roll number are dropped without notice.  When the
    roll numbers of the sheet are pairwise distinct the table is the sheet,
    and [get_all_students] returns its rows in ascending order of roll
    number.  Rooms, allocations and log are untouched. *)
Theorem upload_students_first_wins (df : list student) (st : store) :
  let st' := snd ((clear_students ;; insert_students df) st) in
  NoDup (map roll_no (students st'))
  /\ (forall roll,
        find (fun s => (roll_no s =? roll)%string) (students st')
        = find (fun s => (roll_no s =? roll)%string) df)
  /\ (NoDup (map roll_no df) ->
      students st' = df
      /\ fst (get_all_students st') = sorted roll_no df
      /\ Permutation df (fst (get_all_students st')))
  /\ rooms st' = rooms st
  /\ seating_allocations st' = seating_allocations st
  /\ activity_log st' = activity_log st.
Proof.
  cbv zeta. unfold bind, clear_students, insert_students.
  cbn [fst snd students rooms seating_allocations activity_log
         get_all_students].
  split; [|split; [|split]].
  - apply (insert_rows_NoDup roll_no). constructor.
  - intros roll. now rewrite insert_students_find.
  - intros Hnd. rewrite (insert_students_distinct df []) by exact Hnd.
    cbn [app]. repeat split. apply sorted_perm.
  - repeat split.
Qed.

(** ** What the operations leave alone *)

Lemma allocate_tables_kept (shuffle : nat -> list student -> list student)
  (st : store) :
  (students (snd (allocate_rollwise st)) = students st
   /\ rooms (snd (allocate_rollwise st)) = rooms st)
  /\ (students (snd (allocate_random shuffle st)) = students st
      /\ rooms (snd (allocate_random shuffle st)) = rooms st)
  /\ (students (snd (allocate_anti_cheating shuffle st)) = students st
      /\ rooms (snd (allocate_anti_cheating shuffle st)) = rooms st).
Proof.
  destruct (nil_or_not (students st)) as [Es|Hs].
  { rewrite allocate_rollwise_empty, allocate_random_empty,
      allocate_anti_cheating_empty by (now left).
    repeat split. }
  destruct (nil_or_not (rooms st)) as [Er|Hr].
  { rewrite allocate_rollwise_empty, allocate_random_empty,
      allocate_anti_cheating_empty by (now right).
    repeat split. }
  rewrite (allocate_rollwise_run st Hs Hr),
    (allocate_random_run shuffle st Hs Hr).
  destruct (Nat.lt_ge_cases (List.length (group_by_subject (roster st))) 2)
    as [Hg|Hg].
  - rewrite (allocate_anti_cheating_few shuffle st Hs Hr Hg). repeat split.
  - rewrite (allocate_anti_cheating_run shuffle st Hs Hr Hg). repeat split.
Qed.

Lemma swap_tables_kept (roll1 roll2 : string) (who : option string)
  (st : store) :
  students (snd (swap_seats roll1 roll2 who st)) = students st
  /\ rooms (snd (swap_seats roll1 roll2 who st)) = rooms st.
Proof.
  destruct (fst (fetch_allocation roll1 st)) as [a1|] eqn:E1;
    [|now rewrite (proj2 (swap_seats_missing roll1 roll2 who st
                            (or_introl E1)))].
  destruct (fst (fetch_allocation roll2 st)) as [a2|] eqn:E2;
    [|now rewrite (proj2 (swap_seats_missing roll1 roll2 who st
                            (or_intror E2)))].
  destruct (swap_seats_run roll1 roll2 who st a1 a2 E1 E2) as (d & ->).
  now split.
Qed.

(** X9. The key constraints are an invariant of the code: in every store
    reached from the empty tables through the write calls of database.py
    (uploads, clears, inserts, log entries) roll numbers and room numbers
    are pairwise distinct, and they still are after any of the three
    allocation operations and after [swap_seats]. *)
Theorem reachable_keeps_keys (shuffle : nat -> list student -> list student)
  (roll1 roll2 : string) (who : option string) (st : store) :
  reachable st ->
  store_wf st
  /\ store_wf (snd (allocate_rollwise st))
  /\ store_wf (snd (allocate_random shuffle st))
  /\ store_wf (snd (allocate_anti_cheating shuffle st))
  /\ store_wf (snd (swap_seats roll1 roll2 who st)).
Proof.
  intros Hreach.
  assert (Hwf : store_wf st).
  { induction Hreach as [|st m _ [Hs Hr] Hm].
    - split; constructor.
    - destruct Hm; split; cbn; try assumption; try constructor.
      + now apply (insert_rows_NoDup roll_no).
      + now apply (insert_rows_NoDup room_no). }
  destruct (allocate_tables_kept shuffle st)
    as ([S1 R1] & [S2 R2] & [S3 R3]).
  destruct (swap_tables_kept roll1 roll2 who st) as [S4 R4].
  unfold store_wf in *.
  rewrite S1, R1, S2, R2, S3, R3, S4, R4. tauto.
Qed.

Lemma reachable_keeps_keys_witness :
  reachable
    (snd (insert_rooms sample_rooms
            (snd (insert_students (students sample_store)
                    (mk_store [] [] [] [])))))
  /\ store_wf
       (snd (allocate_rollwise
               (snd (insert_rooms sample_rooms
                       (snd (insert_students (students sample_store)
                               (mk_store [] [] [] []))))))).
Proof.
  assert (H : reachable
                (snd (insert_rooms sample_rooms
                        (snd (insert_students (students sample_store)
                                (mk_store [] [] [] [])))))).
  { apply reach_write; [|apply write_insert_rooms].
    apply reach_write; [|apply write_insert_students].
    apply reach_created. }
  split; [exact H|].
  exact (proj1 (proj2 (reachable_keeps_keys sample_shuffle "S1" "S2" None
                         _ H))).
Defined.

(** ** More on the zig-zag scan *)

Lemma firstn_own_length {A : Type} (k : nat) (l : list A) :
  firstn (List.length (firstn k l)) l = firstn k l.
Proof.
  rewrite length_firstn.
  destruct (Nat.le_gt_cases k (List.length l)).
  - now rewrite Nat.min_l.
  - rewrite Nat.min_r by lia. rewrite firstn_all.
    symmetry. apply firstn_all2. lia.
Qed.

(** The scan fills the seats in order and leaves none out while a student
    is left. *)
Lemma zz_rows_prefix (group_a group_b : list student) (ps : list position)
  (a b : nat) :
  a <= List.length group_a -> b <= List.length group_b ->
  map seat_of (zz_rows group_a group_b (a, b) ps)
  = firstn (List.length group_a + List.length group_b - (a + b))
      (map pos_of ps).
Proof.
  revert a b. induction ps as [|p ps IH]; intros a b Ha Hb.
  - cbn. now rewrite firstn_nil.
  - cbn [zz_rows map]. rewrite map_app.
    pose proof (zz_next_count group_a group_b a b p Ha Hb) as Hn.
    assert (Hrow :
              (a + b < List.length group_a + List.length group_b ->
               map seat_of (zz_row group_a group_b (a, b) p) = [pos_of p])
              /\ (List.length group_a + List.length group_b <= a + b ->
                  zz_row group_a group_b (a, b) p = [])).
    { zz_cases p; split; intros; try lia; reflexivity. }
    destruct (zz_next _ _ (a, b) p) as [a1 b1].
    destruct Hn as (Ha1 & Hb1 & Hsum).
    rewrite (IH a1 b1 (proj2 Ha1) (proj2 Hb1)).
    destruct (Nat.lt_ge_cases (a + b)
                (List.length group_a + List.length group_b)) as [Hlt|Hge].
    + rewrite (proj1 Hrow Hlt).
      replace (List.length group_a + List.length group_b - (a + b))
        with (S (List.length group_a + List.length group_b - (a1 + b1)))
        by lia.
      reflexivity.
    + rewrite (proj2 Hrow Hge).
      replace (List.length group_a + List.length group_b - (a + b))
        with 0 by lia.
      replace (List.length group_a + List.length group_b - (a1 + b1))
        with 0 by lia.
      reflexivity.
Qed.

(** X10. The zig-zag scan leaves no gap: on an accepted input the rows of
    [allocate_anti_cheating], in the order written, occupy the seats of the
    seat sequence of the first two strategies from its first seat on, one
    after the other, as many as there are rows. *)
Theorem zigzag_fills_prefix
  (shuffle : nat -> list student -> list student) (st : store) :
  students st <> [] -> rooms st <> [] ->
  2 <= List.length (group_by_subject (roster st)) ->
  let written := seating_allocations (snd (allocate_anti_cheating shuffle st)) in
  map seat_of written
  = firstn (List.length written)
      (map seat_pos (build_room_seats (halls st))).
Proof.
  intros Hs Hr Hg. cbv zeta.
  rewrite (allocate_anti_cheating_run shuffle st Hs Hr Hg).
  cbn [snd]. rewrite written_rows, <- scan_positions_seats.
  rewrite <- (length_map seat_of).
  rewrite (zz_rows_prefix _ _ _ 0 0 (Nat.le_0_l _) (Nat.le_0_l _)).
  symmetry. apply firstn_own_length.
Qed.

Lemma zigzag_fills_prefix_witness :
  students sample_store <> [] /\ rooms sample_store <> []
  /\ 2 <= List.length (group_by_subject (roster sample_store))
  /\ map seat_of
       (seating_allocations
          (snd (allocate_anti_cheating sample_shuffle sample_store)))
     = [("101", 1%Z, 1%Z); ("101", 1%Z, 2%Z); ("101", 2%Z, 1%Z);
        ("101", 2%Z, 2%Z)].
Proof.
  assert (Hs : students sample_store <> []) by discriminate.
  assert (Hr : rooms sample_store <> []) by discriminate.
  assert (Hg : 2 <= List.length (group_by_subject (roster sample_store)))
    by (vm_compute; lia).
  split; [exact Hs|]. split; [exact Hr|]. split; [exact Hg|].
  exact (zigzag_fills_prefix sample_shuffle sample_store Hs Hr Hg).
Defined.

Lemma first_seen_complete (seen l : list string) (k : string) :
  In k l -> In k seen \/ In k (first_seen seen l).
Proof.
  revert seen. induction l as [|c l IH]; intros seen Hk; [destruct Hk|].
  cbn [first_seen]. destruct (existsb _ seen) eqn:E.
  - destruct Hk as [<-|Hk]; [|now apply IH].
    left. apply existsb_exists in E as (x & Hx & Ex).
    apply String.eqb_eq in Ex. now subst.
  - destruct Hk as [<-|Hk]; [right; now left|].
    destruct (IH (seen ++ [c]) Hk) as [H|H].
    + apply in_app_iff in H as [H|[<-|[]]]; [now left|right; now left].
    + right. now right.
Qed.

(** X11. With seats for both selected groups (their sizes together not above
    the number of seats scanned), [allocate_anti_cheating] seats every
    student of the two groups; so when the students have exactly two subject
    codes, every student gets a row. *)
Theorem zigzag_seats_both_groups
  (shuffle : nat -> list student -> list student) (st : store) :
  fair shuffle -> students st <> [] -> rooms st <> [] ->
  2 <= List.length (group_by_subject (roster st)) ->
  let ca := course_a_of (roster st) in
  let cb := course_b_of (roster st) in
  List.length (filter (fun s => (subject_code s =? ca)%string) (roster st))
  + List.length (filter (fun s => (subject_code s =? cb)%string) (roster st))
  <= list_sum (map (fun rm => nrows rm * ncols rm) (rooms st)) ->
  let st' := snd (allocate_anti_cheating shuffle st) in
  (forall s, In s (students st) ->
     subject_code s = ca \/ subject_code s = cb ->
     In (roll_no s) (allocated_rolls st'))
  /\ (List.length (group_by_subject (roster st)) = 2 ->
      forall s, In s (students st) -> In (roll_no s) (allocated_rolls st')).
Proof.
  intros Hf Hs Hr Hg. cbv zeta. intros Hroom.
  rewrite (allocate_anti_cheating_run shuffle st Hs Hr Hg).
  cbn [snd]. unfold allocated_rolls. rewrite written_rows.
  set (ga := group_a_of shuffle (roster st)).
  set (gb := group_b_of shuffle (roster st)).
  pose proof (group_a_perm shuffle (roster st) Hf) as Pa.
  pose proof (group_b_perm shuffle (roster st) Hf) as Pb.
  fold ga in Pa. fold gb in Pb.
  rewrite (Permutation_length Pa), (Permutation_length Pb) in Hroom.
  pose proof (zz_rows_rolls ga gb (scan_positions (halls st)) 0 0) as Hrolls.
  pose proof (zz_final_count ga gb (scan_positions (halls st)) 0 0
                (Nat.le_0_l _) (Nat.le_0_l _)) as Hcount.
  rewrite scan_positions_length in Hcount.
  rewrite (seats_count_perm (halls st) (rooms st)) in Hcount
    by (symmetry; apply sorted_perm).
  destruct (zz_final _ _ (0, 0) _) as [a b].
  destruct Hcount as (Ha & Hb & Hsum).
  assert (a = List.length ga) by lia. assert (b = List.length gb) by lia.
  subst a b. rewrite !firstn_all in Hrolls. cbn [firstn map app] in Hrolls.
  assert (Hall : forall s, In s (students st) ->
             subject_code s = course_a_of (roster st)
             \/ subject_code s = course_b_of (roster st) ->
             In (roll_no s)
               (map alloc_roll_no
                  (zz_rows ga gb (0, 0) (scan_positions (halls st))))).
  { intros s Hin Hc.
    apply (Permutation_in _ (Permutation_sym Hrolls)), in_or_app.
    assert (Hin' : In s (roster st))
      by (eapply Permutation_in; [apply sorted_perm|exact Hin]).
    destruct Hc as [Hc|Hc]; [left|right]; apply in_map.
    - apply (Permutation_in _ Pa), filter_In. split; [exact Hin'|].
      now apply String.eqb_eq.
    - apply (Permutation_in _ Pb), filter_In. split; [exact Hin'|].
      now apply String.eqb_eq. }
  split; [exact Hall|].
  intros H2 s Hin. apply Hall; [exact Hin|].
  assert (Hk : In (subject_code s) (dd_keys (group_by_subject (roster st)))).
  { rewrite group_by_subject_keys.
    destruct (first_seen_complete [] (map subject_code (roster st))
                (subject_code s)) as [[]|H]; [|exact H].
    apply in_map. eapply Permutation_in; [apply sorted_perm|exact Hin]. }
  unfold course_a_of, course_b_of. rewrite group_count in H2.
  destruct (dd_keys (group_by_subject (roster st))) as [|k1 [|k2 [|k3 ks]]];
    try discriminate.
  cbn. destruct Hk as [<-|[<-|[]]]; auto.
Qed.

Lemma zigzag_seats_both_groups_witness :
  fair sample_shuffle /\ students sample_store <> []
  /\ rooms sample_store <> []
  /\ 2 <= List.length (group_by_subject (roster sample_store))
  /\ 2 + 2 <= 6
  /\ In "S4"
       (allocated_rolls
          (snd (allocate_anti_cheating sample_shuffle sample_store))).
Proof.
  assert (Hs : students sample_store <> []) by discriminate.
  assert (Hr : rooms sample_store <> []) by discriminate.
  assert (Hg : 2 <= List.length (group_by_subject (roster sample_store)))
    by (vm_compute; lia).
  assert (Hseats : 2 + 2 <= 6) by lia.
  split; [exact sample_shuffle_fair|]. split; [exact Hs|].
  split; [exact Hr|]. split; [exact Hg|]. split; [exact Hseats|].
  apply (proj1 (zigzag_seats_both_groups sample_shuffle sample_store
                  sample_shuffle_fair Hs Hr Hg Hseats)
           (sample_student "S4" "MAT")).
  - cbn. tauto.
  - left. reflexivity.
Defined.




(** ** Tags and labels *)

Lemma room_seats_labelled (rms : list room) (s : seat) :
  In s (build_room_seats rms) ->
  seat_number s = seat_label (seat_room_no s) (seat_row s) (seat_col s).
Proof.
  rewrite room_seats_row_major, in_flat_map.
  intros (rm & _ & Hs). apply in_map_iff in Hs as (k & <- & _). reflexivity.
Qed.

Lemma assigned_rows_labelled (method : string) (studs : list student)
  (rms : list room) (x : allocation) :
  In x (map (fun p => seat_record method (fst p) (snd p))
          (combine studs (build_room_seats rms))) ->
  allocation_method x = method
  /\ alloc_seat_number x
     = seat_label (alloc_room_no x) (row_num x) (col_num x).
Proof.
  intros Hx. apply in_map_iff in Hx as ([stu s] & <- & Hin).
  apply in_combine_r in Hin. split; [reflexivity|].
  exact (room_seats_labelled rms s Hin).
Qed.

Lemma zz_rows_labelled (group_a group_b : list student) (ps : list position)
  (s : nat * nat) (x : allocation) :
  In x (zz_rows group_a group_b s ps) ->
  allocation_method x = "anti-cheating"
  /\ alloc_seat_number x
     = seat_label (alloc_room_no x) (row_num x) (col_num x).
Proof.
  revert s. induction ps as [|p ps IH]; intros s; [intros []|].
  cbn [zz_rows]. rewrite in_app_iff. intros [Hx|Hx]; [|eapply IH, Hx].
  destruct s as [a b]. revert Hx.
  zz_cases p; cbn [In]; intros Hx;
    repeat destruct Hx as [Hx|Hx]; try contradiction; subst;
    split; reflexivity.
Qed.

(** X13. Each of the three allocation operations leaves the students and
    the rooms as they are, and every row it writes carries the operation's
    method tag ("rollwise", "random", "anti-cheating") and a seat label that
    spells the row's own room number, row and column; [swap_seats] keeps
    labels in step with seats, since it moves the label with the seat. *)
Theorem rows_tagged_and_labelled
  (shuffle : nat -> list student -> list student) (st : store) :
  ((students (snd (allocate_rollwise st)) = students st
    /\ rooms (snd (allocate_rollwise st)) = rooms st)
   /\ (students (snd (allocate_random shuffle st)) = students st
       /\ rooms (snd (allocate_random shuffle st)) = rooms st)
   /\ (students (snd (allocate_anti_cheating shuffle st)) = students st
       /\ rooms (snd (allocate_anti_cheating shuffle st)) = rooms st))
  /\ (forall x, In x (seating_allocations (snd (allocate_rollwise st))) ->
        allocation_method x = "rollwise"
        /\ alloc_seat_number x
           = seat_label (alloc_room_no x) (row_num x) (col_num x))
  /\ (forall x,
        In x (seating_allocations (snd (allocate_random shuffle st))) ->
        allocation_method x = "random"
        /\ alloc_seat_number x
           = seat_label (alloc_room_no x) (row_num x) (col_num x))
  /\ (forall x,
        In x (seating_allocations (snd (allocate_anti_cheating shuffle st))) ->
        allocation_method x = "anti-cheating"
        /\ alloc_seat_number x
           = seat_label (alloc_room_no x) (row_num x) (col_num x))
  /\ (forall roll1 roll2 who,
        (forall x, In x (seating_allocations st) ->
           alloc_seat_number x
           = seat_label (alloc_room_no x) (row_num x) (col_num x)) ->
        forall x,
          In x (seating_allocations (snd (swap_seats roll1 roll2 who st))) ->
          alloc_seat_number x
          = seat_label (alloc_room_no x) (row_num x) (col_num x)).
Proof.
  split; [apply allocate_tables_kept|]. split; [|split; [|split]].
  - intros x. rewrite rollwise_written. apply assigned_rows_labelled.
  - intros x. destruct (random_written shuffle st) as [E|E]; rewrite E.
    + intros [].
    + apply assigned_rows_labelled.
  - intros x.
    destruct (anti_cheating_written shuffle st) as [E|[_ E]]; rewrite E.
    + intros [].
    + apply zz_rows_labelled.
  - intros roll1 roll2 who Hok x.
    destruct (fst (fetch_allocation roll1 st)) as [a1|] eqn:E1;
      [|rewrite (proj2 (swap_seats_missing roll1 roll2 who st
                          (or_introl E1))); apply Hok].
    destruct (fst (fetch_allocation roll2 st)) as [a2|] eqn:E2;
      [|rewrite (proj2 (swap_seats_missing roll1 roll2 who st
                          (or_intror E2))); apply Hok].
    destruct (swap_seats_run roll1 roll2 who st a1 a2 E1 E2) as (d & ->).
    cbn [snd seating_allocations]. intros Hx.
    apply in_map_iff in Hx as (y & <- & Hy).
    unfold fetch_allocation in E1, E2. cbn [fst] in E1, E2.
    apply find_some in E1 as [H1 _]. apply find_some in E2 as [H2 _].
    unfold swapped_row, reseat.
    destruct (_ =? roll2)%string; [exact (Hok a1 H1)|].
    destruct (_ =? roll1)%string; [exact (Hok a2 H2)|exact (Hok y Hy)].
Qed.

(** ** Users *)

(** X14. [insert_user] returns [True] exactly when the username is new.
    Then [get_user_by_username] finds the row just inserted, with
    [is_admin] 1 when the caller gave none.  When the username is taken the
    table is left as it is, so registering again never replaces a stored
    password hash.  Either way the rows of other usernames are found as
    before, and usernames stay pairwise distinct. *)
Theorem insert_user_get (uname hash : string) (admin : option Z)
  (users : list user) :
  let ok := fst (insert_user uname hash admin users) in
  let users' := snd (insert_user uname hash admin users) in
  (ok = true <-> get_user_by_username uname users = None)
  /\ (ok = true ->
      get_user_by_username uname users'
      = Some (mk_user uname hash
                (match admin with Some v => v | None => 1%Z end)))
  /\ (ok = false ->
      users' = users
      /\ get_user_by_username uname users'
         = get_user_by_username uname users)
  /\ (forall other, other <> uname ->
        get_user_by_username other users'
        = get_user_by_username other users)
  /\ (NoDup (map username users) -> NoDup (map username users')).
Proof.
  cbv zeta. unfold insert_user, get_user_by_username.
  destruct (existsb (fun u => (username u =? uname)%string) users) eqn:E;
    cbn [fst snd].
  - apply existsb_exists in E as (u & Hu & Eu).
    destruct (find (fun u => (username u =? uname)%string) users) eqn:Ef;
      [|apply (find_none _ _ Ef) in Hu; congruence].
    repeat split; try discriminate; auto.
  - assert (Ef : find (fun u => (username u =? uname)%string) users = None).
    { destruct (find _ users) as [u|] eqn:Ef; [|reflexivity].
      apply find_some in Ef as [Hu Eu].
      apply Bool.not_true_iff_false in E. exfalso. apply E.
      apply existsb_exists. now exists u. }
    repeat split; try discriminate; auto.
    + intros _. rewrite find_app_first, Ef. cbn.
      now rewrite String.eqb_refl.
    + intros other Hother. rewrite find_app_first.
      destruct (find (fun u => (username u =? other)%string) users);
        [reflexivity|].
      cbn. destruct (String.eqb_spec uname other); congruence.
    + intros Hnd. rewrite map_app. apply NoDup_app;
        [exact Hnd|repeat constructor; intros []|].
      intros k Hk [<-|[]]. cbn in Hk.
      apply in_map_iff in Hk as (u & Eu & Hu).
      apply (find_none _ _ Ef) in Hu. rewrite Eu, String.eqb_refl in Hu.
      discriminate.
Qed.

(** ** File names *)

Lemma has_dot_app (s1 s2 : string) :
  has_dot (s1 ++ s2) = has_dot s1 || has_dot s2.
Proof.
  induction s1 as [|c s1 IH]; [reflexivity|].
  cbn [String.append has_dot]. now rewrite IH, orb_assoc.
Qed.

Lemma after_last_dot_split (f : string) :
  has_dot f = true ->
  exists stem,
    f = (stem ++ "." ++ after_last_dot f)%string
    /\ has_dot (after_last_dot f) = false.
Proof.
  induction f as [|c f IH]; [discriminate|].
  cbn [has_dot after_last_dot]. intros H.
  destruct (has_dot f) eqn:Hf.
  - destruct (IH eq_refl) as (stem & E & Hno).
    exists (String c stem). split; [|exact Hno].
    cbn [String.append]. f_equal. exact E.
  - rewrite orb_false_r in H. rewrite H.
    apply Ascii.eqb_eq in H. subst c.
    exists EmptyString. split; [reflexivity|exact Hf].
Qed.

Lemma after_last_dot_join (stem ext : string) :
  has_dot ext = false -> after_last_dot (stem ++ "." ++ ext) = ext.
Proof.
  intros Hext. induction stem as [|c stem IH].
  - cbn. now rewrite Hext.
  - cbn [String.append after_last_dot].
    change (stem ++ String "." ext)%string with (stem ++ "." ++ ext)%string.
    rewrite has_dot_app. cbn [String.append has_dot Ascii.eqb Bool.eqb].
    cbn. rewrite orb_true_r. exact IH.
Qed.

(** X15. [allowed_file] accepts exactly the names of the form stem, dot,
    extension in which the extension has no dot and is "csv", "xlsx" or
    "xls" up to the case of its ASCII letters: only what follows the last
    dot counts, the stem may be empty, and a name without a dot is
    refused. *)
Theorem allowed_file_spec (filename : string) :
  allowed_file filename = true
  <-> exists stem ext,
        filename = (stem ++ "." ++ ext)%string
        /\ has_dot ext = false
        /\ In (lower ext) ["csv"; "xlsx"; "xls"].
Proof.
  unfold allowed_file. rewrite andb_true_iff, existsb_exists. split.
  - intros [Hdot (x & Hx & Ex)]. apply String.eqb_eq in Ex.
    destruct (after_last_dot_split filename Hdot) as (stem & E & Hno).
    exists stem, (after_last_dot filename).
    split; [exact E|]. split; [exact Hno|]. now rewrite Ex.
  - intros (stem & ext & -> & Hno & Hin). split.
    + rewrite has_dot_app. cbn. now rewrite orb_true_r.
    + exists (lower ext). split; [exact Hin|].
      rewrite (after_last_dot_join stem ext Hno). apply String.eqb_refl.
Qed.

(** ** The joined lookup as three keyed lookups *)

Lemma filter_keyed {A : Type} (key : A -> string) (k : string) (l : list A) :
  NoDup (map key l) ->
  filter (fun y => (key y =? k)%string) l
  = match find (fun y => (key y =? k)%string) l with
    | Some x => [x]
    | None => []
    end.
Proof.
  intros Hnd.
  destruct (find (fun y => (key y =? k)%string) l) as [x|] eqn:Ef.
  - apply find_some in Ef as [Hx Kx]. apply String.eqb_eq in Kx.
    apply (filter_unique key _ l x k); try assumption.
    intros y. apply String.eqb_eq.
  - apply filter_nothing. intros z Hz. exact (find_none _ _ Ef z Hz).
Qed.

(** X16. With pairwise distinct roll numbers in the allocation table and the
    key constraints on students and rooms, [get_allocation_by_roll] is three
    keyed lookups: nothing when the roll number has no row; otherwise that
    row, with the student of that roll number if there still is one and the
    building of the room of that number if there is one.  A row whose
    student has been removed since is still returned, without student
    details. *)
Theorem get_allocation_by_roll_spec (roll : string) (st : store) :
  NoDup (allocated_rolls st) -> store_wf st ->
  fst (get_allocation_by_roll roll st)
  = match fst (fetch_allocation roll st) with
    | None => None
    | Some a =>
        Some (mk_allocation_row a
                (find (fun s => (roll_no s =? roll)%string) (students st))
                (option_map building
                   (find (fun rm => (room_no rm =? alloc_room_no a)%string)
                      (rooms st))))
    end
  /\ snd (get_allocation_by_roll roll st) = st.
Proof.
  intros Hnd [Hs Hr]. split; [|reflexivity].
  unfold get_allocation_by_roll, fetch_allocation. cbn [fst].
  rewrite (filter_left_join _ (fun p => (alloc_roll_no (fst p) =? roll)%string)).
  rewrite (filter_left_join _ (fun sa => (alloc_roll_no sa =? roll)%string)).
  rewrite (filter_keyed alloc_roll_no roll _ Hnd).
  destruct (find (fun y => (alloc_roll_no y =? roll)%string)
              (seating_allocations st)) as [a|] eqn:Ea; [|reflexivity].
  apply find_some in Ea as [_ Ra]. apply String.eqb_eq in Ra.
  unfold left_join. cbn [flat_map app].
  assert (Efs : filter (fun s => (alloc_roll_no a =? roll_no s)%string)
                  (students st)
                = filter (fun s => (roll_no s =? roll)%string) (students st)).
  { apply filter_ext. intros s. now rewrite Ra, String.eqb_sym. }
  assert (Efr : forall q : allocation * option student,
             fst q = a ->
             filter (fun rm => (alloc_room_no (fst q) =? room_no rm)%string)
               (rooms st)
             = filter (fun rm => (room_no rm =? alloc_room_no a)%string)
                 (rooms st)).
  { intros q ->. apply filter_ext. intros rm. apply String.eqb_sym. }
  rewrite Efs, (filter_keyed roll_no roll _ Hs).
  destruct (find (fun s => (roll_no s =? roll)%string) (students st))
    as [s|]; cbn [map flat_map app];
    rewrite (Efr (a, _) eq_refl), (filter_keyed room_no _ _ Hr);
    destruct (find (fun rm => (room_no rm =? alloc_room_no a)%string)
                (rooms st)); reflexivity.
Qed.

Lemma get_allocation_by_roll_spec_witness :
  NoDup (allocated_rolls sample_store) /\ store_wf sample_store
  /\ fst (get_allocation_by_roll "S9" sample_store)
     = Some (mk_allocation_row
               (mk_allocation "S9" "101" 1 1 "101-R1C1" "random")
               None (Some "Main")).
Proof.
  assert (Hnd : NoDup (allocated_rolls sample_store))
    by (cbn; repeat constructor; cbn; intuition discriminate).
  assert (Hwf : store_wf sample_store).
  { split; cbn; repeat constructor; cbn; intuition discriminate. }
  split; [exact Hnd|]. split; [exact Hwf|].
  exact (proj1 (get_allocation_by_roll_spec "S9" sample_store Hnd Hwf)).
Defined.
